(** * CAIGA companion: the decision engine, embedded and verified

    Shallow embedding of the Python sources under [companion/]:
    - [model_utils.py]      the rule-based classifier ([ModelUtils._rules]);
    - [companion_server.py] tip selection, event boost, cooldowns, the
                            evaluation cycle, the polling loop, the routes
                            and the persisted state;
    - [llm_wrapper.py]      the formatter ([paraphrase_with_context], [_trim]);
    - [tips_dataset.py]     the tip bank and the way it is loaded.

    Conventions of the embedding.
    - A Python [int] is a [Z]; a Python [float] is read as the exact
      rational it denotes, a [Q]; infinities and NaN are outside the
      model.  Comparisons of floats are comparisons of rationals.  What
      ranks the candidates in [_select_tip] (the event boost, the time
      factor and the score) is computed as Python computes it: each
      operation is rounded to binary64 ([Binary64.round]); elsewhere an
      operation on floats is the operation on rationals.
    - A Python [str] is a [string]; its characters are code points below 256.
    - A [dict] keyed by strings is a [gmap string _]; [d.get(k, dflt)] is
      [default dflt (d !! k)].
    - [time.time()] is an explicit argument of the function that reads it.
    - What the outside world answers (the dispatch sink, the state file,
      the LLM service) is an explicit argument as well. *)

From Stdlib Require Import ZArith QArith Qabs Qminmax Qround Qpower Lqa Lia.
From Stdlib Require Import List Ascii String Bool.
From stdpp Require Import base option gmap strings.

Import ListNotations.
Open Scope string_scope.
Open Scope Q_scope.

(** ** Numbers *)

(** [a < b] on floats, as a boolean. *)
Definition Qltb (a b : Q) : bool := negb (Qle_bool b a).

(** Python's [float] is the binary64 format of IEEE 754: an operation on
    floats returns the exact result rounded to the nearest float, a tie
    going to the float whose significand is even. [round] is this rounding
    on the rationals: 53 significant bits, subnormal numbers down to
    [2^-1074]. Results are taken to stay below [2^1024]: no overflow to
    infinity. *)
Module Binary64.

(** The exponent of the power of two at or below a positive [q]. *)
Definition binade (q : Q) : Z :=
  let z := (Z.log2 (Qnum q) - Z.log2 (Zpos (Qden q)))%Z in
  if Qle_bool (2 ^ z) q then z else (z - 1)%Z.

(** The nearest integer, a tie going to the even one. *)
Definition rne (x : Q) : Z :=
  let f := Qfloor x in
  let r := x - inject_Z f in
  if Qltb r (1 # 2) then f
  else if Qltb (1 # 2) r then (f + 1)%Z
  else if Z.even f then f else (f + 1)%Z.

(** The exponent of the unit in the last place of the floats around a
    positive [q]. *)
Definition quantum (q : Q) : Z := Z.max (binade q - 52) (-1074).

Definition round_pos (q : Q) : Q :=
  let k := quantum q in inject_Z (rne (q / 2 ^ k)) * 2 ^ k.

Definition round (q : Q) : Q :=
  if Qltb 0 q then round_pos q
  else if Qltb q 0 then - round_pos (- q)
  else 0.

End Binary64.

(** ** Python strings *)

Module PyStr.

(** [w in s] for strings: [w] occurs in [s] as a contiguous run. *)
Fixpoint contains (w s : string) : bool :=
  String.prefix w s ||
  match s with
  | EmptyString => false
  | String _ s' => contains w s'
  end.

(** [str.lower()] on one code point below 256: A-Z, and the Latin-1
    capitals U+00C0..U+00DE except the multiplication sign U+00D7. *)
Definition lower_char (c : ascii) : ascii :=
  let n := N_of_ascii c in
  if ((65 <=? n) && (n <=? 90))%N then ascii_of_N (n + 32)
  else if ((192 <=? n) && (n <=? 222) && negb (n =? 215))%N then ascii_of_N (n + 32)
  else c.

Fixpoint lower (s : string) : string :=
  match s with
  | EmptyString => EmptyString
  | String c s' => String (lower_char c) (lower s')
  end.

(** [c.isspace()] for a code point below 256. *)
Definition is_space (c : ascii) : bool :=
  let n := N_of_ascii c in
  ((9 <=? n) && (n <=? 13) || (28 <=? n) && (n <=? 32)
   || (n =? 133) || (n =? 160))%N.

(** [s.lstrip()] *)
Fixpoint lstrip (s : string) : string :=
  match s with
  | EmptyString => EmptyString
  | String c s' => if is_space c then lstrip s' else s
  end.

(** [s.rstrip()]: a character is dropped when it is white space and
    nothing but white space follows it. *)
Fixpoint rstrip (s : string) : string :=
  match s with
  | EmptyString => EmptyString
  | String c s' =>
      match rstrip s' with
      | EmptyString => if is_space c then EmptyString else String c EmptyString
      | r => String c r
      end
  end.

(** [s.strip()] *)
Definition strip (s : string) : string := rstrip (lstrip s).

(** [len(s)] *)
Definition len (s : string) : Z := Z.of_nat (String.length s).

(** [s[:k]]: a negative [k] counts from the end of [s]. *)
Definition slice_to (s : string) (k : Z) : string :=
  if (0 <=? k)%Z then String.substring 0 (Z.to_nat k) s
  else String.substring 0 (Z.to_nat (len s + k)) s.

(** [sep.join(l)] *)
Fixpoint join (sep : string) (l : list string) : string :=
  match l with
  | [] => EmptyString
  | [x] => x
  | x :: l' => x ++ sep ++ join sep l'
  end.

(** [s.replace(old, new)] for a non-empty [old]: occurrences are found
    left to right and do not overlap; [skip] counts the characters of a
    replaced occurrence that are still to be passed over. *)
Fixpoint replace_from (skip : nat) (old new s : string) : string :=
  match s with
  | EmptyString => EmptyString
  | String c s' =>
      match skip with
      | S k => replace_from k old new s'
      | O =>
          if String.prefix old s
          then new ++ replace_from (String.length old - 1) old new s'
          else String c (replace_from O old new s')
      end
  end.

Definition replace (s old new : string) : string := replace_from O old new s.

End PyStr.

(** ** model_utils.py *)

(** One record of the state source's [recentEvents]; both keys may be
    absent from the JSON object. *)
Record Event := {
  ev_type : option string;
  ev_timestamp : option Q
}.

(** The fields of the polled state document that the engine reads. A
    missing key is [None]; the reader applies its default. *)
Record Snapshot := {
  vitals_health : option Q;
  vitals_hunger : option Z;
  time_isNight : option bool;
  inventory_logs : option Z;
  position_y : option Q;
  focus_blockUnderCrosshair : option string;
  state_timestamp : option string;
  recentEvents : list Event
}.

(** What a classifier returns: label, confidence, distribution. *)
Definition Prediction : Type := string * Q * gmap string Q.

Definition pred_label (p : Prediction) : string := fst (fst p).
Definition pred_conf (p : Prediction) : Q := snd (fst p).
Definition pred_dist (p : Prediction) : gmap string Q := snd p.

Module ModelUtils.

(** [labels] of [_rules]. *)
Definition labels : list string :=
  ["low_health"; "low_food"; "night_risk"; "mining_mode";
   "near_resource"; "exploring"; "combat"; "building"].

(** [{e.get("type", "") for e in events}]; only membership is asked of it. *)
Definition event_types (events : list Event) : list string :=
  map (fun e => default "" (ev_type e)) events.

(** ["t" in event_types] *)
Definition has_type (t : string) (events : list Event) : bool :=
  existsb (String.eqb t) (event_types events).

(** [any(w in blk for w in ("ore", "log", "crop"))] on the lowered focus. *)
Definition near_resource (state : Snapshot) : bool :=
  let blk := PyStr.lower (default "" (focus_blockUnderCrosshair state)) in
  existsb (fun w => PyStr.contains w blk) ["ore"; "log"; "crop"].

(** The [if]/[elif] chain of [_rules]: label and confidence. *)
Definition rules_label_conf (state : Snapshot) (events : list Event) : string * Q :=
  let health := default 20 (vitals_health state) in
  let hunger := default 20%Z (vitals_hunger state) in
  let is_night := default false (time_isNight state) in
  let logs := default 0%Z (inventory_logs state) in
  let y := default 64 (position_y state) in
  let mine_attempt := has_type "mine_attempt" events || has_type "block_broken" events in
  let took_damage := has_type "damage_taken" events in
  let combat_active := has_type "combat_start" events || has_type "mob_killed" events in
  let died_recently := has_type "player_death" events in
  if died_recently then ("low_health", 0.98)
  else if took_damage && Qltb health 10 then ("low_health", 0.95)
  else if combat_active then ("combat", 0.90)
  else if Qltb health 8 then ("low_health", 0.95)
  else if (hunger <? 6)%Z then ("low_food", 0.90)
  else if is_night && (logs <? 2)%Z then ("night_risk", 0.85)
  else if mine_attempt || Qle_bool y 32 then ("mining_mode", 0.75)
  else if near_resource state then ("near_resource", 0.70)
  else ("exploring", 0.60).

(** The distribution built at the end of [_rules]: every label at 0.0,
    the chosen label at [conf], then every other label at [rem]. *)
Definition rules_dist (label : string) (conf : Q) : gmap string Q :=
  let dist0 : gmap string Q := list_to_map (map (fun l => (l, 0)) labels) in
  let dist1 := <[label := conf]> dist0 in
  let rem := (1 - conf) / inject_Z (Z.of_nat (length labels) - 1) in
  fold_left (fun d l => if String.eqb l label then d else <[l := rem]> d) labels dist1.

Definition _rules (state : Snapshot) (events : list Event) : Prediction :=
  let '(label, conf) := rules_label_conf state events in
  (label, conf, rules_dist label conf).

(** The trained classifier is opaque: [None] when the artifacts were not
    loaded; otherwise a function that may fail ([None]) on a state. *)
Definition Learned : Type := Snapshot -> option Prediction.

Definition predict_label_and_confidence
    (model : option Learned) (state : Snapshot) (recent_events : list Event)
    : Prediction :=
  match model with
  | Some m =>
      match m state with
      | Some r => r
      | None => _rules state recent_events
      end
  | None => _rules state recent_events
  end.

(** [sum(dist.values())] *)
Definition dist_sum (dist : gmap string Q) : Q :=
  map_fold (fun _ v acc => acc + v) 0 dist.

End ModelUtils.


(** ** llm_wrapper.py *)

(** A call either returns or raises. *)
Inductive result (A : Type) : Type :=
| Ok (a : A)
| Raised.
Arguments Ok {A} a.
Arguments Raised {A}.

Module LlmWrapper.

(** What the formatter reads from outside: the process environment, the
    optional SDK and the remote service. *)
Record LlmEnv := {
  GEMINI_ENABLED : option string;
  GEMINI_API_KEY : option string;
  (** [float(os.getenv("GEMINI_TEMPERATURE", "0.7"))]; [None] when the
      variable does not parse and [float] raises [ValueError]. *)
  GEMINI_TEMPERATURE : option Q;
  (** [int(os.getenv("GEMINI_MAX_TOKENS", "120"))], likewise. *)
  GEMINI_MAX_TOKENS : option Z;
  (** [_try_import_gemini()] found the SDK. *)
  sdk_installed : bool;
  (** The remote call on a query and its snippets, up to
      [_extract_text]: [None] when anything in it raised. *)
  gemini_call : string -> list string -> option string
}.

(** [_gemini_config]: the four values are read and converted before the
    [enabled] test, so a malformed number raises whatever the flag says.
    The result is the [enabled] entry of the returned dict. *)
Definition _gemini_config (env : LlmEnv) : result bool :=
  let enabled :=
    String.eqb (PyStr.lower (default "false" (GEMINI_ENABLED env))) "true" in
  let api_key := PyStr.strip (default "" (GEMINI_API_KEY env)) in
  match GEMINI_TEMPERATURE env, GEMINI_MAX_TOKENS env with
  | Some _, Some _ =>
      if negb enabled then Ok false
      else if String.eqb api_key "" then Ok false
      else Ok true
  | _, _ => Raised
  end.

Definition _trim (text : string) (max_length : Z) : string :=
  let text := PyStr.strip text in
  if ((0 <? max_length) && (max_length <? PyStr.len text))%Z
  then PyStr.rstrip (PyStr.slice_to text (max_length - 3)) ++ "..."
  else text.

(** The non-LLM fallback, written three times in the source. *)
Definition stub (query : string) (docs : list string) (max_length : Z) : string :=
  match docs with
  | [] => _trim query max_length
  | _ =>
      let joined := PyStr.join " " (firstn 3 docs) in
      _trim (query ++ " (Context: " ++ joined ++ ")") max_length
  end.

Definition paraphrase_with_context
    (env : LlmEnv) (query : string) (docs : list string) (max_length : Z)
    : result string :=
  match _gemini_config env with
  | Raised => Raised
  | Ok false => Ok (stub query docs max_length)
  | Ok true =>
      if negb (sdk_installed env) then Ok (stub query docs max_length)
      else
        match gemini_call env query docs with
        | Some text =>
            if String.eqb text "" then Ok (stub query docs max_length)
            else Ok (_trim text max_length)
        | None => Ok (stub query docs max_length)
        end
  end.

(** [rag_instance] is [None] or the [RAG] of rag.py, whose [retrieve]
    returns the empty list. *)
Definition paraphrase_tip_with_recipe
    (env : LlmEnv) (tip_text recipe_query : string) (rag_instance : bool)
    (max_length : Z) : result string :=
  if negb rag_instance
  then Ok (PyStr.replace tip_text "{recipe}" "[recipe not available]")
  else
    let docs : list string := [] in
    match paraphrase_with_context env recipe_query docs max_length with
    | Ok recipe_info => Ok (PyStr.replace tip_text "{recipe}" recipe_info)
    | Raised => Raised
    end.

End LlmWrapper.

(** ** tips_dataset.py *)

(** One entry of the tip bank. *)
Record Tip := {
  text : string;
  spoiler_level : Z;
  priority : Q
}.

Module TipsDataset.

(** [_stub]: the built-in bank.  The dash of the first two texts is
    U+2014 in the source, written here as a hyphen. *)
Definition _stub : gmap string (list Tip) :=
  <["low_health" := [{| text := "Your health is low-eat food or find shelter.";
                        spoiler_level := 0; priority := 10 |}]]>
  (<["low_food" := [{| text := "You're hungry-hunt animals or harvest crops.";
                       spoiler_level := 0; priority := 9 |}]]>
  (<["exploring" := [{| text := "Exploring? Mark your base coordinates.";
                        spoiler_level := 0; priority := 5 |}]]> ∅)).

Definition get_tips_for_label (tips : gmap string (list Tip)) (label : string)
    : list Tip :=
  default [] (tips !! label).

End TipsDataset.

(** ** companion_server.py *)

(** The entries of [CFG] that the engine consults. *)
Record Config := {
  POLL_INTERVAL_SECONDS : Z;
  POLL_BACKOFF_BASE : Q;
  CONF_THRESHOLD : Q;
  MAX_SPOILER_LEVEL : Z;
  GLOBAL_COOLDOWN_SECONDS : Z;
  LABEL_COOLDOWN_SECONDS : Z;
  TIP_COOLDOWN_SECONDS : Z;
  RAG_ENABLED : bool
}.

(** [_load_config] with no variable set. *)
Definition default_config : Config := {|
  POLL_INTERVAL_SECONDS := 15;
  POLL_BACKOFF_BASE := 1.5;
  CONF_THRESHOLD := 0.6;
  MAX_SPOILER_LEVEL := 1;
  GLOBAL_COOLDOWN_SECONDS := 15;
  LABEL_COOLDOWN_SECONDS := 30;
  TIP_COOLDOWN_SECONDS := 180;
  RAG_ENABLED := false
|}.

(** The JSON object of [companion_state.json]; a key may be absent. *)
Record StateDoc := {
  doc_label_last_tip : option (gmap string Q);
  doc_tip_last_shown : option (gmap string Q);
  doc_label_acceptance : option (gmap string Z);
  doc_label_tips_posted : option (gmap string Z);
  doc_last_save : option Q
}.

(** What is on disk at [_state_path()]. *)
Inductive StateFile : Type :=
| NoFile                       (* [open] raises *)
| NotJson                      (* [json.load] raises *)
| JsonNotObject                (* parsed, but [d.get] raises *)
| JsonObject (d : StateDoc).

(** A row of [decisions.csv]. *)
Record DecisionRow := {
  d_timestamp : Q;
  d_label : string;
  d_confidence : Q;
  d_tip : string;
  d_used_rag : Z;
  d_state_ref : string;
  d_cooldowns : gmap string Q
}.

(** A row of [feedback.csv]. *)
Record FeedbackRow := {
  f_timestamp : string;
  f_label : string;
  f_accepted : bool;
  f_feedback_time : Q
}.

(** The attributes of a [CompanionServer], and the three files it owns. *)
Record Server := {
  model_utils : option ModelUtils.Learned;
  tips_dataset : gmap string (list Tip);
  rag : bool;
  last_state : option Snapshot;
  last_tip : option string;
  last_tip_timestamp : Q;
  label_last_tip : gmap string Q;
  tip_last_shown : gmap string Q;
  label_tips_posted : gmap string Z;
  label_acceptance : gmap string Z;
  last_poll_time : Q;
  recent_events : list Event;
  decisions_csv : list DecisionRow;
  feedback_csv : list FeedbackRow;
  state_file : StateFile
}.

(** How writing the state file went. *)
Inductive SaveOutcome : Type :=
| Saved          (* the document was written *)
| OpenFailed     (* [open] raised: the file is as it was *)
| DumpFailed.    (* [json.dump] raised after [open] truncated the file *)

(** What one evaluation cycle meets outside the engine. The four clock
    readings are those of [_select_tip], [_check_cooldowns], [_after_post]
    and [_save_state], in the order they are taken. *)
Record CycleEnv := {
  t_select : Q;
  t_check : Q;
  t_post : Q;
  t_save : Q;
  post_ok : bool;          (* [_post_tip]: status 200 and no exception *)
  append_ok : bool;        (* [_append_csv] on decisions.csv returns *)
  save_outcome : SaveOutcome;
  llm_env : LlmWrapper.LlmEnv
}.

(** Where [_process_state] stopped, named after the states of the
    evaluation cycle. *)
Inductive Outcome : Type :=
| NoState                  (* [if not self.last_state: return] *)
| LowConfidence            (* Suppressed: [conf < CFG["CONF_THRESHOLD"]] *)
| NoWinner                 (* Suppressed: [not tip] *)
| Rejected                 (* [not self._check_cooldowns(label)] *)
| FormatterRaised          (* an exception left [paraphrase_tip_with_recipe] *)
| DispatchFailed           (* [_post_tip] returned [False] *)
| CommitRaised (tip : string)
                           (* the tip was posted and [_append_csv] raised
                              inside [_after_post] *)
| Dispatched (tip : string).

(** [list.sort(key=lambda x: x[0], reverse=True)]: stable; elements with
    equal scores keep their order. An element is put in front of the
    first element whose score is not greater than its own. *)
Fixpoint insert_desc (x : Q * string) (l : list (Q * string)) : list (Q * string) :=
  match l with
  | [] => [x]
  | y :: l' => if Qltb (fst x) (fst y) then y :: insert_desc x l' else x :: l
  end.

Fixpoint sort_desc (l : list (Q * string)) : list (Q * string) :=
  match l with
  | [] => []
  | x :: l' => insert_desc x (sort_desc l')
  end.

Module CompanionServer.

(** [__init__], before [_load_state]: the timing state of a new server. *)
Definition init (model : option ModelUtils.Learned) (tips : gmap string (list Tip))
    (cfg : Config) (now : Q) (file : StateFile) : Server := {|
  model_utils := model;
  tips_dataset := tips;
  rag := RAG_ENABLED cfg;
  last_state := None;
  last_tip := None;
  last_tip_timestamp := 0;
  label_last_tip := ∅;
  tip_last_shown := ∅;
  label_tips_posted := ∅;
  label_acceptance := ∅;
  last_poll_time := now;
  recent_events := [];
  decisions_csv := [];
  feedback_csv := [];
  state_file := file
|}.

(** [relevance_map.get(label, [])] *)
Definition relevance_map : gmap string (list string) :=
  list_to_map [
    ("low_health", ["damage_taken"; "player_death"; "combat_start"]);
    ("low_food", ["hunger_depleted"; "sprint_fail"]);
    ("combat", ["damage_taken"; "combat_start"; "mob_killed"; "player_death"]);
    ("mining_mode", ["mine_attempt"; "block_broken"; "ore_found"]);
    ("night_risk", ["time_sunset"; "mob_spawn_nearby"]);
    ("near_resource", ["block_targeted"; "ore_spotted"]);
    ("exploring", ["biome_changed"; "structure_found"; "coordinates_far"]);
    ("building", ["block_placed"; "crafting_table_used"]);
    ("enchanting", ["enchant_attempt"; "exp_gained"]);
    ("farming", ["crop_harvested"; "animal_bred"]);
    ("nether", ["dimension_nether"; "fire_damage"; "piglin_aggro"])
  ].

(** [sum(1 for et in event_types if et in relevant_events)] *)
Definition matches (label : string) (events : list Event) : nat :=
  let relevant_events := default [] (relevance_map !! label) in
  length (List.filter (fun et => existsb (String.eqb et) relevant_events)
                 (ModelUtils.event_types events)).

(** [boost = 1.0 + (matches / event_count) * 2.0] is a quotient of two
    integers, a product and a sum of floats, each rounded. *)
Definition _calculate_event_boost (label : string) (events : list Event) : Q :=
  match events with
  | [] => 1
  | _ =>
      let event_count := length events in
      let m := matches label events in
      if Nat.eqb m 0 then 1
      else
        let boost :=
          Binary64.round
            (1 + Binary64.round
                   (Binary64.round
                      (inject_Z (Z.of_nat m) / inject_Z (Z.of_nat event_count))
                    * 2)) in
        Qmin boost 3
  end.

Definition _check_cooldowns (cfg : Config) (self : Server) (now : Q)
    (label : string) : bool :=
  if Qltb (now - last_tip_timestamp self) (inject_Z (GLOBAL_COOLDOWN_SECONDS cfg))
  then false
  else if Qltb (now - default 0 (label_last_tip self !! label))
               (inject_Z (LABEL_COOLDOWN_SECONDS cfg))
  then false
  else true.

(** The comprehension [cand] of [_select_tip]. *)
Definition candidates (cfg : Config) (self : Server) (now : Q) (label : string)
    : list Tip :=
  let all_tips := TipsDataset.get_tips_for_label (tips_dataset self) label in
  let tip_cooldown := inject_Z (TIP_COOLDOWN_SECONDS cfg) in
  List.filter (fun t =>
            (spoiler_level t <=? MAX_SPOILER_LEVEL cfg)%Z
            && Qle_bool tip_cooldown (now - default 0 (tip_last_shown self !! text t)))
         all_tips.

(** [time_factor] of [_select_tip]:
    [1.0 - min(max(0.0, now - last), 60.0) / 120.0], each of the two
    differences and the quotient rounded. *)
Definition time_factor (self : Server) (now : Q) (label : string) : Q :=
  let last := default 0 (label_last_tip self !! label) in
  let time_since := Qmax 0 (Binary64.round (now - last)) in
  Binary64.round (1 - Binary64.round (Qmin time_since 60 / 120)).

(** One entry of [scored]:
    [(conf * c["priority"] * event_boost * (1.0 - 0.5 * time_factor), c["text"])].
    The products are taken from left to right, and each of the five
    operations is a float operation: the exact result, rounded. *)
Definition score (conf event_boost tf : Q) (c : Tip) : Q * string :=
  (Binary64.round
     (Binary64.round (Binary64.round (conf * priority c) * event_boost)
      * Binary64.round (1 - Binary64.round (0.5 * tf))),
   text c).

Definition _select_tip (cfg : Config) (self : Server) (now : Q)
    (label : string) (conf : Q) (events : list Event) : option string :=
  let cand := candidates cfg self now label in
  match cand with
  | [] => None
  | _ =>
      let event_boost := _calculate_event_boost label events in
      let tf := time_factor self now label in
      let scored := sort_desc (map (score conf event_boost tf) cand) in
      match scored with
      | s0 :: _ => Some (snd s0)
      | [] => None
      end
  end.

(** The dict [d] that [_save_state] builds. *)
Definition state_doc (self : Server) (now : Q) : StateDoc := {|
  doc_label_last_tip := Some (label_last_tip self);
  doc_tip_last_shown := Some (tip_last_shown self);
  doc_label_acceptance := Some (label_acceptance self);
  doc_label_tips_posted := Some (label_tips_posted self);
  doc_last_save := Some now
|}.

Definition with_state_file (self : Server) (f : StateFile) : Server := {|
  model_utils := model_utils self;
  tips_dataset := tips_dataset self;
  rag := rag self;
  last_state := last_state self;
  last_tip := last_tip self;
  last_tip_timestamp := last_tip_timestamp self;
  label_last_tip := label_last_tip self;
  tip_last_shown := tip_last_shown self;
  label_tips_posted := label_tips_posted self;
  label_acceptance := label_acceptance self;
  last_poll_time := last_poll_time self;
  recent_events := recent_events self;
  decisions_csv := decisions_csv self;
  feedback_csv := feedback_csv self;
  state_file := f
|}.

(** [_save_state]: a failure is logged and goes no further. *)
Definition _save_state (self : Server) (now : Q) (o : SaveOutcome) : Server :=
  match o with
  | Saved => with_state_file self (JsonObject (state_doc self now))
  | OpenFailed => self
  | DumpFailed => with_state_file self NotJson
  end.

(** [_load_state]: any exception is swallowed and nothing is assigned. *)
Definition _load_state (self : Server) : Server :=
  match state_file self with
  | JsonObject d => {|
      model_utils := model_utils self;
      tips_dataset := tips_dataset self;
      rag := rag self;
      last_state := last_state self;
      last_tip := last_tip self;
      last_tip_timestamp := last_tip_timestamp self;
      label_last_tip := default ∅ (doc_label_last_tip d);
      tip_last_shown := default ∅ (doc_tip_last_shown d);
      label_tips_posted := default ∅ (doc_label_tips_posted d);
      label_acceptance := default ∅ (doc_label_acceptance d);
      last_poll_time := last_poll_time self;
      recent_events := recent_events self;
      decisions_csv := decisions_csv self;
      feedback_csv := feedback_csv self;
      state_file := state_file self
    |}
  | NoFile | NotJson | JsonNotObject => self
  end.

(** A server as [__init__] leaves it. *)
Definition startup (model : option ModelUtils.Learned)
    (tips : gmap string (list Tip)) (cfg : Config) (now : Q) (file : StateFile)
    : Server :=
  _load_state (init model tips cfg now file).

(** [_after_post] up to the call of [_append_csv]: the assignments to
    the three ledgers, [last_tip] and the posted counter. This is also the
    server that [_after_post] leaves behind when [_append_csv] raises
    (at [open], nothing written): [_append_csv] has no handler, so the
    exception leaves [_after_post] with [_save_state] not reached. *)
Definition after_post_raised (self : Server) (now : Q) (label tip : string)
    : Server := {|
  model_utils := model_utils self;
  tips_dataset := tips_dataset self;
  rag := rag self;
  last_state := last_state self;
  last_tip := Some tip;
  last_tip_timestamp := now;
  label_last_tip := <[label := now]> (label_last_tip self);
  tip_last_shown := <[tip := now]> (tip_last_shown self);
  label_tips_posted :=
    <[label := (default 0 (label_tips_posted self !! label) + 1)%Z]>
      (label_tips_posted self);
  label_acceptance := label_acceptance self;
  last_poll_time := last_poll_time self;
  recent_events := recent_events self;
  decisions_csv := decisions_csv self;
  feedback_csv := feedback_csv self;
  state_file := state_file self
|}.

(** [_after_post] up to the call of [_save_state], when [_append_csv]
    returns: the assignments and the row of decisions.csv. *)
Definition commit (self : Server) (now : Q) (label tip : string)
    (used_rag : Z) (state_ref : string) : Server :=
  let label_last_tip' := <[label := now]> (label_last_tip self) in
  {|
    model_utils := model_utils self;
    tips_dataset := tips_dataset self;
    rag := rag self;
    last_state := last_state self;
    last_tip := Some tip;
    last_tip_timestamp := now;
    label_last_tip := label_last_tip';
    tip_last_shown := <[tip := now]> (tip_last_shown self);
    label_tips_posted :=
      <[label := (default 0 (label_tips_posted self !! label) + 1)%Z]>
        (label_tips_posted self);
    label_acceptance := label_acceptance self;
    last_poll_time := last_poll_time self;
    recent_events := recent_events self;
    decisions_csv :=
      decisions_csv self ++
      [{| d_timestamp := now; d_label := label; d_confidence := 1;
          d_tip := tip; d_used_rag := used_rag; d_state_ref := state_ref;
          d_cooldowns := label_last_tip' |}];
    feedback_csv := feedback_csv self;
    state_file := state_file self
  |}.

(** [_after_post] when [_append_csv] returns; [after_post_raised] is the
    run in which it raises. *)
Definition _after_post (self : Server) (now t_save : Q) (o : SaveOutcome)
    (label tip : string) (used_rag : Z) (state_ref : string) : Server :=
  _save_state (commit self now label tip used_rag state_ref) t_save o.

(** [_extract_recent_events] *)
Definition _extract_recent_events (self : Server) (now : Q) : Server :=
  match last_state self with
  | None => self
  | Some st =>
      let window_start := last_poll_time self in
      {|
        model_utils := model_utils self;
        tips_dataset := tips_dataset self;
        rag := rag self;
        last_state := last_state self;
        last_tip := last_tip self;
        last_tip_timestamp := last_tip_timestamp self;
        label_last_tip := label_last_tip self;
        tip_last_shown := tip_last_shown self;
        label_tips_posted := label_tips_posted self;
        label_acceptance := label_acceptance self;
        last_poll_time := now;
        recent_events :=
          List.filter (fun event =>
                    let event_time := default 0 (ev_timestamp event) in
                    Qeq_bool event_time 0 || Qle_bool window_start event_time)
                 (recentEvents st);
        decisions_csv := decisions_csv self;
        feedback_csv := feedback_csv self;
        state_file := state_file self
      |}
  end.

(** The two statements of [_polling_loop] that precede [_process_state]
    when the state source answered 200: the document becomes
    [last_state] and the event window is rebuilt.  The source answers
    with a non-empty document; an empty one is [None] of [last_state]. *)
Definition receive_state (self : Server) (st : Snapshot) (now : Q) : Server :=
  _extract_recent_events {|
    model_utils := model_utils self;
    tips_dataset := tips_dataset self;
    rag := rag self;
    last_state := Some st;
    last_tip := last_tip self;
    last_tip_timestamp := last_tip_timestamp self;
    label_last_tip := label_last_tip self;
    tip_last_shown := tip_last_shown self;
    label_tips_posted := label_tips_posted self;
    label_acceptance := label_acceptance self;
    last_poll_time := last_poll_time self;
    recent_events := recent_events self;
    decisions_csv := decisions_csv self;
    feedback_csv := feedback_csv self;
    state_file := state_file self
  |} now.

(** [_process_state]: the new server and the place the cycle stopped.
    In [not tip or not self._check_cooldowns(label)] the right operand
    is evaluated only when a non-empty tip was selected. *)
Definition _process_state (cfg : Config) (self : Server) (env : CycleEnv)
    : Server * Outcome :=
  match last_state self with
  | None => (self, NoState)
  | Some st =>
      let '(label, conf, _) :=
        ModelUtils.predict_label_and_confidence
          (model_utils self) st (recent_events self) in
      if Qltb conf (CONF_THRESHOLD cfg) then (self, LowConfidence)
      else
        match _select_tip cfg self (t_select env) label conf (recent_events self) with
        | None => (self, NoWinner)
        | Some tip =>
            if String.eqb tip "" then (self, NoWinner)
            else if negb (_check_cooldowns cfg self (t_check env) label)
            then (self, Rejected)
            else
              let formatted :=
                if PyStr.contains "{recipe}" tip
                then
                  match LlmWrapper.paraphrase_tip_with_recipe
                          (llm_env env) tip label (rag self) 150 with
                  | Ok tip' => Ok (tip', 1%Z)
                  | Raised => Raised
                  end
                else Ok (tip, 0%Z) in
              match formatted with
              | Raised => (self, FormatterRaised)
              | Ok (tip, used_rag) =>
                  if post_ok env
                  then
                    if append_ok env
                    then
                      (_after_post self (t_post env) (t_save env)
                         (save_outcome env) label tip used_rag
                         (default "unknown" (state_timestamp st)),
                       Dispatched tip)
                    else
                      (after_post_raised self (t_post env) label tip,
                       CommitRaised tip)
                  else (self, DispatchFailed)
              end
        end
  end.

(** The [/feedback] route: the new server and the HTTP status.
    [ts] and [label] are the fields of the request body; [appended] says
    whether [_append_csv] on feedback.csv returns. It is called before
    any assignment and has no handler: when it raises (at [open], nothing
    written), the exception leaves the route and the answer is 500. *)
Definition feedback (self : Server) (ts label : option string) (accepted : bool)
    (now t_save : Q) (appended : bool) (o : SaveOutcome) : Server * Z :=
  match ts, label with
  | Some ts, Some label =>
      if String.eqb label "" then (self, 400%Z)
      else if negb appended then (self, 500%Z)
      else
        let self1 := {|
          model_utils := model_utils self;
          tips_dataset := tips_dataset self;
          rag := rag self;
          last_state := last_state self;
          last_tip := last_tip self;
          last_tip_timestamp := last_tip_timestamp self;
          label_last_tip := label_last_tip self;
          tip_last_shown := tip_last_shown self;
          label_tips_posted := label_tips_posted self;
          label_acceptance :=
            if accepted
            then <[label := (default 0 (label_acceptance self !! label) + 1)%Z]>
                   (label_acceptance self)
            else label_acceptance self;
          last_poll_time := last_poll_time self;
          recent_events := recent_events self;
          decisions_csv := decisions_csv self;
          feedback_csv :=
            feedback_csv self ++
            [{| f_timestamp := ts; f_label := label; f_accepted := accepted;
                f_feedback_time := now |}];
          state_file := state_file self
        |} in
        (_save_state self1 t_save o, 200%Z)
  | _, _ => (self, 400%Z)
  end.

(** The body of the answer of the [GET /tip] route. *)
Record TipPreview := {
  pv_label : string;
  pv_confidence : Q;
  pv_probabilities : gmap string Q;
  pv_tip : option string;
  pv_recent_events : list string;
  pv_would_post : bool;
  pv_timestamp : Q
}.

(** The [GET /tip] route: [None] is the answer 400 "no state yet". The
    three clock readings are those of [_select_tip], [_check_cooldowns]
    and the [timestamp] entry. In [tip and conf >= ... and
    self._check_cooldowns(label)] an operand is evaluated only when the
    ones before it are true. *)
Definition get_tip (cfg : Config) (self : Server) (t_sel t_chk t_resp : Q)
    : option TipPreview :=
  match last_state self with
  | None => None
  | Some st =>
      let '(label, conf, probs) :=
        ModelUtils.predict_label_and_confidence
          (model_utils self) st (recent_events self) in
      let tip := _select_tip cfg self t_sel label conf (recent_events self) in
      Some {|
        pv_label := label;
        pv_confidence := conf;
        pv_probabilities := probs;
        pv_tip := tip;
        pv_recent_events :=
          map (fun e => default "unknown" (ev_type e)) (recent_events self);
        pv_would_post :=
          match tip with
          | None => false
          | Some t =>
              if String.eqb t "" then false
              else if Qle_bool (CONF_THRESHOLD cfg) conf
              then _check_cooldowns cfg self t_chk label
              else false
          end;
        pv_timestamp := t_resp
      |}
  end.

(** The [POST /tip/force] route: the new server and the HTTP status. The
    four fields of the request body may be absent; [ok] is what
    [_post_tip] returns and [appended] whether [_append_csv] on
    decisions.csv returns. When it raises inside [_after_post], the
    ledgers are already assigned and the answer is 500. *)
Definition force_tip (cfg : Config) (self : Server)
    (message label : option string) (spoiler : option Z) (force : option bool)
    (t_chk t_post t_save : Q) (ok appended : bool) (o : SaveOutcome)
    : Server * Z :=
  let message := PyStr.strip (default "" message) in
  let label := PyStr.strip (default "manual" label) in
  let spoiler := default 0%Z spoiler in
  let force := default false force in
  if String.eqb message "" then (self, 400%Z)
  else if (MAX_SPOILER_LEVEL cfg <? spoiler)%Z && negb force then (self, 400%Z)
  else if negb force && negb (_check_cooldowns cfg self t_chk label)
  then (self, 429%Z)
  else if ok
  then
    if appended
    then (_after_post self t_post t_save o label message 0 "forced", 200%Z)
    else (after_post_raised self t_post label message, 500%Z)
  else (self, 500%Z).

(** What [r.json()] gives in [_polling_loop]. The state source answers
    with a JSON object or with something that is not JSON. *)
Inductive StateBody : Type :=
| BodyNotJson                  (* [r.json()] raises *)
| BodyEmpty                    (* the empty object *)
| BodyDoc (st : Snapshot).

(** What [requests.get(CFG["STATE_URL"], timeout=5)] gives. *)
Inductive StateResponse : Type :=
| GetRaised
| GetStatus (code : Z) (body : StateBody).

(** [max_backoff] of [_polling_loop]. *)
Definition max_backoff : Q := 300.

(** [min(backoff * CFG["POLL_BACKOFF_BASE"], max_backoff)] *)
Definition grow (cfg : Config) (backoff : Q) : Q :=
  Qmin (backoff * POLL_BACKOFF_BASE cfg) max_backoff.

(** One turn of the [while] loop of [_polling_loop]: the new server and
    the time it then sleeps. An exception of [_process_state] is caught by
    the same [except] as a failed request. The document of a 200 answer
    is a JSON object with fields of the types of [Snapshot]. *)
Definition poll_once (cfg : Config) (self : Server) (backoff : Q)
    (r : StateResponse) (now : Q) (env : CycleEnv) : Server * Q :=
  match r with
  | GetRaised => (self, grow cfg backoff)
  | GetStatus code body =>
      if (code =? 200)%Z
      then
        match body with
        | BodyNotJson => (self, grow cfg backoff)
        | BodyEmpty =>
            ({|
               model_utils := model_utils self;
               tips_dataset := tips_dataset self;
               rag := rag self;
               last_state := None;
               last_tip := last_tip self;
               last_tip_timestamp := last_tip_timestamp self;
               label_last_tip := label_last_tip self;
               tip_last_shown := tip_last_shown self;
               label_tips_posted := label_tips_posted self;
               label_acceptance := label_acceptance self;
               last_poll_time := last_poll_time self;
               recent_events := recent_events self;
               decisions_csv := decisions_csv self;
               feedback_csv := feedback_csv self;
               state_file := state_file self
             |},
             inject_Z (POLL_INTERVAL_SECONDS cfg))
        | BodyDoc st =>
            let r := _process_state cfg (receive_state self st now) env in
            match snd r with
            | FormatterRaised | CommitRaised _ => (fst r, grow cfg backoff)
            | _ => (fst r, inject_Z (POLL_INTERVAL_SECONDS cfg))
            end
        end
      else (self, grow cfg backoff)
  end.

(** The [while] loop of [_polling_loop] over the turns it gets to make:
    each turn has its answer of the state source, its clock reading and
    what its cycle meets. The result is the server and the last sleep
    time. *)
Fixpoint poll_loop (cfg : Config) (self : Server) (backoff : Q)
    (turns : list (StateResponse * Q * CycleEnv)) : Server * Q :=
  match turns with
  | [] => (self, backoff)
  | (r, now, env) :: turns' =>
      let step := poll_once cfg self backoff r now env in
      poll_loop cfg (fst step) (snd step) turns'
  end.

End CompanionServer.

(** ** tips_dataset.py: loading the bank *)

Module TipsLoad.

(** The value under a key of the ["labels"] object of a tip document; the
    entries of a list are tip objects. *)
Inductive LabelsEntry : Type :=
| TipList (l : list Tip)
| NotAList.

(** The value under ["labels"]. *)
Inductive LabelsBlock : Type :=
| LabelsNotDict                                  (* [.items()] raises *)
| LabelsDict (entries : gmap string LabelsEntry).

(** A parsed JSON document handed to [_parse]. *)
Inductive TipsJson : Type :=
| JNotDict                                       (* [data.get] raises *)
| JDict (labels : option LabelsBlock).           (* [None]: no such key *)

(** A file that exists. *)
Inductive FileBody : Type :=
| Unreadable                   (* [open] or [json.load] raises *)
| Content (data : TipsJson).

(** What [requests.get(self.url, timeout=10)] gives; the body is [None]
    when [r.json()] raises. *)
Inductive HttpResult : Type :=
| HttpRaised
| HttpStatus (code : Z) (body : option TipsJson).

(** The attributes of a [TipsDataset]. *)
Record Dataset := {
  url : string;
  cache_path : string;
  fallback_path : string;
  refresh_seconds : Z;
  tips : gmap string (list Tip);
  last_fetch : Q
}.

(** What the loader meets: the files by path, the answer of the URL, how
    writing the cache goes, and the clock of [_load] and of
    [_fetch_from_url]. *)
Record LoadEnv := {
  files : gmap string FileBody;
  http : HttpResult;
  cache_write : SaveOutcome;
  t_load : Q;
  t_fetch : Q
}.

Definition with_tips (self : Dataset) (t : gmap string (list Tip)) : Dataset := {|
  url := url self; cache_path := cache_path self;
  fallback_path := fallback_path self; refresh_seconds := refresh_seconds self;
  tips := t; last_fetch := last_fetch self
|}.

Definition with_last_fetch (self : Dataset) (t : Q) : Dataset := {|
  url := url self; cache_path := cache_path self;
  fallback_path := fallback_path self; refresh_seconds := refresh_seconds self;
  tips := tips self; last_fetch := t
|}.

(** [_parse]: the value it assigns to [self.tips], or the exception. *)
Definition _parse (data : TipsJson) : result (gmap string (list Tip)) :=
  match data with
  | JNotDict => Raised
  | JDict None => Ok ∅
  | JDict (Some LabelsNotDict) => Raised
  | JDict (Some (LabelsDict entries)) =>
      Ok (omap (fun v => match v with TipList l => Some l | NotAList => None end)
               entries)
  end.

(** [_load_from_file] *)
Definition _load_from_file (fs : gmap string FileBody) (self : Dataset)
    (path : string) : Dataset * bool :=
  match fs !! path with
  | Some (Content data) =>
      match _parse data with
      | Ok t => (with_tips self t, true)
      | Raised => (self, false)
      end
  | Some Unreadable | None => (self, false)
  end.

(** [_save_cache]: the files afterwards. *)
Definition _save_cache (fs : gmap string FileBody) (self : Dataset)
    (data : TipsJson) (o : SaveOutcome) : gmap string FileBody :=
  match o with
  | Saved => <[cache_path self := Content data]> fs
  | OpenFailed => fs
  | DumpFailed => <[cache_path self := Unreadable]> fs
  end.

(** [_fetch_from_url] *)
Definition _fetch_from_url (env : LoadEnv) (self : Dataset)
    : Dataset * gmap string FileBody * bool :=
  match http env with
  | HttpStatus code (Some data) =>
      if (code =? 200)%Z
      then
        match _parse data with
        | Ok t =>
            (with_last_fetch (with_tips self t) (t_fetch env),
             _save_cache (files env) self data (cache_write env), true)
        | Raised => (self, files env, false)
        end
      else (self, files env, false)
  | HttpStatus code None =>
      (self, files env, false)
  | HttpRaised => (self, files env, false)
  end.

(** [self.url and not self.url.startswith(('http://', 'https://'))] *)
Definition is_local_path (u : string) : bool :=
  negb (String.eqb u "")
  && negb (String.prefix "http://" u || String.prefix "https://" u).

(** [_load]: the dataset and the files afterwards. *)
Definition _load (env : LoadEnv) (self : Dataset)
    : Dataset * gmap string FileBody :=
  let needs_refresh :=
    Qltb (inject_Z (refresh_seconds self)) (t_load env - last_fetch self) in
  let fs := files env in
  let after_local :=
    if is_local_path (url self) then _load_from_file fs self (url self)
    else (self, false) in
  if snd after_local then (fst after_local, fs)
  else
    let after_fetch :=
      if negb (String.eqb (url self) "") && negb (is_local_path (url self))
         && needs_refresh
      then _fetch_from_url env self
      else (self, fs, false) in
    if snd after_fetch then fst after_fetch
    else
      let after_cache :=
        match fs !! cache_path self with
        | Some _ => _load_from_file fs self (cache_path self)
        | None => (self, false)
        end in
      if snd after_cache then (fst after_cache, fs)
      else
        let after_fallback :=
          match fs !! fallback_path self with
          | Some _ => _load_from_file fs self (fallback_path self)
          | None => (self, false)
          end in
        if snd after_fallback then (fst after_fallback, fs)
        else (with_tips self TipsDataset._stub, fs).

(** [__init__] *)
Definition init (env : LoadEnv) (u cache fallback : string) (refresh : Z)
    : Dataset * gmap string FileBody :=
  _load env {| url := u; cache_path := cache; fallback_path := fallback;
               refresh_seconds := refresh; tips := ∅; last_fetch := 0 |}.

(** [reload] *)
Definition reload (env : LoadEnv) (self : Dataset)
    : Dataset * gmap string FileBody :=
  _load env (with_last_fetch self 0).

(** The bank a source yields when it can be read and parsed. *)
Definition bank_of_file (fs : gmap string FileBody) (path : string)
    : option (gmap string (list Tip)) :=
  match fs !! path with
  | Some (Content data) =>
      match _parse data with Ok t => Some t | Raised => None end
  | _ => None
  end.

Definition bank_of_http (r : HttpResult) : option (gmap string (list Tip)) :=
  match r with
  | HttpStatus code (Some data) =>
      if (code =? 200)%Z
      then match _parse data with Ok t => Some t | Raised => None end
      else None
  | _ => None
  end.

End TipsLoad.

(** * Reference definitions and scenario data *)

Module Ladder.

(** The ladder as the specification words it: nine rules, each a
    condition with the label and confidence it yields, tried in order. *)
Definition rule : Type := bool * (string * Q).

Definition present (t : string) (events : list Event) : bool :=
  existsb (fun e => String.eqb (default "" (ev_type e)) t) events.

Definition ladder (state : Snapshot) (events : list Event) : list rule :=
  let health := default 20 (vitals_health state) in
  let hunger := default 20%Z (vitals_hunger state) in
  let is_night := default false (time_isNight state) in
  let logs := default 0%Z (inventory_logs state) in
  let y := default 64 (position_y state) in
  [ (present "player_death" events, ("low_health", 0.98));
    (present "damage_taken" events && Qltb health 10, ("low_health", 0.95));
    (present "combat_start" events || present "mob_killed" events, ("combat", 0.90));
    (Qltb health 8, ("low_health", 0.95));
    ((hunger <? 6)%Z, ("low_food", 0.90));
    (is_night && (logs <? 2)%Z, ("night_risk", 0.85));
    (present "mine_attempt" events || present "block_broken" events
     || Qle_bool y 32, ("mining_mode", 0.75));
    (ModelUtils.near_resource state, ("near_resource", 0.70));
    (true, ("exploring", 0.60)) ].

(** The first rule whose condition holds. *)
Fixpoint first_match (l : list rule) : option (string * Q) :=
  match l with
  | [] => None
  | (c, r) :: l' => if c then Some r else first_match l'
  end.

End Ladder.

(** A snapshot with health 5 and hunger 20. *)
Definition hurt : Snapshot := {|
  vitals_health := Some 5; vitals_hunger := Some 20%Z; time_isNight := None;
  inventory_logs := None; position_y := None;
  focus_blockUnderCrosshair := None; state_timestamp := None;
  recentEvents := []
|}.

(** An event that carries only its type. *)
Definition event (t : string) : Event :=
  {| ev_type := Some t; ev_timestamp := None |}.

(** The event types relevant to a label, label by label; no type is
    relevant to a label outside the table. *)
Definition relevant (label : string) : list string :=
  if String.eqb label "low_health"
  then ["damage_taken"; "player_death"; "combat_start"]
  else if String.eqb label "low_food" then ["hunger_depleted"; "sprint_fail"]
  else if String.eqb label "combat"
  then ["damage_taken"; "combat_start"; "mob_killed"; "player_death"]
  else if String.eqb label "mining_mode"
  then ["mine_attempt"; "block_broken"; "ore_found"]
  else if String.eqb label "night_risk" then ["time_sunset"; "mob_spawn_nearby"]
  else if String.eqb label "near_resource" then ["block_targeted"; "ore_spotted"]
  else if String.eqb label "exploring"
  then ["biome_changed"; "structure_found"; "coordinates_far"]
  else if String.eqb label "building" then ["block_placed"; "crafting_table_used"]
  else if String.eqb label "enchanting" then ["enchant_attempt"; "exp_gained"]
  else if String.eqb label "farming" then ["crop_harvested"; "animal_bred"]
  else if String.eqb label "nether"
  then ["dimension_nether"; "fire_damage"; "piglin_aggro"]
  else [].

(** The operations of Python on floats: the exact result, rounded. *)
Definition float_add (a b : Q) : Q := Binary64.round (a + b).
Definition float_mul (a b : Q) : Q := Binary64.round (a * b).
Definition float_div (a b : Q) : Q := Binary64.round (a / b).

(** The number of events of the list whose type is one of [rel], each
    event counted once, repeated types included; an event without a type
    has the type [""]. *)
Fixpoint count_relevant (rel : list string) (events : list Event) : nat :=
  match events with
  | [] => 0
  | e :: rest =>
      if in_dec string_dec (default "" (ev_type e)) rel
      then S (count_relevant rel rest)
      else count_relevant rel rest
  end.

(** A server that has classified nothing and dispatched nothing yet. *)
Definition fresh (tips : gmap string (list Tip)) : Server :=
  CompanionServer.startup None tips default_config 0 NoFile.

(** The snapshot of the end-to-end scenario: health 20, hunger 20, day,
    5 logs, y = 64, looking at stone, no events. *)
Definition calm : Snapshot := {|
  vitals_health := Some 20; vitals_hunger := Some 20%Z;
  time_isNight := Some false; inventory_logs := Some 5%Z;
  position_y := Some 64; focus_blockUnderCrosshair := Some "stone";
  state_timestamp := None; recentEvents := []
|}.

(** The calm snapshot with three events: damage without a timestamp, a
    block broken at 900 and an item crafted at 1005. *)
Definition eventful : Snapshot := {|
  vitals_health := Some 20; vitals_hunger := Some 20%Z;
  time_isNight := Some false; inventory_logs := Some 5%Z;
  position_y := Some 64; focus_blockUnderCrosshair := Some "stone";
  state_timestamp := None;
  recentEvents :=
    [{| ev_type := Some "damage_taken"; ev_timestamp := None |};
     {| ev_type := Some "block_broken"; ev_timestamp := Some 900 |};
     {| ev_type := Some "item_crafted"; ev_timestamp := Some 1005 |}]
|}.

(** No Gemini variable is set, no SDK, no service. *)
Definition no_llm : LlmWrapper.LlmEnv := {|
  LlmWrapper.GEMINI_ENABLED := None;
  LlmWrapper.GEMINI_API_KEY := None;
  LlmWrapper.GEMINI_TEMPERATURE := Some 0.7;
  LlmWrapper.GEMINI_MAX_TOKENS := Some 120%Z;
  LlmWrapper.sdk_installed := false;
  LlmWrapper.gemini_call := fun _ _ => None
|}.

(** A cycle whose clock reads [T] throughout; the sink answers [ok] and
    the state file is written as [o] says. *)
Definition cycle_at (T : Q) (ok : bool) (o : SaveOutcome) : CycleEnv := {|
  t_select := T; t_check := T; t_post := T; t_save := T;
  post_ok := ok; append_ok := true; save_outcome := o; llm_env := no_llm
|}.

(** The only tip of the built-in bank for [exploring]: priority 5,
    spoiler level 0. *)
Definition exploring_tip : string := "Exploring? Mark your base coordinates.".

(** A bank whose only tip carries the [{recipe}] placeholder. *)
Definition recipe_bank : gmap string (list Tip) :=
  <["exploring" := [{| text := "Try crafting: {recipe}";
                       spoiler_level := 0; priority := 5 |}]]> ∅.

(** The scenario server: a new server with the built-in bank that has
    just received the calm snapshot at time [T]. *)
Definition calm_server (T : Q) : Server :=
  CompanionServer.receive_state (fresh TipsDataset._stub) calm T.

(** What the classifier answers on the scenario server. *)
Definition calm_prediction (T : Q) : Prediction :=
  ModelUtils.predict_label_and_confidence
    (model_utils (calm_server T)) calm (recent_events (calm_server T)).

(** A bank with four tips for [exploring]; the second and the third have
    the greatest priority. *)
Definition tie_bank : gmap string (list Tip) :=
  <["exploring" := [{| text := "first"; spoiler_level := 0; priority := 5 |};
                    {| text := "second"; spoiler_level := 0; priority := 9 |};
                    {| text := "third"; spoiler_level := 1; priority := 9 |};
                    {| text := "fourth"; spoiler_level := 0; priority := 7 |}]]> ∅.

(** The same with the placeholder bank. *)
Definition recipe_server (T : Q) : Server :=
  CompanionServer.receive_state (fresh recipe_bank) calm T.

(** The scenario server one second after its tip was dispatched at [T],
    with the same snapshot received again. *)
Definition calm_server_again (T : Q) : Server :=
  CompanionServer.receive_state
    (CompanionServer._after_post (calm_server T) T T Saved "exploring"
       exploring_tip 0 "unknown")
    calm (T + 1).

(** The environment of [no_llm] with [GEMINI_TEMPERATURE] set to a text
    that [float] rejects. *)
Definition bad_temperature : LlmWrapper.LlmEnv := {|
  LlmWrapper.GEMINI_ENABLED := None;
  LlmWrapper.GEMINI_API_KEY := None;
  LlmWrapper.GEMINI_TEMPERATURE := None;
  LlmWrapper.GEMINI_MAX_TOKENS := Some 120%Z;
  LlmWrapper.sdk_installed := false;
  LlmWrapper.gemini_call := fun _ _ => None
|}.

(** The server that dispatched the exploring tip at [T]. *)
Definition posted_server (T : Q) : Server :=
  CompanionServer._after_post (calm_server T) T T Saved "exploring"
    exploring_tip 0 "unknown".

(** That server stopped and started again at [T']: a new server that
    loads the state file the old one left. *)
Definition restarted_server (T T' : Q) : Server :=
  CompanionServer.startup None TipsDataset._stub default_config T'
    (state_file (posted_server T)).

(** The float nearest to 0.9, which is what Python reads [0.9] as:
    0.90000000000000002220446049250313. *)
Definition conf_09 : Q := 8106479329266893 # 9007199254740992.

(** The float that follows 3: 3.0000000000000004 (3 + 2^-51). *)
Definition after_3 : Q := 6755399441055745 # 2251799813685248.


(** A turn of the polling loop fails when the request raises, the status
    is not 200, or the body is not JSON. *)
Definition failed_turn (turn : CompanionServer.StateResponse * Q * CycleEnv) : Prop :=
  match fst (fst turn) with
  | CompanionServer.GetRaised => True
  | CompanionServer.GetStatus code body =>
      code <> 200%Z \/ body = CompanionServer.BodyNotJson
  end.

(** The default configuration with [RAG_ENABLED=true]. *)
Definition rag_config : Config := {|
  POLL_INTERVAL_SECONDS := 15;
  POLL_BACKOFF_BASE := 1.5;
  CONF_THRESHOLD := 0.6;
  MAX_SPOILER_LEVEL := 1;
  GLOBAL_COOLDOWN_SECONDS := 15;
  LABEL_COOLDOWN_SECONDS := 30;
  TIP_COOLDOWN_SECONDS := 180;
  RAG_ENABLED := true
|}.

(** A new server with RAG and the placeholder bank. *)
Definition rag_server : Server :=
  CompanionServer.startup None recipe_bank rag_config 0 NoFile.

(** A cycle at [T] that meets the environment of [bad_temperature]. *)
Definition bad_llm_cycle (T : Q) : CycleEnv := {|
  t_select := T; t_check := T; t_post := T; t_save := T;
  post_ok := true; append_ok := true; save_outcome := Saved;
  llm_env := bad_temperature
|}.

(** A cycle at [T] in which the sink accepts the tip and decisions.csv
    cannot be appended to. *)
Definition unrecorded_cycle (T : Q) : CycleEnv := {|
  t_select := T; t_check := T; t_post := T; t_save := T;
  post_ok := true; append_ok := false; save_outcome := Saved;
  llm_env := no_llm
|}.

(** The sink accepted the tip: the cycle ended with the commit made, or
    with the exception of the commit. *)
Definition posted (o : Outcome) (tip : string) : Prop :=
  o = Dispatched tip \/ o = CommitRaised tip.

(** A string that is empty or starts with a character that is not white
    space. *)
Definition starts_clean (s : string) : Prop :=
  match s with
  | EmptyString => True
  | String c _ => PyStr.is_space c = false
  end.

(** The first of a list of sources that yields something. *)
Fixpoint first_some {A : Type} (l : list (option A)) : option A :=
  match l with
  | [] => None
  | Some a :: _ => Some a
  | None :: l' => first_some l'
  end.

(** [url] starts with [http://] or [https://]. *)
Definition is_remote (u : string) : bool :=
  String.prefix "http://" u || String.prefix "https://" u.

(** The sources of a new [TipsDataset] in the order [_load] consults
    them: the URL read as a local path, the URL fetched when the clock is
    past the refresh time, the cache file, the bundled fallback file. *)
Definition tip_sources (env : TipsLoad.LoadEnv) (u cache fallback : string)
    (refresh : Z) : list (option (gmap string (list Tip))) :=
  [ if TipsLoad.is_local_path u then TipsLoad.bank_of_file (TipsLoad.files env) u
    else None;
    if is_remote u && Qltb (inject_Z refresh) (TipsLoad.t_load env - 0)
    then TipsLoad.bank_of_http (TipsLoad.http env)
    else None;
    TipsLoad.bank_of_file (TipsLoad.files env) cache;
    TipsLoad.bank_of_file (TipsLoad.files env) fallback ].

(** A tip document with one list of tips and one entry that is not a
    list. *)
Definition sample_doc : TipsLoad.TipsJson :=
  TipsLoad.JDict (Some (TipsLoad.LabelsDict
    (<["exploring" := TipsLoad.TipList
                        [{| text := "Climb for a view."; spoiler_level := 0;
                            priority := 4 |}]]>
     (<["version" := TipsLoad.NotAList]> ∅)))).

(** The loader's world when the URL answers [sample_doc] and no file
    exists, and when the URL cannot be reached and the files are [fs]. *)
Definition online_env : TipsLoad.LoadEnv := {|
  TipsLoad.files := ∅;
  TipsLoad.http := TipsLoad.HttpStatus 200 (Some sample_doc);
  TipsLoad.cache_write := Saved;
  TipsLoad.t_load := 5000;
  TipsLoad.t_fetch := 5001
|}.

Definition offline_env (fs : gmap string TipsLoad.FileBody) : TipsLoad.LoadEnv := {|
  TipsLoad.files := fs;
  TipsLoad.http := TipsLoad.HttpRaised;
  TipsLoad.cache_write := Saved;
  TipsLoad.t_load := 9000;
  TipsLoad.t_fetch := 9001
|}.

(** * Properties *)

(** ** Arithmetic on rationals *)

Lemma Qltb_lt (a b : Q) : Qltb a b = true <-> a < b.
Proof.
  unfold Qltb. rewrite negb_true_iff, <- not_true_iff_false, Qle_bool_iff.
  split; [apply Qnot_le_lt | apply Qlt_not_le].
Qed.

Lemma Qltb_ge (a b : Q) : Qltb a b = false <-> b <= a.
Proof. unfold Qltb. rewrite negb_false_iff. apply Qle_bool_iff. Qed.

(** ** Rounding to binary64 *)

Lemma pow2_pos (z : Z) : 0 < 2 ^ z.
Proof. apply Qpower_0_lt. reflexivity. Qed.

Lemma pow2_le (a b : Z) : (a <= b)%Z -> 2 ^ a <= 2 ^ b.
Proof. intros H. apply Qpower_le_compat_l; [exact H | discriminate]. Qed.

Lemma pow2_plus (a b : Z) : 2 ^ (a + b) == 2 ^ a * 2 ^ b.
Proof. apply Qpower_plus. discriminate. Qed.

Lemma pow2_int (n : Z) : (0 <= n)%Z -> inject_Z (2 ^ n) == 2 ^ n.
Proof. intros H. apply (Zpower_Qpower 2 n H). Qed.

(** [binade q] is the integer part of the binary logarithm of [q]. *)
Lemma binade_spec (q : Q) :
  0 < q -> 2 ^ Binary64.binade q <= q < 2 ^ (Binary64.binade q + 1).
Proof.
  intros Hq. unfold Binary64.binade.
  destruct q as [n d]. cbn [Qnum Qden].
  assert (Hn : (0 < n)%Z).
  { unfold Qlt in Hq. cbn in Hq. lia. }
  destruct (Z.log2_spec n Hn) as [Hn1 Hn2].
  destruct (Z.log2_spec (Z.pos d) eq_refl) as [Hd1 Hd2].
  pose proof (Z.log2_nonneg n) as Hln.
  pose proof (Z.log2_nonneg (Z.pos d)) as Hld.
  set (ln := Z.log2 n) in *. set (ld := Z.log2 (Z.pos d)) in *.
  rewrite Zle_Qle, pow2_int in Hn1 by lia.
  rewrite Zlt_Qlt, pow2_int in Hn2 by lia.
  rewrite Zle_Qle, pow2_int in Hd1 by lia.
  rewrite Zlt_Qlt, pow2_int in Hd2 by lia.
  assert (Hdpos : 0 < inject_Z (Z.pos d)) by reflexivity.
  assert (Hqeq : n # d == inject_Z n / inject_Z (Z.pos d)) by apply Qmake_Qdiv.
  destruct (Qle_bool (2 ^ (ln - ld)) (n # d)) eqn:E.
  - apply Qle_bool_iff in E. split; [exact E|].
    rewrite Hqeq. apply Qlt_shift_div_r; [exact Hdpos|].
    apply Qlt_le_trans with (2 ^ Z.succ ln); [exact Hn2|].
    replace (Z.succ ln) with ((ln - ld + 1) + ld)%Z by lia.
    rewrite pow2_plus. apply Qmult_le_l; [apply pow2_pos | exact Hd1].
  - assert (E' : n # d < 2 ^ (ln - ld)).
    { apply Qnot_le_lt. intros H. apply Qle_bool_iff in H. congruence. }
    replace (ln - ld - 1 + 1)%Z with (ln - ld)%Z by lia.
    split; [|exact E'].
    rewrite Hqeq. apply Qle_shift_div_l; [exact Hdpos|].
    apply Qle_trans with (2 ^ ln); [|exact Hn1].
    replace ln with ((ln - ld - 1) + Z.succ ld)%Z at 2 by lia.
    rewrite pow2_plus. apply Qmult_le_l; [apply pow2_pos|].
    apply Qlt_le_weak. exact Hd2.
Qed.

Lemma binade_mono (q1 q2 : Q) :
  0 < q1 -> q1 <= q2 -> (Binary64.binade q1 <= Binary64.binade q2)%Z.
Proof.
  intros H1 H12.
  destruct (binade_spec q1 H1) as [Hlo _].
  destruct (binade_spec q2) as [_ Hhi]; [lra|].
  assert (H : 2 ^ Binary64.binade q1 < 2 ^ (Binary64.binade q2 + 1)) by lra.
  apply Qpower_lt_compat_l_inv in H; [lia | reflexivity].
Qed.

Lemma rne_cases (x : Q) :
  Binary64.rne x = Qfloor x \/ Binary64.rne x = (Qfloor x + 1)%Z.
Proof.
  unfold Binary64.rne.
  destruct (Qltb _ _); [left; reflexivity|].
  destruct (Qltb _ _); [right; reflexivity|].
  destruct (Z.even _); [left|right]; reflexivity.
Qed.

Lemma rne_mono (x y : Q) : x <= y -> (Binary64.rne x <= Binary64.rne y)%Z.
Proof.
  intros Hxy. pose proof (Qfloor_resp_le x y Hxy) as Hf.
  destruct (Z.eq_dec (Qfloor x) (Qfloor y)) as [Heq|Hne].
  - unfold Binary64.rne. rewrite <- Heq. set (f := Qfloor x).
    destruct (Qltb (x - inject_Z f) (1 # 2)) eqn:Ex.
    + destruct (Qltb (y - inject_Z f) (1 # 2)); [lia|].
      destruct (Qltb (1 # 2) (y - inject_Z f)); [lia|].
      destruct (Z.even f); lia.
    + apply Qltb_ge in Ex.
      replace (Qltb (y - inject_Z f) (1 # 2)) with false
        by (symmetry; apply Qltb_ge; lra).
      destruct (Qltb (1 # 2) (x - inject_Z f)) eqn:Ex2.
      * apply Qltb_lt in Ex2.
        replace (Qltb (1 # 2) (y - inject_Z f)) with true
          by (symmetry; apply Qltb_lt; lra).
        lia.
      * destruct (Qltb (1 # 2) (y - inject_Z f)); [destruct (Z.even f); lia|].
        destruct (Z.even f); lia.
  - destruct (rne_cases x) as [-> | ->], (rne_cases y) as [-> | ->]; lia.
Qed.

Lemma rne_int (n : Z) : Binary64.rne (inject_Z n) = n.
Proof.
  unfold Binary64.rne. rewrite Qfloor_Z.
  replace (Qltb (inject_Z n - inject_Z n) (1 # 2)) with true; [reflexivity|].
  symmetry. apply Qltb_lt. lra.
Qed.

(** A multiple of the quantum above [q] is above what [q] rounds to, and
    one below is below. *)
Lemma scaled_le (q : Q) (k : Z) (n : Z) :
  q <= inject_Z n * 2 ^ k ->
  inject_Z (Binary64.rne (q / 2 ^ k)) * 2 ^ k <= inject_Z n * 2 ^ k.
Proof.
  intros H. pose proof (pow2_pos k) as Hk.
  apply Qmult_le_compat_r; [|lra].
  rewrite <- Zle_Qle. rewrite <- (rne_int n). apply rne_mono.
  apply Qle_shift_div_r; assumption.
Qed.

Lemma scaled_ge (q : Q) (k : Z) (n : Z) :
  inject_Z n * 2 ^ k <= q ->
  inject_Z n * 2 ^ k <= inject_Z (Binary64.rne (q / 2 ^ k)) * 2 ^ k.
Proof.
  intros H. pose proof (pow2_pos k) as Hk.
  apply Qmult_le_compat_r; [|lra].
  rewrite <- Zle_Qle. rewrite <- (rne_int n) at 1. apply rne_mono.
  apply Qle_shift_div_l; assumption.
Qed.

Lemma pow2_split (b k : Z) :
  (k <= b)%Z -> 2 ^ b == inject_Z (2 ^ (b - k)) * 2 ^ k.
Proof.
  intros H. rewrite pow2_int by lia. rewrite <- pow2_plus.
  replace (b - k + k)%Z with b by lia. reflexivity.
Qed.

Lemma round_pos_mono (q1 q2 : Q) :
  0 < q1 -> q1 <= q2 -> Binary64.round_pos q1 <= Binary64.round_pos q2.
Proof.
  intros H1 H12. assert (H2 : 0 < q2) by lra.
  pose proof (binade_mono q1 q2 H1 H12) as Hb.
  unfold Binary64.round_pos, Binary64.quantum.
  set (b1 := Binary64.binade q1) in *. set (b2 := Binary64.binade q2) in *.
  destruct (Z.eq_dec (Z.max (b1 - 52) (-1074)) (Z.max (b2 - 52) (-1074)))
    as [Heq|Hne].
  - rewrite Heq. set (k := Z.max (b2 - 52) (-1074)).
    pose proof (pow2_pos k) as Hk.
    apply Qmult_le_compat_r; [|lra].
    rewrite <- Zle_Qle. apply rne_mono.
    apply Qle_shift_div_l; [exact Hk|].
    unfold Qdiv. rewrite <- Qmult_assoc, (Qmult_comm (/ _)), Qmult_inv_r, Qmult_1_r;
      [exact H12 | lra].
  - set (k1 := Z.max (b1 - 52) (-1074)) in *.
    assert (Hk2 : Z.max (b2 - 52) (-1074) = (b2 - 52)%Z) by lia.
    rewrite Hk2.
    assert (Hlt : (b1 < b2)%Z) by lia.
    destruct (binade_spec q1 H1) as [_ Hq1].
    destruct (binade_spec q2 H2) as [Hq2 _]. fold b1 in Hq1. fold b2 in Hq2.
    assert (Hmid1 : q1 <= 2 ^ b2).
    { apply Qlt_le_weak. apply Qlt_le_trans with (2 ^ (b1 + 1)); [exact Hq1|].
      apply pow2_le. lia. }
    apply Qle_trans with (2 ^ b2).
    + rewrite (pow2_split b2 k1) by lia. apply scaled_le.
      rewrite <- pow2_split by lia. exact Hmid1.
    + rewrite (pow2_split b2 (b2 - 52)) at 1 by lia. apply scaled_ge.
      rewrite <- pow2_split by lia. exact Hq2.
Qed.

Lemma round_pos_nonneg (q : Q) : 0 < q -> 0 <= Binary64.round_pos q.
Proof.
  intros Hq. unfold Binary64.round_pos. set (k := Binary64.quantum q).
  pose proof (pow2_pos k) as Hk.
  apply Qmult_le_0_compat; [|lra].
  change 0 with (inject_Z 0). rewrite <- Zle_Qle.
  rewrite <- (rne_int 0). apply rne_mono.
  apply Qle_shift_div_l; [exact Hk|]. change (inject_Z 0) with 0. lra.
Qed.

(** Rounding keeps the order. *)
Lemma round_mono (q1 q2 : Q) : q1 <= q2 -> Binary64.round q1 <= Binary64.round q2.
Proof.
  intros H. unfold Binary64.round.
  destruct (Qltb 0 q1) eqn:E1.
  - apply Qltb_lt in E1.
    replace (Qltb 0 q2) with true by (symmetry; apply Qltb_lt; lra).
    apply round_pos_mono; assumption.
  - apply Qltb_ge in E1. destruct (Qltb q1 0) eqn:E1'.
    + apply Qltb_lt in E1'.
      assert (Hn1 : Binary64.round_pos (- q1) >= 0)
        by (apply round_pos_nonneg; lra).
      destruct (Qltb 0 q2) eqn:E2.
      * apply Qltb_lt in E2. pose proof (round_pos_nonneg q2 E2). lra.
      * destruct (Qltb q2 0) eqn:E2'; [|lra].
        apply Qltb_lt in E2'. apply Qopp_le_compat.
        apply round_pos_mono; lra.
    + apply Qltb_ge in E1'.
      destruct (Qltb 0 q2) eqn:E2.
      * apply Qltb_lt in E2. apply round_pos_nonneg, E2.
      * apply Qltb_ge in E2.
        replace (Qltb q2 0) with false by (symmetry; apply Qltb_ge; lra).
        lra.
Qed.

(** A result between two floats rounds to a float between them. *)
Lemma round_between (a b q : Q) :
  Binary64.round a == a -> Binary64.round b == b ->
  a <= q <= b -> a <= Binary64.round q <= b.
Proof.
  intros Ha Hb [Hlo Hhi].
  pose proof (round_mono a q Hlo). pose proof (round_mono q b Hhi). lra.
Qed.

(** The floats the scorer meets as constants are left as they are, and
    the decimal literals take their nearest float. *)
Lemma round_examples :
  Binary64.round 0 == 0
  /\ Binary64.round (1 # 4) == 1 # 4
  /\ Binary64.round (1 # 2) == 1 # 2
  /\ Binary64.round (3 # 4) == 3 # 4
  /\ Binary64.round 1 == 1
  /\ Binary64.round 2 == 2
  /\ Binary64.round 3 == 3
  /\ Binary64.round conf_09 == conf_09
  /\ Binary64.round after_3 == after_3
  /\ Binary64.round 0.9 == conf_09
  /\ Binary64.round 0.1 == 3602879701896397 # 36028797018963968
  /\ Binary64.round (- (1 # 3)) == - (6004799503160661 # 18014398509481984)
  /\ Binary64.round (3 + (1 # 4503599627370496)) == 3
  /\ Binary64.round (3 + (3 # 4503599627370496)) == 3 + (1 # 1125899906842624)
  /\ Binary64.round (2 ^ (-1075)) == 0
  /\ Binary64.round (3 * 2 ^ (-1075)) == 2 ^ (-1073).
Proof. repeat split; vm_compute; reflexivity. Qed.

(** ** The rule ladder *)

Lemma has_type_present (t : string) (events : list Event) :
  ModelUtils.has_type t events = Ladder.present t events.
Proof.
  unfold ModelUtils.has_type, ModelUtils.event_types, Ladder.present.
  induction events as [|e events IH]; simpl; [reflexivity|].
  rewrite IH, String.eqb_sym. reflexivity.
Qed.

Lemma rules_first_match (state : Snapshot) (events : list Event) :
  Some (ModelUtils.rules_label_conf state events)
  = Ladder.first_match (Ladder.ladder state events).
Proof.
  unfold ModelUtils.rules_label_conf, Ladder.ladder.
  rewrite !has_type_present. cbn [Ladder.first_match].
  repeat match goal with
         | |- context [if ?b then _ else _] => destruct b; try reflexivity
         end.
Qed.

Lemma rules_split (state : Snapshot) (events : list Event) :
  ModelUtils._rules state events
  = (fst (ModelUtils.rules_label_conf state events),
     snd (ModelUtils.rules_label_conf state events),
     ModelUtils.rules_dist (fst (ModelUtils.rules_label_conf state events))
                           (snd (ModelUtils.rules_label_conf state events))).
Proof.
  unfold ModelUtils._rules.
  destruct (ModelUtils.rules_label_conf state events); reflexivity.
Qed.

(** C1, as stated, fails: with health 5, hunger 20 and a damage_taken event
    in the window, a player_death event in the same window makes rule 1
    answer first, and the confidence is 0.98, not 0.95. *)
Lemma rules_damage_with_death_conf :
  vitals_health hurt = Some 5
  /\ vitals_hunger hurt = Some 20%Z
  /\ ModelUtils.has_type "damage_taken" [event "damage_taken"; event "player_death"] = true
  /\ pred_label (ModelUtils._rules hurt [event "damage_taken"; event "player_death"])
     = "low_health"
  /\ pred_conf (ModelUtils._rules hurt [event "damage_taken"; event "player_death"])
     == 0.98
  /\ ~ pred_conf (ModelUtils._rules hurt [event "damage_taken"; event "player_death"])
       == 0.95.
Proof.
  repeat split; try reflexivity.
  vm_compute. discriminate.
Qed.

(** C1, amended: [_rules] answers with the first rule of the nine-rule
    ladder that matches, with that rule's confidence; for a snapshot with
    health 5 and hunger 20 and a window holding a damage_taken event, the
    answer is low_health with confidence 0.95 when no player_death event is
    in the window (also when combat_start is), and low_health with
    confidence 0.98 when one is. *)
Theorem rules_ladder_precedence (state : Snapshot) (events : list Event) (h : Q) :
  Some (pred_label (ModelUtils._rules state events),
        pred_conf (ModelUtils._rules state events))
  = Ladder.first_match (Ladder.ladder state events)
  /\ (vitals_health state = Some h -> h == 5 ->
      vitals_hunger state = Some 20%Z ->
      Ladder.present "damage_taken" events = true ->
      (Ladder.present "player_death" events = false ->
       pred_label (ModelUtils._rules state events) = "low_health"
       /\ pred_conf (ModelUtils._rules state events) = 0.95)
      /\ (Ladder.present "player_death" events = true ->
          pred_label (ModelUtils._rules state events) = "low_health"
          /\ pred_conf (ModelUtils._rules state events) = 0.98)).
Proof.
  rewrite rules_split. unfold pred_label, pred_conf. cbn [fst snd].
  split.
  - rewrite <- rules_first_match.
    destruct (ModelUtils.rules_label_conf state events); reflexivity.
  - intros Hh H5 _ Hdmg.
    assert (Hlt : Qltb h 10 = true) by (apply Qltb_lt; rewrite H5; reflexivity).
    unfold ModelUtils.rules_label_conf. rewrite !has_type_present, Hh, Hdmg.
    cbn [default from_option id]. rewrite Hlt.
    split; intros Hdeath; rewrite Hdeath; split; reflexivity.
Qed.

Lemma rules_ladder_precedence_witness :
  vitals_health hurt = Some 5 /\ 5 == 5 /\ vitals_hunger hurt = Some 20%Z
  /\ Ladder.present "damage_taken" [event "damage_taken"; event "combat_start"] = true
  /\ Ladder.present "player_death" [event "damage_taken"; event "combat_start"] = false
  /\ pred_label (ModelUtils._rules hurt [event "damage_taken"; event "combat_start"])
     = "low_health"
  /\ pred_conf (ModelUtils._rules hurt [event "damage_taken"; event "combat_start"])
     = 0.95.
Proof.
  repeat (split; [reflexivity|]).
  apply (proj2 (rules_ladder_precedence
                  hurt [event "damage_taken"; event "combat_start"] 5));
    reflexivity.
Defined.

(** ** The distribution of the rule strategy *)

(** The eight (label, confidence) pairs the ladder can yield. *)
Lemma rules_outcomes (state : Snapshot) (events : list Event) :
  In (ModelUtils.rules_label_conf state events)
     [("low_health", 0.98); ("low_health", 0.95); ("combat", 0.90);
      ("low_food", 0.90); ("night_risk", 0.85); ("mining_mode", 0.75);
      ("near_resource", 0.70); ("exploring", 0.60)].
Proof.
  unfold ModelUtils.rules_label_conf.
  repeat match goal with
         | |- context [if ?b then _ else _] => destruct b
         end; simpl; tauto.
Qed.

(** C2: the distribution returned by the rule strategy gives the returned
    confidence to the returned label, gives (1 - confidence) / (labelCount - 1)
    to every other known label, has no key besides the known labels (it
    has as many keys as there are labels), and its values sum to 1 (so
    within 1e-6 of 1.0). *)
Theorem rules_distribution (state : Snapshot) (events : list Event) :
  pred_dist (ModelUtils._rules state events)
    !! pred_label (ModelUtils._rules state events)
  = Some (pred_conf (ModelUtils._rules state events))
  /\ (forall l : string,
        In l ModelUtils.labels ->
        l <> pred_label (ModelUtils._rules state events) ->
        pred_dist (ModelUtils._rules state events) !! l
        = Some ((1 - pred_conf (ModelUtils._rules state events))
                / inject_Z (Z.of_nat (length ModelUtils.labels) - 1)))
  /\ size (pred_dist (ModelUtils._rules state events)) = length ModelUtils.labels
  /\ ModelUtils.dist_sum (pred_dist (ModelUtils._rules state events)) == 1
  /\ Qabs (ModelUtils.dist_sum (pred_dist (ModelUtils._rules state events)) - 1)
     <= 1e-6.
Proof.
  rewrite rules_split. unfold pred_dist, pred_label, pred_conf. cbn [fst snd].
  pose proof (rules_outcomes state events) as Hin.
  destruct (ModelUtils.rules_label_conf state events) as [label conf].
  cbn [fst snd].
  repeat (destruct Hin as [[= <- <-]|Hin]; [|]); try contradiction;
    (split; [vm_compute; reflexivity|]);
    (split; [intros l Hl Hne;
             repeat (destruct Hl as [<-|Hl];
                     [try (exfalso; apply Hne; reflexivity);
                      try (vm_compute; reflexivity)|]);
             contradiction|]);
    (split; [vm_compute; reflexivity|]);
    (split; vm_compute; [reflexivity | discriminate]).
Qed.

Lemma rules_distribution_witness :
  In "combat" ModelUtils.labels
  /\ "combat" <> pred_label (ModelUtils._rules calm [])
  /\ pred_dist (ModelUtils._rules calm []) !! "combat"
     = Some ((1 - pred_conf (ModelUtils._rules calm []))
             / inject_Z (Z.of_nat (length ModelUtils.labels) - 1)).
Proof.
  assert (Hin : In "combat" ModelUtils.labels) by (vm_compute; tauto).
  assert (Hne : "combat" <> pred_label (ModelUtils._rules calm []))
    by (vm_compute; discriminate).
  split; [exact Hin|]. split; [exact Hne|].
  exact (proj1 (proj2 (rules_distribution calm [])) "combat" Hin Hne).
Defined.

(** ** The event-relevance boost *)

Lemma matches_le (label : string) (events : list Event) :
  (CompanionServer.matches label events <= length events)%nat.
Proof.
  unfold CompanionServer.matches, ModelUtils.event_types.
  etransitivity; [apply filter_length_le|]. rewrite length_map. reflexivity.
Qed.

(** The dict of the code holds the table, and [.get(label, [])] gives
    the empty list outside it. *)
Lemma relevance_lookup (label : string) :
  default [] (CompanionServer.relevance_map !! label) = relevant label.
Proof.
  unfold relevant.
  repeat (match goal with
          | |- context [String.eqb label ?k] =>
              destruct (String.eqb_spec label k) as [->|?];
              [vm_compute; reflexivity|]
          end).
  unfold CompanionServer.relevance_map, list_to_map. cbn [foldr fst snd].
  rewrite !lookup_insert_ne by congruence. rewrite lookup_empty. reflexivity.
Qed.

(** The sum of the code counts the events whose type is relevant. *)
Lemma matches_count (label : string) (events : list Event) :
  CompanionServer.matches label events = count_relevant (relevant label) events.
Proof.
  unfold CompanionServer.matches, ModelUtils.event_types.
  rewrite relevance_lookup. generalize (relevant label) as rel. intros rel.
  induction events as [|e events IH]; cbn [map List.filter count_relevant];
    [reflexivity|].
  destruct (in_dec string_dec (default "" (ev_type e)) rel) as [Hin|Hout].
  - replace (existsb (String.eqb (default "" (ev_type e))) rel) with true.
    + cbn [length]. rewrite IH. reflexivity.
    + symmetry. apply existsb_exists. eexists. split; [exact Hin|].
      apply String.eqb_refl.
  - replace (existsb (String.eqb (default "" (ev_type e))) rel) with false.
    + exact IH.
    + symmetry. apply not_true_iff_false. intros E.
      apply existsb_exists in E as (x & Hx & Heq).
      apply String.eqb_eq in Heq. subst x. exact (Hout Hx).
Qed.

Lemma count_relevant_zero (rel : list string) (events : list Event) :
  count_relevant rel events = 0%nat
  <-> Forall (fun e => ~ In (default "" (ev_type e)) rel) events.
Proof.
  induction events as [|e events IH]; cbn [count_relevant].
  - split; [constructor | reflexivity].
  - destruct (in_dec string_dec (default "" (ev_type e)) rel) as [Hin|Hout].
    + split; [discriminate|]. intros H. inversion H as [|? ? Hn _]; subst.
      contradiction.
    + rewrite IH. split.
      * intros H. constructor; assumption.
      * intros H. inversion H; assumption.
Qed.

Lemma matches_zero (label : string) (events : list Event) :
  CompanionServer.matches label events = 0%nat
  <-> Forall (fun e => ~ In (default "" (ev_type e)) (relevant label)) events.
Proof. rewrite matches_count. apply count_relevant_zero. Qed.

Lemma ratio_bounds (m n : nat) :
  (0 < m)%nat -> (m <= n)%nat ->
  0 <= inject_Z (Z.of_nat m) / inject_Z (Z.of_nat n) <= 1.
Proof.
  intros Hm Hmn.
  assert (Hn : 0 < inject_Z (Z.of_nat n)).
  { change 0 with (inject_Z 0). rewrite <- Zlt_Qlt. lia. }
  split.
  - apply Qle_shift_div_l; [exact Hn|]. rewrite Qmult_0_l.
    change 0 with (inject_Z 0). rewrite <- Zle_Qle. lia.
  - apply Qle_shift_div_r; [exact Hn|]. rewrite Qmult_1_l.
    rewrite <- Zle_Qle. lia.
Qed.

Lemma event_boost_range (label : string) (events : list Event) :
  1 <= CompanionServer._calculate_event_boost label events <= 3.
Proof.
  unfold CompanionServer._calculate_event_boost.
  destruct events as [|e events]; [lra|]. set (evs := e :: events).
  destruct (Nat.eqb_spec (CompanionServer.matches label evs) 0) as [H0|H0]; [lra|].
  pose proof (ratio_bounds (CompanionServer.matches label evs) (length evs))
    as Hratio.
  destruct round_examples as (R0 & _ & _ & _ & R1 & R2 & R3 & _).
  set (ratio := inject_Z (Z.of_nat (CompanionServer.matches label evs))
                / inject_Z (Z.of_nat (length evs))) in *.
  assert (H1 : 0 <= Binary64.round ratio <= 1).
  { apply round_between; [exact R0 | exact R1 |].
    apply Hratio; [lia | apply matches_le]. }
  assert (H2 : 0 <= Binary64.round (Binary64.round ratio * 2) <= 2).
  { apply round_between; [exact R0 | exact R2 | lra]. }
  assert (H3 : 1 <= Binary64.round (1 + Binary64.round (Binary64.round ratio * 2))
               <= 3).
  { apply round_between; [exact R1 | exact R3 | lra]. }
  split; [apply Q.min_glb; lra | apply Q.le_min_r].
Qed.

(** C3: the event boost lies in [1, 3]; it is 1 when the event list is
    empty or holds no event whose type is relevant to the label; otherwise
    it is min(3, 1 + (matches / totalEvents) * 2), where [matches] is the
    number of events of the list whose type is in the label's row of the
    relevance table and [totalEvents] the length of the list; the
    quotient, the product and the sum are those of floats. *)
Theorem event_boost_bounds (label : string) (events : list Event) :
  1 <= CompanionServer._calculate_event_boost label events <= 3
  /\ (events = []
      \/ Forall (fun e => ~ In (default "" (ev_type e)) (relevant label)) events ->
      CompanionServer._calculate_event_boost label events = 1)
  /\ (events <> [] ->
      ~ Forall (fun e => ~ In (default "" (ev_type e)) (relevant label)) events ->
      CompanionServer._calculate_event_boost label events
      == Qmin 3 (float_add 1
                   (float_mul
                      (float_div
                         (inject_Z (Z.of_nat (count_relevant (relevant label) events)))
                         (inject_Z (Z.of_nat (length events))))
                      2))).
Proof.
  split; [apply event_boost_range|].
  pose proof (matches_zero label events) as Hz.
  rewrite <- matches_count.
  unfold CompanionServer._calculate_event_boost.
  destruct events as [|e events]; [|set (evs := e :: events) in *].
  - split; [reflexivity | congruence].
  - destruct (Nat.eqb_spec (CompanionServer.matches label evs) 0) as [H0|H0].
    + split; [reflexivity|]. intros _ Hn. exfalso. apply Hn, Hz, H0.
    + split.
      * intros [Hnil|Hall]; [discriminate|]. exfalso. apply H0, Hz, Hall.
      * intros _ _. apply Q.min_comm.
Qed.

Lemma event_boost_bounds_witness :
  [event "damage_taken"; event "biome_changed"; event "damage_taken";
   event "player_death"; event "block_placed"] <> []
  /\ ~ Forall (fun e => ~ In (default "" (ev_type e)) (relevant "low_health"))
         [event "damage_taken"; event "biome_changed"; event "damage_taken";
          event "player_death"; event "block_placed"]
  /\ count_relevant (relevant "low_health")
       [event "damage_taken"; event "biome_changed"; event "damage_taken";
        event "player_death"; event "block_placed"]
     = 3%nat
  /\ CompanionServer._calculate_event_boost "low_health"
       [event "damage_taken"; event "biome_changed"; event "damage_taken";
        event "player_death"; event "block_placed"]
     == Binary64.round 2.2
  /\ Binary64.round 2.2 == 2476979795053773 # 1125899906842624
  /\ CompanionServer._calculate_event_boost "low_health" [event "player_death"]
     == 3.
Proof.
  set (evs := [event "damage_taken"; event "biome_changed"; event "damage_taken";
               event "player_death"; event "block_placed"]).
  assert (Hne : evs <> []) by discriminate.
  assert (Hrel : ~ Forall (fun e => ~ In (default "" (ev_type e))
                                        (relevant "low_health")) evs).
  { intros H. inversion H as [|? ? Hn _]. apply Hn. vm_compute. left. reflexivity. }
  split; [exact Hne|]. split; [exact Hrel|].
  split; [vm_compute; reflexivity|].
  split; [|split; vm_compute; reflexivity].
  rewrite (proj2 (proj2 (event_boost_bounds "low_health" evs)) Hne Hrel).
  vm_compute. reflexivity.
Defined.

(** ** The admission check *)

Lemma after_post_global (self : Server) (now t_save : Q) (o : SaveOutcome)
    (label tip : string) (used_rag : Z) (state_ref : string) :
  last_tip_timestamp
    (CompanionServer._after_post self now t_save o label tip used_rag state_ref)
  = now.
Proof. destruct o; reflexivity. Qed.

Lemma after_post_label (self : Server) (now t_save : Q) (o : SaveOutcome)
    (label tip : string) (used_rag : Z) (state_ref : string) :
  label_last_tip
    (CompanionServer._after_post self now t_save o label tip used_rag state_ref)
  = <[label := now]> (label_last_tip self).
Proof. destruct o; reflexivity. Qed.

Lemma after_post_tip (self : Server) (now t_save : Q) (o : SaveOutcome)
    (label tip : string) (used_rag : Z) (state_ref : string) :
  tip_last_shown
    (CompanionServer._after_post self now t_save o label tip used_rag state_ref)
  = <[tip := now]> (tip_last_shown self).
Proof. destruct o; reflexivity. Qed.

Lemma check_cooldowns_true (cfg : Config) (self : Server) (now : Q) (label : string) :
  CompanionServer._check_cooldowns cfg self now label = true
  <-> inject_Z (GLOBAL_COOLDOWN_SECONDS cfg) <= now - last_tip_timestamp self
      /\ inject_Z (LABEL_COOLDOWN_SECONDS cfg)
         <= now - default 0 (label_last_tip self !! label).
Proof.
  unfold CompanionServer._check_cooldowns.
  destruct (Qltb (now - last_tip_timestamp self) _) eqn:Hg;
    [|destruct (Qltb (now - default 0 (label_last_tip self !! label)) _) eqn:Hl].
  - apply Qltb_lt in Hg. split; [discriminate|]. intros [H _]. lra.
  - apply Qltb_lt in Hl. split; [discriminate|]. intros [_ H]. lra.
  - apply Qltb_ge in Hg, Hl. tauto.
Qed.

(** C4: the admission check answers true exactly when the global cooldown
    and the cooldown of the label have both elapsed; so after a dispatch
    committed at time T for label L, the check for L answers false at
    T + labelCooldown - eps and, the global cooldown being satisfied, true
    at T + labelCooldown + eps. *)
Theorem check_cooldowns_admits (cfg : Config) (self : Server) (now : Q)
    (label : string) :
  (CompanionServer._check_cooldowns cfg self now label = true
   <-> inject_Z (GLOBAL_COOLDOWN_SECONDS cfg) <= now - last_tip_timestamp self
       /\ inject_Z (LABEL_COOLDOWN_SECONDS cfg)
          <= now - default 0 (label_last_tip self !! label))
  /\ (forall (T t_save eps : Q) (o : SaveOutcome) (tip : string) (used_rag : Z)
             (state_ref : string),
        0 < eps ->
        let self' :=
          CompanionServer._after_post self T t_save o label tip used_rag state_ref in
        let lc := inject_Z (LABEL_COOLDOWN_SECONDS cfg) in
        CompanionServer._check_cooldowns cfg self' (T + lc - eps) label = false
        /\ (inject_Z (GLOBAL_COOLDOWN_SECONDS cfg)
            <= (T + lc + eps) - last_tip_timestamp self' ->
            CompanionServer._check_cooldowns cfg self' (T + lc + eps) label = true)).
Proof.
  split; [apply check_cooldowns_true|].
  intros T t_save eps o tip used_rag state_ref Heps self' lc.
  assert (Hlab : default 0 (label_last_tip self' !! label) = T).
  { unfold self'. rewrite after_post_label, lookup_insert_eq. reflexivity. }
  split.
  - apply not_true_iff_false. rewrite check_cooldowns_true, Hlab.
    intros [_ H]. fold lc in H. lra.
  - intros Hg. apply check_cooldowns_true. rewrite Hlab. fold lc.
    split; [exact Hg | lra].
Qed.

Lemma check_cooldowns_admits_witness :
  0 < 1
  /\ inject_Z (GLOBAL_COOLDOWN_SECONDS default_config)
     <= (1000 + inject_Z (LABEL_COOLDOWN_SECONDS default_config) + 1)
        - last_tip_timestamp
            (CompanionServer._after_post
               (fresh TipsDataset._stub) 1000 1000 Saved "exploring"
               "Exploring? Mark your base coordinates." 0 "unknown")
  /\ CompanionServer._check_cooldowns default_config
       (CompanionServer._after_post
          (fresh TipsDataset._stub) 1000 1000 Saved "exploring"
          "Exploring? Mark your base coordinates." 0 "unknown")
       (1000 + inject_Z (LABEL_COOLDOWN_SECONDS default_config) - 1) "exploring"
     = false
  /\ CompanionServer._check_cooldowns default_config
       (CompanionServer._after_post
          (fresh TipsDataset._stub) 1000 1000 Saved "exploring"
          "Exploring? Mark your base coordinates." 0 "unknown")
       (1000 + inject_Z (LABEL_COOLDOWN_SECONDS default_config) + 1) "exploring"
     = true.
Proof.
  assert (Heps : 0 < 1) by reflexivity.
  assert (Hg : inject_Z (GLOBAL_COOLDOWN_SECONDS default_config)
               <= (1000 + inject_Z (LABEL_COOLDOWN_SECONDS default_config) + 1)
                  - last_tip_timestamp
                      (CompanionServer._after_post
                         (fresh TipsDataset._stub) 1000 1000 Saved "exploring"
                         "Exploring? Mark your base coordinates." 0 "unknown"))
    by (vm_compute; discriminate).
  split; [exact Heps|]. split; [exact Hg|].
  destruct (proj2 (check_cooldowns_admits default_config (fresh TipsDataset._stub)
                     0 "exploring")
              1000 1000 1 Saved "Exploring? Mark your base coordinates." 0%Z
              "unknown" Heps) as [Hbefore Hafter].
  split; [exact Hbefore | exact (Hafter Hg)].
Defined.

(** ** Tip selection *)

(** The head of the sorted list is the first element of greatest score. *)
Lemma sort_desc_head (l : list (Q * string)) :
  l <> [] ->
  exists pre x post,
    l = (pre ++ x :: post)%list
    /\ hd_error (sort_desc l) = Some x
    /\ (forall y, In y pre -> fst y < fst x)
    /\ (forall y, In y post -> fst y <= fst x).
Proof.
  induction l as [|a l IH]; [congruence|]. intros _.
  destruct l as [|b l].
  - exists [], a, []. repeat split; simpl; tauto.
  - destruct IH as (pre & x & post & Hl & Hhd & Hpre & Hpost); [discriminate|].
    cbn [sort_desc] in *. destruct (insert_desc b (sort_desc l)) as [|x' rest];
      [discriminate|].
    injection Hhd as ->. cbn [insert_desc].
    destruct (Qltb (fst a) (fst x)) eqn:Hax.
    + apply Qltb_lt in Hax. exists (a :: pre), x, post.
      rewrite Hl. repeat split; [|exact Hpost].
      intros y [<-|Hy]; [exact Hax | apply Hpre, Hy].
    + apply Qltb_ge in Hax. exists [], a, (b :: l).
      repeat split; [simpl; tauto|].
      intros y Hy. rewrite Hl in Hy. apply in_app_or in Hy as [Hy|[<-|Hy]].
      * apply Qlt_le_weak. eapply Qlt_le_trans; [apply Hpre, Hy | exact Hax].
      * exact Hax.
      * eapply Qle_trans; [apply Hpost, Hy | exact Hax].
Qed.







(** ** The evaluation cycle *)

Lemma save_state_fields (self : Server) (now : Q) (o : SaveOutcome) :
  last_tip (CompanionServer._save_state self now o) = last_tip self
  /\ last_tip_timestamp (CompanionServer._save_state self now o)
     = last_tip_timestamp self
  /\ label_last_tip (CompanionServer._save_state self now o) = label_last_tip self
  /\ tip_last_shown (CompanionServer._save_state self now o) = tip_last_shown self
  /\ label_tips_posted (CompanionServer._save_state self now o)
     = label_tips_posted self
  /\ label_acceptance (CompanionServer._save_state self now o)
     = label_acceptance self
  /\ decisions_csv (CompanionServer._save_state self now o) = decisions_csv self
  /\ feedback_csv (CompanionServer._save_state self now o) = feedback_csv self.
Proof. destruct o; repeat split. Qed.

(** Every way through [_process_state]: the server is returned as it
    was; or the sink accepted the tip and [_after_post] ran to its end; or
    the sink accepted the tip and [_append_csv] raised inside
    [_after_post], after the assignments. *)
Lemma process_state_cases (cfg : Config) (self : Server) (env : CycleEnv) :
  (fst (CompanionServer._process_state cfg self env) = self
   /\ forall tip, ~ posted (snd (CompanionServer._process_state cfg self env)) tip)
  \/ (exists (label tip : string) (used_rag : Z) (state_ref : string),
        post_ok env = true /\ append_ok env = true
        /\ CompanionServer._process_state cfg self env
           = (CompanionServer._after_post self (t_post env) (t_save env)
                (save_outcome env) label tip used_rag state_ref,
              Dispatched tip))
  \/ (exists (label tip : string),
        post_ok env = true /\ append_ok env = false
        /\ CompanionServer._process_state cfg self env
           = (CompanionServer.after_post_raised self (t_post env) label tip,
              CommitRaised tip)).
Proof.
  assert (Hno : forall o, (forall tip, o <> Dispatched tip) ->
                          (forall tip, o <> CommitRaised tip) ->
                          forall tip, ~ posted o tip).
  { intros o H1 H2 tip [H|H]; [exact (H1 _ H) | exact (H2 _ H)]. }
  unfold CompanionServer._process_state.
  destruct (last_state self) as [st|];
    [|left; split; [reflexivity|apply Hno; discriminate]].
  destruct (ModelUtils.predict_label_and_confidence _ _ _) as [[label conf] dist].
  destruct (Qltb conf _); [left; split; [reflexivity|apply Hno; discriminate]|].
  destruct (CompanionServer._select_tip _ _ _ _ _ _) as [tip|];
    [|left; split; [reflexivity|apply Hno; discriminate]].
  destruct (String.eqb tip "");
    [left; split; [reflexivity|apply Hno; discriminate]|].
  destruct (negb _); [left; split; [reflexivity|apply Hno; discriminate]|].
  destruct (if PyStr.contains "{recipe}" tip then _ else _) as [[tip' used_rag]|];
    [|left; split; [reflexivity|apply Hno; discriminate]].
  destruct (post_ok env) eqn:Hpost;
    [|left; split; [reflexivity|apply Hno; discriminate]].
  right. destruct (append_ok env) eqn:Happ.
  - left. exists label, tip', used_rag, (default "unknown" (state_timestamp st)).
    repeat split.
  - right. exists label, tip'. repeat split.
Qed.

Lemma process_state_post_failed (cfg : Config) (self : Server) (env : CycleEnv) :
  post_ok env = false ->
  fst (CompanionServer._process_state cfg self env) = self
  /\ forall tip, ~ posted (snd (CompanionServer._process_state cfg self env)) tip.
Proof.
  intros Hpost.
  destruct (process_state_cases cfg self env)
    as [H|[(label & tip & used_rag & ref & Hok & _)|(label & tip & Hok & _)]];
    [exact H | congruence | congruence].
Qed.

(** C5, as stated, fails in its last part: the sink accepts the tip, the
    decision row is appended and the state file cannot be opened. The
    ledgers and the decision record are committed, the state file is not
    written: neither a full commit nor a no-op. *)
Lemma process_state_commit_without_persistence :
  post_ok (cycle_at 1000 true OpenFailed) = true
  /\ append_ok (cycle_at 1000 true OpenFailed) = true
  /\ snd (CompanionServer._process_state default_config (calm_server 1000)
            (cycle_at 1000 true OpenFailed))
     = Dispatched exploring_tip
  /\ last_tip_timestamp (calm_server 1000) = 0
  /\ last_tip_timestamp
       (fst (CompanionServer._process_state default_config (calm_server 1000)
               (cycle_at 1000 true OpenFailed)))
     = 1000
  /\ decisions_csv (calm_server 1000) = []
  /\ length (decisions_csv
               (fst (CompanionServer._process_state default_config (calm_server 1000)
                       (cycle_at 1000 true OpenFailed))))
     = 1%nat
  /\ state_file
       (fst (CompanionServer._process_state default_config (calm_server 1000)
               (cycle_at 1000 true OpenFailed)))
     = state_file (calm_server 1000).
Proof. repeat split; vm_compute; reflexivity. Qed.

(** C5, amended: when the sink reports failure the cycle returns the server
    as it was: ledgers, decision records and state file are those of before
    the call, whatever else the cycle would have met. When the decision
    log can be appended to, every cycle either does that (and the sink has
    not accepted a tip), or the sink accepted the tip and the cycle commits
    the three ledgers and the decision record together and then writes the
    state document; the document is on disk when the write succeeds, and
    when it does not the failure is only logged and the ledgers and the
    record stay committed. Nothing is said here of a cycle in which
    [_append_csv] raises. *)
Theorem process_state_commit_or_noop (cfg : Config) (self : Server) (env : CycleEnv) :
  (post_ok env = false ->
   fst (CompanionServer._process_state cfg self env) = self
   /\ forall tip, ~ posted (snd (CompanionServer._process_state cfg self env)) tip)
  /\ (append_ok env = true ->
      (fst (CompanionServer._process_state cfg self env) = self
       /\ forall tip, ~ posted (snd (CompanionServer._process_state cfg self env))
                        tip)
      \/ exists (label tip : string) (used_rag : Z) (state_ref : string),
           let self' := fst (CompanionServer._process_state cfg self env) in
           post_ok env = true
           /\ snd (CompanionServer._process_state cfg self env) = Dispatched tip
           /\ last_tip self' = Some tip
           /\ last_tip_timestamp self' = t_post env
           /\ label_last_tip self' = <[label := t_post env]> (label_last_tip self)
           /\ tip_last_shown self' = <[tip := t_post env]> (tip_last_shown self)
           /\ label_tips_posted self'
              = <[label := (default 0 (label_tips_posted self !! label) + 1)%Z]>
                  (label_tips_posted self)
           /\ label_acceptance self' = label_acceptance self
           /\ decisions_csv self'
              = (decisions_csv self
                 ++ [{| d_timestamp := t_post env; d_label := label;
                        d_confidence := 1; d_tip := tip; d_used_rag := used_rag;
                        d_state_ref := state_ref;
                        d_cooldowns := label_last_tip self' |}])%list
           /\ feedback_csv self' = feedback_csv self
           /\ match save_outcome env with
              | Saved =>
                  state_file self'
                  = JsonObject
                      {| doc_label_last_tip := Some (label_last_tip self');
                         doc_tip_last_shown := Some (tip_last_shown self');
                         doc_label_acceptance := Some (label_acceptance self');
                         doc_label_tips_posted := Some (label_tips_posted self');
                         doc_last_save := Some (t_save env) |}
              | OpenFailed => state_file self' = state_file self
              | DumpFailed => state_file self' = NotJson
              end).
Proof.
  split; [intros H; apply (process_state_post_failed cfg self env H)|].
  intros Happ.
  destruct (process_state_cases cfg self env)
    as [H|[(label & tip & used_rag & ref & Hok & _ & Heq)
          |(label & tip & _ & Hno & _)]];
    [left; exact H| |congruence].
  right. exists label, tip, used_rag, ref. rewrite Heq. cbn [fst snd].
  split; [exact Hok|]. split; [reflexivity|].
  destruct (save_outcome env); repeat split.
Qed.

Lemma process_state_commit_or_noop_witness :
  (post_ok (cycle_at 1000 false Saved) = false
   /\ fst (CompanionServer._process_state default_config (calm_server 1000)
             (cycle_at 1000 false Saved))
      = calm_server 1000)
  /\ (append_ok (cycle_at 1000 true Saved) = true
      /\ exists label tip,
           snd (CompanionServer._process_state default_config (calm_server 1000)
                  (cycle_at 1000 true Saved)) = Dispatched tip
           /\ label_last_tip
                (fst (CompanionServer._process_state default_config
                        (calm_server 1000) (cycle_at 1000 true Saved)))
              = <[label := 1000]> (label_last_tip (calm_server 1000))).
Proof.
  assert (H : post_ok (cycle_at 1000 false Saved) = false) by reflexivity.
  assert (H' : append_ok (cycle_at 1000 true Saved) = true) by reflexivity.
  split.
  - split; [exact H|].
    exact (proj1 (proj1 (process_state_commit_or_noop default_config
                           (calm_server 1000) (cycle_at 1000 false Saved)) H)).
  - split; [exact H'|].
    destruct (proj2 (process_state_commit_or_noop default_config
                       (calm_server 1000) (cycle_at 1000 true Saved)) H')
      as [[_ Hn]|(label & tip & used_rag & ref & Hc)].
    + exfalso. apply (Hn exploring_tip). left. vm_compute. reflexivity.
    + exists label, tip. cbv zeta in Hc.
      destruct Hc as (_ & Hs & _ & _ & Hl & _). split; [exact Hs | exact Hl].
Defined.

(** ** Per-candidate suppression *)

(** A tip whose text was committed at [T] is not a candidate while
    [now - T] is below the tip cooldown, whatever its label and whatever
    the other two ledgers hold. *)
Lemma after_post_suppresses (cfg : Config) (self : Server) (T t_save now : Q)
    (o : SaveOutcome) (label tip : string) (used_rag : Z) (state_ref : string)
    (label' : string) (c : Tip) :
  now - T < inject_Z (TIP_COOLDOWN_SECONDS cfg) ->
  In c (CompanionServer.candidates cfg
          (CompanionServer._after_post self T t_save o label tip used_rag state_ref)
          now label') ->
  text c <> tip.
Proof.
  intros Hnow Hin Heq. unfold CompanionServer.candidates in Hin.
  apply filter_In in Hin as [_ Hc]. apply andb_true_iff in Hc as [_ Hc].
  rewrite after_post_tip, Heq, lookup_insert_eq in Hc. cbn in Hc.
  apply Qle_bool_iff in Hc. lra.
Qed.

(** C6 on the code: a candidate whose text carries the [{recipe}]
    placeholder is dispatched at 1000 under its formatted text; the ledger
    is keyed by that formatted text, so the candidate is still in the
    filtered set at 1001 and is dispatched again at 1031, inside its
    180-second window. *)
Theorem recipe_tip_not_suppressed :
  snd (CompanionServer._process_state default_config (recipe_server 1000)
         (cycle_at 1000 true Saved))
  = Dispatched "Try crafting: [recipe not available]"
  /\ CompanionServer.candidates default_config
       (fst (CompanionServer._process_state default_config (recipe_server 1000)
               (cycle_at 1000 true Saved)))
       1001 "exploring"
     = [{| text := "Try crafting: {recipe}"; spoiler_level := 0; priority := 5 |}]
  /\ snd (CompanionServer._process_state default_config
            (CompanionServer.receive_state
               (fst (CompanionServer._process_state default_config
                       (recipe_server 1000) (cycle_at 1000 true Saved)))
               calm 1031)
            (cycle_at 1031 true Saved))
     = Dispatched "Try crafting: [recipe not available]".
Proof. repeat split; vm_compute; reflexivity. Qed.

(** ** The end-to-end scenario *)

Lemma process_state_dispatch (cfg : Config) (self : Server) (env : CycleEnv)
    (st : Snapshot) (tip : string) :
  last_state self = Some st ->
  let p := ModelUtils.predict_label_and_confidence
             (model_utils self) st (recent_events self) in
  Qltb (pred_conf p) (CONF_THRESHOLD cfg) = false ->
  CompanionServer._select_tip cfg self (t_select env) (pred_label p) (pred_conf p)
    (recent_events self) = Some tip ->
  String.eqb tip "" = false ->
  CompanionServer._check_cooldowns cfg self (t_check env) (pred_label p) = true ->
  PyStr.contains "{recipe}" tip = false ->
  post_ok env = true ->
  append_ok env = true ->
  CompanionServer._process_state cfg self env
  = (CompanionServer._after_post self (t_post env) (t_save env) (save_outcome env)
       (pred_label p) tip 0 (default "unknown" (state_timestamp st)),
     Dispatched tip).
Proof.
  intros Hst p. unfold CompanionServer._process_state. rewrite Hst. fold p.
  destruct p as [[label conf] dist]. unfold pred_conf, pred_label. cbn [fst snd].
  intros -> -> -> -> -> -> ->. reflexivity.
Qed.

Lemma process_state_no_winner (cfg : Config) (self : Server) (env : CycleEnv)
    (st : Snapshot) :
  last_state self = Some st ->
  let p := ModelUtils.predict_label_and_confidence
             (model_utils self) st (recent_events self) in
  Qltb (pred_conf p) (CONF_THRESHOLD cfg) = false ->
  CompanionServer._select_tip cfg self (t_select env) (pred_label p) (pred_conf p)
    (recent_events self) = None ->
  CompanionServer._process_state cfg self env = (self, NoWinner).
Proof.
  intros Hst p. unfold CompanionServer._process_state. rewrite Hst. fold p.
  destruct p as [[label conf] dist]. unfold pred_conf, pred_label. cbn [fst snd].
  intros -> ->. reflexivity.
Qed.

Lemma select_tip_none (cfg : Config) (self : Server) (now : Q) (label : string)
    (conf : Q) (events : list Event) :
  CompanionServer.candidates cfg self now label = [] ->
  CompanionServer._select_tip cfg self now label conf events = None.
Proof. unfold CompanionServer._select_tip. intros ->. reflexivity. Qed.

Lemma select_tip_single (cfg : Config) (self : Server) (now : Q) (label : string)
    (conf : Q) (events : list Event) (c : Tip) :
  CompanionServer.candidates cfg self now label = [c] ->
  CompanionServer._select_tip cfg self now label conf events = Some (text c).
Proof. unfold CompanionServer._select_tip. intros ->. reflexivity. Qed.

Section Scenario.

Variable T : Q.
Hypothesis no_prior_dispatch : 180 <= T.

Lemma calm_classified :
  pred_label (calm_prediction T) = "exploring"
  /\ pred_conf (calm_prediction T) = 0.60.
Proof. split; vm_compute; reflexivity. Qed.

Lemma calm_candidates :
  CompanionServer.candidates default_config (calm_server T) T "exploring"
  = [{| text := exploring_tip; spoiler_level := 0; priority := 5 |}].
Proof.
  unfold CompanionServer.candidates, TipsDataset.get_tips_for_label.
  replace (tips_dataset (calm_server T) !! "exploring")
    with (Some [{| text := exploring_tip; spoiler_level := 0; priority := 5 |}])
    by (vm_compute; reflexivity).
  cbn [default from_option id List.filter text spoiler_level].
  replace (tip_last_shown (calm_server T) !! exploring_tip) with (@None Q)
    by (vm_compute; reflexivity).
  cbn [default from_option id].
  replace (Qle_bool _ _) with true; [reflexivity|].
  symmetry. apply Qle_bool_iff. cbn [TIP_COOLDOWN_SECONDS default_config].
  unfold inject_Z. lra.
Qed.

Lemma calm_first_cycle :
  CompanionServer._process_state default_config (calm_server T)
    (cycle_at T true Saved)
  = (CompanionServer._after_post (calm_server T) T T Saved "exploring"
       exploring_tip 0 "unknown",
     Dispatched exploring_tip).
Proof.
  destruct calm_classified as [Hl Hc].
  rewrite (process_state_dispatch default_config (calm_server T)
             (cycle_at T true Saved) calm exploring_tip);
    fold (calm_prediction T).
  - rewrite Hl. reflexivity.
  - reflexivity.
  - rewrite Hc. reflexivity.
  - rewrite Hl. cbn [t_select cycle_at].
    apply (select_tip_single _ _ _ _ _ _ _ calm_candidates).
  - reflexivity.
  - rewrite Hl. apply check_cooldowns_true. cbn. rewrite lookup_empty.
    unfold inject_Z. cbn. split; lra.
  - reflexivity.
  - reflexivity.
  - reflexivity.
Qed.

End Scenario.

Lemma calm_again_candidates (T : Q) :
  CompanionServer.candidates default_config (calm_server_again T) (T + 1) "exploring"
  = [].
Proof.
  unfold CompanionServer.candidates, TipsDataset.get_tips_for_label.
  replace (tips_dataset (calm_server_again T) !! "exploring")
    with (Some [{| text := exploring_tip; spoiler_level := 0; priority := 5 |}])
    by (vm_compute; reflexivity).
  cbn [default from_option id List.filter text spoiler_level].
  change (tip_last_shown (calm_server_again T))
    with (<[exploring_tip := T]> (tip_last_shown (calm_server T))).
  rewrite lookup_insert_eq. cbn [default from_option id].
  replace (Qle_bool _ _) with false; [reflexivity|].
  symmetry. apply not_true_iff_false. rewrite Qle_bool_iff.
  cbn [TIP_COOLDOWN_SECONDS default_config]. unfold inject_Z. lra.
Qed.

Lemma calm_again_cycle (T : Q) :
  CompanionServer._process_state default_config (calm_server_again T)
    (cycle_at (T + 1) true Saved)
  = (calm_server_again T, NoWinner).
Proof.
  apply (process_state_no_winner default_config (calm_server_again T)
           (cycle_at (T + 1) true Saved) calm).
  - reflexivity.
  - vm_compute. reflexivity.
  - apply select_tip_none.
    replace (pred_label _) with "exploring" by (vm_compute; reflexivity).
    apply calm_again_candidates.
Qed.

(** C7, as stated, fails in its last part: the second cycle, one second
    after the dispatch, ends with no winner (the only candidate is inside
    its own 180-second cooldown); it does not reach the admission check
    and is not Rejected. *)
Lemma second_cycle_is_not_rejected :
  snd (CompanionServer._process_state default_config
         (CompanionServer.receive_state
            (fst (CompanionServer._process_state default_config
                    (calm_server 1000) (cycle_at 1000 true Saved)))
            calm 1001)
         (cycle_at 1001 true Saved))
  = NoWinner
  /\ NoWinner <> Rejected
  /\ CompanionServer._select_tip default_config
       (CompanionServer.receive_state
          (fst (CompanionServer._process_state default_config
                  (calm_server 1000) (cycle_at 1000 true Saved)))
          calm 1001)
       1001 "exploring" 0.60 []
     = None.
Proof. repeat split; try discriminate; vm_compute; reflexivity. Qed.

(** C7, amended: on the snapshot of the scenario, with no events, the
    classifier answers exploring with confidence 0.60; with the one
    exploring candidate (priority 5, spoiler 0) and no prior dispatch, the
    cycle at a time T of at least 180 seconds dispatches that candidate; a
    second cycle one second later on the same input dispatches nothing and
    leaves the server as it was, because the candidate is inside its
    per-candidate cooldown and the scorer has no winner (Suppressed); the
    admission check, had it been asked, would have refused as well, the
    global cooldown being active. *)
Theorem calm_scenario (T : Q) :
  180 <= T ->
  pred_label (calm_prediction T) = "exploring"
  /\ pred_conf (calm_prediction T) = 0.60
  /\ TipsDataset.get_tips_for_label (tips_dataset (calm_server T)) "exploring"
     = [{| text := exploring_tip; spoiler_level := 0; priority := 5 |}]
  /\ snd (CompanionServer._process_state default_config (calm_server T)
            (cycle_at T true Saved))
     = Dispatched exploring_tip
  /\ CompanionServer.receive_state
       (fst (CompanionServer._process_state default_config (calm_server T)
               (cycle_at T true Saved)))
       calm (T + 1)
     = calm_server_again T
  /\ CompanionServer._process_state default_config (calm_server_again T)
       (cycle_at (T + 1) true Saved)
     = (calm_server_again T, NoWinner)
  /\ CompanionServer.candidates default_config (calm_server_again T) (T + 1)
       "exploring"
     = []
  /\ CompanionServer._check_cooldowns default_config (calm_server_again T) (T + 1)
       "exploring"
     = false
  /\ (T + 1) - last_tip_timestamp (calm_server_again T)
     < inject_Z (GLOBAL_COOLDOWN_SECONDS default_config).
Proof.
  intros HT.
  split; [apply (calm_classified T)|]. split; [apply (calm_classified T)|].
  split; [vm_compute; reflexivity|].
  rewrite (calm_first_cycle T HT). cbn [fst snd].
  split; [reflexivity|]. split; [reflexivity|].
  split; [apply calm_again_cycle|]. split; [apply calm_again_candidates|].
  assert (Hg : (T + 1) - last_tip_timestamp (calm_server_again T)
               < inject_Z (GLOBAL_COOLDOWN_SECONDS default_config)).
  { change (last_tip_timestamp (calm_server_again T)) with T.
    cbn [GLOBAL_COOLDOWN_SECONDS default_config]. unfold inject_Z. lra. }
  split; [|exact Hg].
  apply not_true_iff_false. rewrite check_cooldowns_true. intros [H _]. lra.
Qed.

Lemma calm_scenario_witness :
  180 <= 1000
  /\ snd (CompanionServer._process_state default_config (calm_server 1000)
            (cycle_at 1000 true Saved))
     = Dispatched exploring_tip
  /\ CompanionServer._process_state default_config (calm_server_again 1000)
       (cycle_at (1000 + 1) true Saved)
     = (calm_server_again 1000, NoWinner).
Proof.
  assert (H : 180 <= 1000) by (vm_compute; discriminate).
  split; [exact H|].
  pose proof (calm_scenario 1000 H) as (_ & _ & _ & H1 & _ & H2 & _).
  split; [exact H1 | exact H2].
Defined.

(** ** The persisted engine state *)

(** C8, as stated, fails: the state document has no entry for the global
    ledger. A server that dispatched at 1000 and is started again from the
    file it wrote has its label and tip ledgers back, and a global ledger
    of 0. *)
Lemma restart_forgets_global_ledger :
  last_tip_timestamp (posted_server 1000) = 1000
  /\ (exists d, state_file (posted_server 1000) = JsonObject d)
  /\ label_last_tip (restarted_server 1000 2000) !! "exploring" = Some 1000
  /\ tip_last_shown (restarted_server 1000 2000) !! exploring_tip = Some 1000
  /\ last_tip_timestamp (restarted_server 1000 2000) = 0
  /\ ~ last_tip_timestamp (restarted_server 1000 2000)
       == last_tip_timestamp (posted_server 1000).
Proof.
  repeat split; try (vm_compute; reflexivity).
  - eexists. reflexivity.
  - vm_compute. discriminate.
Qed.

(** C8, amended: the document written after a dispatch and after feedback
    (the row of the log appended, the file written) holds the per-label
    and per-candidate ledgers, the acceptance and posted counters and the
    time of the save, and not the global ledger;
    a server started from a missing or corrupt state file has empty
    ledgers and counters and raises nothing; a server started from a
    written document has the two ledgers and the counters of the document
    and a global ledger of 0. *)
Theorem state_document_contents (self : Server) :
  (forall (now t_save : Q) (label tip : string) (used_rag : Z) (state_ref : string),
     let self' :=
       CompanionServer._after_post self now t_save Saved label tip used_rag state_ref in
     state_file self'
     = JsonObject {| doc_label_last_tip := Some (label_last_tip self');
                     doc_tip_last_shown := Some (tip_last_shown self');
                     doc_label_acceptance := Some (label_acceptance self');
                     doc_label_tips_posted := Some (label_tips_posted self');
                     doc_last_save := Some t_save |})
  /\ (forall (ts label : string) (accepted : bool) (now t_save : Q),
        label <> "" ->
        let r := CompanionServer.feedback self (Some ts) (Some label) accepted
                   now t_save true Saved in
        snd r = 200%Z
        /\ state_file (fst r)
           = JsonObject {| doc_label_last_tip := Some (label_last_tip (fst r));
                           doc_tip_last_shown := Some (tip_last_shown (fst r));
                           doc_label_acceptance := Some (label_acceptance (fst r));
                           doc_label_tips_posted := Some (label_tips_posted (fst r));
                           doc_last_save := Some t_save |})
  /\ (forall (model : option ModelUtils.Learned) (tips : gmap string (list Tip))
             (cfg : Config) (now : Q) (file : StateFile),
        file = NoFile \/ file = NotJson \/ file = JsonNotObject ->
        let s := CompanionServer.startup model tips cfg now file in
        last_tip_timestamp s = 0
        /\ label_last_tip s = ∅
        /\ tip_last_shown s = ∅
        /\ label_acceptance s = ∅
        /\ label_tips_posted s = ∅)
  /\ (forall (model : option ModelUtils.Learned) (tips : gmap string (list Tip))
             (cfg : Config) (now t : Q),
        let s := CompanionServer.startup model tips cfg now
                   (JsonObject (CompanionServer.state_doc self t)) in
        last_tip_timestamp s = 0
        /\ label_last_tip s = label_last_tip self
        /\ tip_last_shown s = tip_last_shown self
        /\ label_acceptance s = label_acceptance self
        /\ label_tips_posted s = label_tips_posted self).
Proof.
  split; [intros; reflexivity|].
  split.
  - intros ts label accepted now t_save Hlabel r. unfold r, CompanionServer.feedback.
    apply String.eqb_neq in Hlabel. rewrite Hlabel. split; reflexivity.
  - split.
    + intros model tips cfg now file [->|[->| ->]]; repeat split.
    + intros; repeat split.
Qed.

Lemma state_document_contents_witness :
  "exploring" <> ""
  /\ (NoFile = NoFile \/ NoFile = NotJson \/ NoFile = JsonNotObject)
  /\ snd (CompanionServer.feedback (posted_server 1000) (Some "1000")
            (Some "exploring") true 1010 1010 true Saved)
     = 200%Z
  /\ label_last_tip (fresh TipsDataset._stub) = ∅.
Proof.
  assert (Hl : "exploring" <> "") by discriminate.
  assert (Hf : NoFile = NoFile \/ NoFile = NotJson \/ NoFile = JsonNotObject)
    by (left; reflexivity).
  split; [exact Hl|]. split; [exact Hf|].
  destruct (state_document_contents (posted_server 1000))
    as (_ & Hfeedback & Hstart & _).
  split.
  - exact (proj1 (Hfeedback "1000" "exploring" true 1010 1010 Hl)).
  - exact (proj1 (proj2 (Hstart None TipsDataset._stub default_config 0 NoFile Hf))).
Defined.

(** ** The formatter *)

Lemma length_append (s1 s2 : string) :
  String.length (s1 ++ s2) = (String.length s1 + String.length s2)%nat.
Proof. induction s1 as [|c s1 IH]; simpl; [reflexivity | rewrite IH; reflexivity]. Qed.

Lemma length_substring_le (n : nat) (s : string) :
  (String.length (String.substring 0 n s) <= n)%nat.
Proof.
  revert s. induction n as [|n IH]; intros [|c s]; simpl; try lia.
  specialize (IH s). lia.
Qed.

Lemma length_rstrip_le (s : string) :
  (String.length (PyStr.rstrip s) <= String.length s)%nat.
Proof.
  induction s as [|c s IH]; simpl; [lia|].
  destruct (PyStr.rstrip s) as [|c' r].
  - destruct (PyStr.is_space c); simpl; lia.
  - simpl in *. lia.
Qed.

(** From a cap of 3 on, [_trim] keeps its word. *)
Lemma trim_cap (text : string) (max_length : Z) :
  (3 <= max_length)%Z ->
  (PyStr.len (LlmWrapper._trim text max_length) <= max_length)%Z.
Proof.
  intros Hmax. unfold LlmWrapper._trim.
  destruct ((0 <? max_length)%Z && (max_length <? PyStr.len (PyStr.strip text))%Z)
    eqn:Hc.
  - unfold PyStr.len. rewrite length_append. unfold PyStr.slice_to.
    replace (0 <=? max_length - 3)%Z with true by (symmetry; apply Z.leb_le; lia).
    pose proof (length_rstrip_le
                  (String.substring 0 (Z.to_nat (max_length - 3)) (PyStr.strip text))).
    pose proof (length_substring_le (Z.to_nat (max_length - 3)) (PyStr.strip text)).
    simpl String.length. lia.
  - apply andb_false_iff in Hc as [Hc|Hc].
    + apply Z.ltb_ge in Hc. lia.
    + apply Z.ltb_ge in Hc. exact Hc.
Qed.

(** Whatever the service does, with well-formed numbers in the
    environment the formatter returns. *)
Lemma paraphrase_returns (env : LlmWrapper.LlmEnv) (query : string)
    (docs : list string) (max_length : Z) (temperature : Q) (max_tokens : Z) :
  LlmWrapper.GEMINI_TEMPERATURE env = Some temperature ->
  LlmWrapper.GEMINI_MAX_TOKENS env = Some max_tokens ->
  exists out,
    LlmWrapper.paraphrase_with_context env query docs max_length = Ok out.
Proof.
  intros Ht Hm. unfold LlmWrapper.paraphrase_with_context, LlmWrapper._gemini_config.
  rewrite Ht, Hm.
  destruct (negb _); [eexists; reflexivity|].
  destruct (String.eqb _ ""); [eexists; reflexivity|].
  destruct (negb _); [eexists; reflexivity|].
  destruct (LlmWrapper.gemini_call env query docs) as [t|]; [|eexists; reflexivity].
  destruct (String.eqb t ""); eexists; reflexivity.
Qed.

(** C9 on the code: with the LLM disabled, the query "abcdef", no
    snippets and a cap of 2, the formatter returns the 8 characters
    "abcde...": [text[:max_length - 3]] is [text[:-1]]. And with a
    [GEMINI_TEMPERATURE] that is not a number the formatter raises,
    whatever its arguments. *)
Theorem paraphrase_exceeds_small_cap :
  LlmWrapper.paraphrase_with_context no_llm "abcdef" [] 2 = Ok "abcde..."
  /\ PyStr.len "abcde..." = 8%Z
  /\ (forall (query : string) (docs : list string) (max_length : Z),
        LlmWrapper.paraphrase_with_context bad_temperature query docs max_length
        = Raised).
Proof. repeat split. Qed.

(** * Further properties of the code *)

(** ** The rule strategy *)

Lemma has_type_In (t : string) (events : list Event) :
  ModelUtils.has_type t events = true
  <-> exists e, In e events /\ default "" (ev_type e) = t.
Proof.
  unfold ModelUtils.has_type, ModelUtils.event_types.
  rewrite existsb_exists. split.
  - intros (x & Hx & Heq). apply in_map_iff in Hx as (e & <- & He).
    apply String.eqb_eq in Heq. exists e. split; [exact He | congruence].
  - intros (e & He & <-). exists (default "" (ev_type e)).
    split; [|apply String.eqb_refl].
    apply (in_map (fun e => default "" (ev_type e))). exact He.
Qed.

(** X1: a player_death event in the window decides the answer of [_rules]
    alone: low_health with confidence 0.98, whatever the snapshot and the
    other events are. *)
Theorem rules_death_overrides (state : Snapshot) (events : list Event) (e : Event) :
  In e events ->
  ev_type e = Some "player_death" ->
  pred_label (ModelUtils._rules state events) = "low_health"
  /\ pred_conf (ModelUtils._rules state events) = 0.98.
Proof.
  intros He Ht.
  assert (H : ModelUtils.has_type "player_death" events = true).
  { apply has_type_In. exists e. rewrite Ht. split; [exact He | reflexivity]. }
  rewrite rules_split. unfold pred_label, pred_conf. cbn [fst snd].
  unfold ModelUtils.rules_label_conf. rewrite H. split; reflexivity.
Qed.

Lemma rules_death_overrides_witness :
  In (event "player_death") [event "mob_killed"; event "player_death"]
  /\ ev_type (event "player_death") = Some "player_death"
  /\ pred_label (ModelUtils._rules calm [event "mob_killed"; event "player_death"])
     = "low_health"
  /\ pred_conf (ModelUtils._rules calm [event "mob_killed"; event "player_death"])
     = 0.98.
Proof.
  assert (Hin : In (event "player_death") [event "mob_killed"; event "player_death"])
    by (right; left; reflexivity).
  assert (Ht : ev_type (event "player_death") = Some "player_death") by reflexivity.
  split; [exact Hin|]. split; [exact Ht|].
  exact (rules_death_overrides calm _ _ Hin Ht).
Defined.

(** X2: whatever the snapshot and the events, [_rules] answers with one of
    its known labels, never with building, and with a confidence between
    0.60 and 0.98. *)
Theorem rules_label_and_confidence_range (state : Snapshot) (events : list Event) :
  In (pred_label (ModelUtils._rules state events)) ModelUtils.labels
  /\ pred_label (ModelUtils._rules state events) <> "building"
  /\ 0.60 <= pred_conf (ModelUtils._rules state events) <= 0.98.
Proof.
  rewrite rules_split. unfold pred_label, pred_conf. cbn [fst snd].
  pose proof (rules_outcomes state events) as Hin.
  destruct (ModelUtils.rules_label_conf state events) as [label conf].
  cbn [fst snd].
  repeat (destruct Hin as [[= <- <-]|Hin]; [|]); try contradiction;
    (split; [vm_compute; tauto|]); (split; [discriminate|]);
    split; vm_compute; discriminate.
Qed.

(** X3: in the distribution of [_rules] every known label has a positive
    probability and the returned label has the strictly greatest one. *)
Theorem rules_label_is_the_mode (state : Snapshot) (events : list Event) (l : string) :
  In l ModelUtils.labels ->
  l <> pred_label (ModelUtils._rules state events) ->
  exists v,
    pred_dist (ModelUtils._rules state events) !! l = Some v
    /\ 0 < v
    /\ v < pred_conf (ModelUtils._rules state events).
Proof.
  rewrite rules_split. unfold pred_dist, pred_label, pred_conf. cbn [fst snd].
  pose proof (rules_outcomes state events) as Hin.
  destruct (ModelUtils.rules_label_conf state events) as [label conf].
  cbn [fst snd]. intros Hl Hne.
  repeat (destruct Hin as [[= <- <-]|Hin]; [|]); try contradiction;
    repeat (destruct Hl as [<-|Hl];
            [try (exfalso; apply Hne; reflexivity);
             try (eexists; split; [vm_compute; reflexivity|];
                  split; vm_compute; reflexivity)|]);
    contradiction.
Qed.

Lemma rules_label_is_the_mode_witness :
  In "building" ModelUtils.labels
  /\ "building" <> pred_label (ModelUtils._rules calm [])
  /\ exists v,
       pred_dist (ModelUtils._rules calm []) !! "building" = Some v
       /\ 0 < v
       /\ v < pred_conf (ModelUtils._rules calm []).
Proof.
  assert (Hin : In "building" ModelUtils.labels) by (vm_compute; tauto).
  assert (Hne : "building" <> pred_label (ModelUtils._rules calm []))
    by (vm_compute; discriminate).
  split; [exact Hin|]. split; [exact Hne|].
  exact (rules_label_is_the_mode calm [] "building" Hin Hne).
Defined.

(** X4: with the rule strategy and a confidence threshold of at most 0.60
    no cycle stops for low confidence. *)
Theorem rules_always_clear_threshold (cfg : Config) (self : Server) (env : CycleEnv) :
  model_utils self = None ->
  CONF_THRESHOLD cfg <= 0.60 ->
  snd (CompanionServer._process_state cfg self env) <> LowConfidence.
Proof.
  intros Hm Hthr. unfold CompanionServer._process_state.
  destruct (last_state self) as [st|]; [|discriminate].
  rewrite Hm. unfold ModelUtils.predict_label_and_confidence.
  pose proof (rules_outcomes st (recent_events self)) as Hin.
  rewrite rules_split.
  destruct (ModelUtils.rules_label_conf st (recent_events self)) as [label conf].
  cbn [fst snd].
  assert (Hconf : 0.60 <= conf).
  { repeat (destruct Hin as [[= <- <-]|Hin]; [vm_compute; discriminate|]).
    contradiction. }
  replace (Qltb conf (CONF_THRESHOLD cfg)) with false
    by (symmetry; apply Qltb_ge; lra).
  destruct (CompanionServer._select_tip _ _ _ _ _ _) as [tip|]; [|discriminate].
  destruct (String.eqb tip ""); [discriminate|].
  destruct (negb _); [discriminate|].
  destruct (if PyStr.contains "{recipe}" tip then _ else _) as [[tip' used_rag]|];
    [|discriminate].
  destruct (post_ok env); [destruct (append_ok env)|]; discriminate.
Qed.

Lemma rules_always_clear_threshold_witness :
  model_utils (calm_server 1000) = None
  /\ CONF_THRESHOLD default_config <= 0.60
  /\ snd (CompanionServer._process_state default_config (calm_server 1000)
            (cycle_at 1000 true Saved))
     <> LowConfidence.
Proof.
  assert (Hm : model_utils (calm_server 1000) = None) by reflexivity.
  assert (Hthr : CONF_THRESHOLD default_config <= 0.60) by (vm_compute; discriminate).
  split; [exact Hm|]. split; [exact Hthr|].
  exact (rules_always_clear_threshold default_config (calm_server 1000)
           (cycle_at 1000 true Saved) Hm Hthr).
Defined.

(** ** The event window *)

Lemma filter_sublist_weaker {A : Type} (f g : A -> bool) (l : list A) :
  (forall x, f x = true -> g x = true) ->
  sublist (List.filter f l) (List.filter g l).
Proof.
  intros Hfg. induction l as [|x l IH]; cbn [List.filter]; [constructor|].
  destruct (f x) eqn:Hf.
  - rewrite (Hfg x Hf). constructor. exact IH.
  - destruct (g x); [constructor|]; exact IH.
Qed.

Lemma filter_sublist_all {A : Type} (f : A -> bool) (l : list A) :
  sublist (List.filter f l) l.
Proof.
  induction l as [|x l IH]; cbn [List.filter]; [constructor|].
  destruct (f x); constructor; exact IH.
Qed.

Lemma receive_state_events (self : Server) (st : Snapshot) (now : Q) :
  recent_events (CompanionServer.receive_state self st now)
  = List.filter (fun event =>
                   Qeq_bool (default 0 (ev_timestamp event)) 0
                   || Qle_bool (last_poll_time self) (default 0 (ev_timestamp event)))
                (recentEvents st).
Proof. reflexivity. Qed.

(** X5: after a snapshot is received, the event window holds, in the order
    of the snapshot, exactly those of its events that carry no timestamp,
    the timestamp 0, or a timestamp not before the previous poll time; the
    poll time becomes the current time and no ledger is touched. *)
Theorem event_window_contents (self : Server) (st : Snapshot) (now : Q) :
  let self' := CompanionServer.receive_state self st now in
  (forall e : Event,
     In e (recent_events self')
     <-> In e (recentEvents st)
         /\ (default 0 (ev_timestamp e) == 0
             \/ last_poll_time self <= default 0 (ev_timestamp e)))
  /\ sublist (recent_events self') (recentEvents st)
  /\ last_poll_time self' = now
  /\ last_state self' = Some st
  /\ last_tip_timestamp self' = last_tip_timestamp self
  /\ label_last_tip self' = label_last_tip self
  /\ tip_last_shown self' = tip_last_shown self.
Proof.
  intros self'. unfold self'. rewrite receive_state_events.
  split; [|split; [apply filter_sublist_all | repeat split]].
  intros e. rewrite filter_In, orb_true_iff, Qeq_bool_iff, Qle_bool_iff.
  reflexivity.
Qed.

Lemma process_state_poll_time (cfg : Config) (self : Server) (env : CycleEnv) :
  last_poll_time (fst (CompanionServer._process_state cfg self env))
  = last_poll_time self.
Proof.
  destruct (process_state_cases cfg self env)
    as [[-> _]|[(label & tip & used_rag & ref & _ & _ & ->)
               |(label & tip & _ & _ & ->)]]; [reflexivity| |reflexivity].
  cbn [fst]. destruct (save_outcome env); reflexivity.
Qed.

(** X6: when the state source repeats a snapshot on the next poll, the
    events without a timestamp are in both windows, and, the clock not
    running backwards, the second window is a part of the first, in the
    same order: the cycle in between changes nothing of this. *)
Theorem event_window_replay (cfg : Config) (self : Server) (st : Snapshot)
    (now1 now2 : Q) (env : CycleEnv) :
  last_poll_time self <= now1 ->
  let s1 := CompanionServer.receive_state self st now1 in
  let s2 :=
    CompanionServer.receive_state
      (fst (CompanionServer._process_state cfg s1 env)) st now2 in
  sublist (recent_events s2) (recent_events s1)
  /\ (forall e : Event,
        In e (recentEvents st) -> ev_timestamp e = None ->
        In e (recent_events s1) /\ In e (recent_events s2)).
Proof.
  intros Hclock s1 s2. unfold s2, s1.
  rewrite !receive_state_events, process_state_poll_time. split.
  - apply filter_sublist_weaker. intros e.
    rewrite !orb_true_iff, !Qle_bool_iff.
    intros [H|H]; [left; exact H | right].
    change (last_poll_time (CompanionServer.receive_state self st now1))
      with now1 in H.
    lra.
  - intros e He Hts. rewrite !filter_In, Hts. repeat split; assumption || reflexivity.
Qed.

Lemma event_window_replay_witness :
  let s1 := CompanionServer.receive_state (fresh TipsDataset._stub) eventful 1000 in
  let s2 :=
    CompanionServer.receive_state
      (fst (CompanionServer._process_state default_config s1
              (cycle_at 1000 true Saved)))
      eventful 1015 in
  last_poll_time (fresh TipsDataset._stub) <= 1000
  /\ In (event "damage_taken") (recentEvents eventful)
  /\ ev_timestamp (event "damage_taken") = None
  /\ sublist (recent_events s2) (recent_events s1)
  /\ In (event "damage_taken") (recent_events s1)
  /\ In (event "damage_taken") (recent_events s2)
  /\ recent_events s1 = recentEvents eventful
  /\ recent_events s2
     = [event "damage_taken";
        {| ev_type := Some "item_crafted"; ev_timestamp := Some 1005 |}].
Proof.
  intros s1 s2.
  assert (H : last_poll_time (fresh TipsDataset._stub) <= 1000)
    by (vm_compute; discriminate).
  assert (Hin : In (event "damage_taken") (recentEvents eventful))
    by (left; reflexivity).
  assert (Hts : ev_timestamp (event "damage_taken") = None) by reflexivity.
  split; [exact H|]. split; [exact Hin|]. split; [exact Hts|].
  destruct (event_window_replay default_config (fresh TipsDataset._stub) eventful
              1000 1015 (cycle_at 1000 true Saved) H) as [Hsub Hboth].
  split; [exact Hsub|].
  destruct (Hboth (event "damage_taken") Hin Hts) as [H1 H2].
  split; [exact H1|]. split; [exact H2|].
  split; vm_compute; reflexivity.
Defined.

(** ** The scorer *)

Lemma select_tip_head (cfg : Config) (self : Server) (now : Q) (label : string)
    (conf : Q) (events : list Event) :
  CompanionServer._select_tip cfg self now label conf events
  = option_map snd
      (hd_error
         (sort_desc
            (map (CompanionServer.score conf
                    (CompanionServer._calculate_event_boost label events)
                    (CompanionServer.time_factor self now label))
                 (CompanionServer.candidates cfg self now label)))).
Proof.
  unfold CompanionServer._select_tip.
  destruct (CompanionServer.candidates cfg self now label) as [|c l];
    [reflexivity|].
  destruct (sort_desc _) as [|s0 rest]; reflexivity.
Qed.

(** X7: a tip returned by [_select_tip] is the text of an entry of the
    bank under the label whose spoiler level is within the configured
    maximum and whose own cooldown has elapsed; nothing is returned exactly
    when no entry of the bank under the label has both a spoiler level
    within the maximum and at least the tip cooldown since its text was
    last shown. *)
Theorem select_tip_passes_filter (cfg : Config) (self : Server) (now : Q)
    (label : string) (conf : Q) (events : list Event) :
  (forall t : string,
     CompanionServer._select_tip cfg self now label conf events = Some t ->
     exists c : Tip,
       In c (TipsDataset.get_tips_for_label (tips_dataset self) label)
       /\ text c = t
       /\ (spoiler_level c <= MAX_SPOILER_LEVEL cfg)%Z
       /\ inject_Z (TIP_COOLDOWN_SECONDS cfg)
          <= now - default 0 (tip_last_shown self !! t))
  /\ (CompanionServer._select_tip cfg self now label conf events = None
      <-> forall c : Tip,
            In c (TipsDataset.get_tips_for_label (tips_dataset self) label) ->
            ~ ((spoiler_level c <= MAX_SPOILER_LEVEL cfg)%Z
               /\ inject_Z (TIP_COOLDOWN_SECONDS cfg)
                  <= now - default 0 (tip_last_shown self !! text c))).
Proof.
  assert (Hpass : forall c : Tip,
            In c (CompanionServer.candidates cfg self now label)
            <-> In c (TipsDataset.get_tips_for_label (tips_dataset self) label)
                /\ (spoiler_level c <= MAX_SPOILER_LEVEL cfg)%Z
                /\ inject_Z (TIP_COOLDOWN_SECONDS cfg)
                   <= now - default 0 (tip_last_shown self !! text c)).
  { intros c. unfold CompanionServer.candidates.
    rewrite filter_In, andb_true_iff, Z.leb_le, Qle_bool_iff. reflexivity. }
  rewrite select_tip_head.
  set (f := CompanionServer.score conf _ _).
  destruct (CompanionServer.candidates cfg self now label) as [|c0 l] eqn:Hcand.
  - split; [discriminate|]. split; [|reflexivity].
    intros _ c Hc Hok. apply (Hpass c). split; assumption.
  - destruct (sort_desc_head (map f (c0 :: l)))
      as (pre & x & post & Hl & Hhd & _); [discriminate|].
    rewrite Hhd. cbn [option_map]. split.
    2:{ split; [discriminate|]. intros Hall. exfalso.
        assert (Hc0 : In c0 (c0 :: l)) by (left; reflexivity).
        apply Hpass in Hc0 as (Hin & Hs & Ht). exact (Hall c0 Hin (conj Hs Ht)). }
    intros t [= <-].
    assert (Hx : In x (map f (c0 :: l))).
    { rewrite Hl. apply in_or_app. right. left. reflexivity. }
    apply in_map_iff in Hx as (c & <- & Hc). rewrite <- Hcand in Hc.
    unfold CompanionServer.candidates in Hc.
    apply filter_In in Hc as [Hc Hf]. apply andb_true_iff in Hf as [Hs Ht].
    exists c. split; [exact Hc|]. split; [reflexivity|].
    split; [apply Z.leb_le, Hs | apply Qle_bool_iff, Ht].
Qed.

Lemma select_tip_passes_filter_witness :
  CompanionServer._select_tip default_config (fresh tie_bank) 1000
    "exploring" 0.6 [] = Some "second"
  /\ (exists c : Tip,
       In c (TipsDataset.get_tips_for_label (tips_dataset (fresh tie_bank))
               "exploring")
       /\ text c = "second"
       /\ (spoiler_level c <= MAX_SPOILER_LEVEL default_config)%Z
       /\ inject_Z (TIP_COOLDOWN_SECONDS default_config)
          <= 1000 - default 0 (tip_last_shown (fresh tie_bank) !! "second"))
  /\ (forall c : Tip,
        In c (TipsDataset.get_tips_for_label (tips_dataset (fresh tie_bank))
                "exploring") ->
        ~ ((spoiler_level c <= MAX_SPOILER_LEVEL default_config)%Z
           /\ inject_Z (TIP_COOLDOWN_SECONDS default_config)
              <= 100 - default 0 (tip_last_shown (fresh tie_bank) !! text c)))
  /\ CompanionServer._select_tip default_config (fresh tie_bank) 100
       "exploring" 0.6 [] = None.
Proof.
  assert (H : CompanionServer._select_tip default_config (fresh tie_bank) 1000
                "exploring" 0.6 [] = Some "second") by (vm_compute; reflexivity).
  assert (Hearly : forall c : Tip,
            In c (TipsDataset.get_tips_for_label (tips_dataset (fresh tie_bank))
                    "exploring") ->
            ~ ((spoiler_level c <= MAX_SPOILER_LEVEL default_config)%Z
               /\ inject_Z (TIP_COOLDOWN_SECONDS default_config)
                  <= 100 - default 0 (tip_last_shown (fresh tie_bank) !! text c))).
  { intros c _ [_ Ht].
    change (tip_last_shown (fresh tie_bank)) with (∅ : gmap string Q) in Ht.
    rewrite lookup_empty in Ht. cbn in Ht. unfold inject_Z in Ht. lra. }
  split; [exact H|].
  split; [|split; [exact Hearly|]].
  - exact (proj1 (select_tip_passes_filter default_config (fresh tie_bank) 1000
                    "exploring" 0.6 []) "second" H).
  - exact (proj2 (proj2 (select_tip_passes_filter default_config (fresh tie_bank)
                           100 "exploring" 0.6 [])) Hearly).
Defined.

(** ** Admission and dispatch *)

(** The last step of a cycle: the post and the commit. *)
Lemma post_and_commit (self : Server) (env : CycleEnv) (label tip' : string)
    (used_rag : Z) (ref tip : string) :
  let res :=
    if post_ok env
    then
      if append_ok env
      then
        (CompanionServer._after_post self (t_post env) (t_save env)
           (save_outcome env) label tip' used_rag ref,
         Dispatched tip')
      else
        (CompanionServer.after_post_raised self (t_post env) label tip',
         CommitRaised tip')
    else (self, DispatchFailed) in
  posted (snd res) tip ->
  post_ok env = true
  /\ tip = tip'
  /\ last_tip_timestamp (fst res) = t_post env
  /\ label_last_tip (fst res) = <[label := t_post env]> (label_last_tip self)
  /\ tip_last_shown (fst res) = <[tip := t_post env]> (tip_last_shown self).
Proof.
  intros res. unfold res.
  destruct (post_ok env); [|intros [H|H]; discriminate].
  destruct (append_ok env); cbn [fst snd];
    intros [H|H]; try discriminate; injection H as <-;
    (split; [reflexivity|]); (split; [reflexivity|]).
  - rewrite after_post_global, after_post_label, after_post_tip.
    repeat split.
  - repeat split.
Qed.

(** What a cycle whose tip the sink accepted went through, and the
    ledgers it leaves, whether [_after_post] ran to its end or not. *)
Lemma process_state_dispatched (cfg : Config) (self : Server) (env : CycleEnv)
    (tip : string) :
  posted (snd (CompanionServer._process_state cfg self env)) tip ->
  exists (st : Snapshot) (tip0 : string),
    let p := ModelUtils.predict_label_and_confidence
               (model_utils self) st (recent_events self) in
    let self' := fst (CompanionServer._process_state cfg self env) in
    last_state self = Some st
    /\ CONF_THRESHOLD cfg <= pred_conf p
    /\ CompanionServer._select_tip cfg self (t_select env) (pred_label p)
         (pred_conf p) (recent_events self) = Some tip0
    /\ tip0 <> ""
    /\ CompanionServer._check_cooldowns cfg self (t_check env) (pred_label p) = true
    /\ post_ok env = true
    /\ (PyStr.contains "{recipe}" tip0 = false -> tip = tip0)
    /\ last_tip_timestamp self' = t_post env
    /\ label_last_tip self' = <[pred_label p := t_post env]> (label_last_tip self)
    /\ tip_last_shown self' = <[tip := t_post env]> (tip_last_shown self).
Proof.
  unfold CompanionServer._process_state.
  destruct (last_state self) as [st|]; [|intros [H|H]; discriminate].
  destruct (ModelUtils.predict_label_and_confidence _ _ _)
    as [[label conf] dist] eqn:Hp.
  destruct (Qltb conf _) eqn:Hthr; [intros [H|H]; discriminate|].
  destruct (CompanionServer._select_tip _ _ _ _ _ _) as [tip0|] eqn:Hsel;
    [|intros [H|H]; discriminate].
  destruct (String.eqb tip0 "") eqn:Hempty; [intros [H|H]; discriminate|].
  destruct (CompanionServer._check_cooldowns _ _ _ _) eqn:Hcheck;
    [|intros [H|H]; discriminate].
  cbn [negb]. apply Qltb_ge in Hthr. apply String.eqb_neq in Hempty.
  destruct (PyStr.contains "{recipe}" tip0) eqn:Hrecipe.
  - destruct (LlmWrapper.paraphrase_tip_with_recipe _ _ _ _ _) as [tip'|];
      [|intros [H|H]; discriminate].
    intros H. exists st, tip0. cbv zeta. rewrite Hp.
    unfold pred_conf, pred_label. cbn [fst snd].
    destruct (post_and_commit self env label tip' 1%Z _ tip H)
      as (H1 & H2 & H3 & H4 & H5).
    repeat split; try assumption. intros Hf; congruence.
  - intros H. exists st, tip0. cbv zeta. rewrite Hp.
    unfold pred_conf, pred_label. cbn [fst snd].
    destruct (post_and_commit self env label tip0 0%Z _ tip H)
      as (H1 & H2 & H3 & H4 & H5).
    repeat split; try assumption. intros _; congruence.
Qed.

Lemma receive_state_ledgers (self : Server) (st : Snapshot) (now : Q) :
  last_tip_timestamp (CompanionServer.receive_state self st now)
  = last_tip_timestamp self
  /\ label_last_tip (CompanionServer.receive_state self st now) = label_last_tip self
  /\ tip_last_shown (CompanionServer.receive_state self st now) = tip_last_shown self
  /\ tips_dataset (CompanionServer.receive_state self st now) = tips_dataset self.
Proof. repeat split. Qed.

(** X9: a cycle dispatches only a tip that the scorer selected, for a
    prediction whose confidence reaches the threshold, with the admission
    check passed and the sink having accepted it; this holds as well of a
    cycle that posted its tip and then raised in the commit. *)
Theorem dispatch_only_when_admitted (cfg : Config) (self : Server) (env : CycleEnv)
    (tip : string) :
  posted (snd (CompanionServer._process_state cfg self env)) tip ->
  exists (st : Snapshot) (tip0 : string),
    let p := ModelUtils.predict_label_and_confidence
               (model_utils self) st (recent_events self) in
    last_state self = Some st
    /\ CONF_THRESHOLD cfg <= pred_conf p
    /\ CompanionServer._select_tip cfg self (t_select env) (pred_label p)
         (pred_conf p) (recent_events self) = Some tip0
    /\ tip0 <> ""
    /\ (PyStr.contains "{recipe}" tip0 = false -> tip = tip0)
    /\ inject_Z (GLOBAL_COOLDOWN_SECONDS cfg)
       <= t_check env - last_tip_timestamp self
    /\ inject_Z (LABEL_COOLDOWN_SECONDS cfg)
       <= t_check env - default 0 (label_last_tip self !! pred_label p)
    /\ post_ok env = true.
Proof.
  intros H.
  destruct (process_state_dispatched cfg self env tip H)
    as (st & tip0 & Hst & Hthr & Hsel & Hne & Hchk & Hpost & Hplain & _).
  apply check_cooldowns_true in Hchk as [Hg Hl].
  exists st, tip0. repeat split; assumption.
Qed.

Lemma dispatch_only_when_admitted_witness :
  posted (snd (CompanionServer._process_state default_config (calm_server 1000)
                 (cycle_at 1000 true Saved)))
    exploring_tip
  /\ exists (st : Snapshot) (tip0 : string),
       last_state (calm_server 1000) = Some st
       /\ CONF_THRESHOLD default_config
          <= pred_conf (ModelUtils.predict_label_and_confidence
                          (model_utils (calm_server 1000)) st
                          (recent_events (calm_server 1000)))
       /\ tip0 <> "".
Proof.
  assert (H : posted (snd (CompanionServer._process_state default_config
                             (calm_server 1000) (cycle_at 1000 true Saved)))
                exploring_tip)
    by (left; vm_compute; reflexivity).
  split; [exact H|].
  destruct (dispatch_only_when_admitted default_config (calm_server 1000)
              (cycle_at 1000 true Saved) exploring_tip H)
    as (st & tip0 & Hst & Hthr & _ & Hne & _).
  exists st, tip0. repeat split; assumption.
Defined.

(** X10: after a dispatch committed at time T for a label, the admission
    check refuses every label while the global cooldown has not elapsed;
    once it has, a label other than the dispatched one is admitted exactly
    when its own earlier ledger entry allows it. *)
Theorem dispatch_blocks_all_labels (cfg : Config) (self : Server)
    (T t_save now : Q) (o : SaveOutcome) (label tip : string) (used_rag : Z)
    (state_ref : string) (other : string) :
  let self' :=
    CompanionServer._after_post self T t_save o label tip used_rag state_ref in
  (now - T < inject_Z (GLOBAL_COOLDOWN_SECONDS cfg) ->
   CompanionServer._check_cooldowns cfg self' now other = false)
  /\ (other <> label ->
      (CompanionServer._check_cooldowns cfg self' now other = true
       <-> inject_Z (GLOBAL_COOLDOWN_SECONDS cfg) <= now - T
           /\ inject_Z (LABEL_COOLDOWN_SECONDS cfg)
              <= now - default 0 (label_last_tip self !! other))).
Proof.
  intros self'. split.
  - intros Hnow. apply not_true_iff_false. rewrite check_cooldowns_true.
    unfold self'. rewrite after_post_global. intros [H _]. lra.
  - intros Hne. rewrite check_cooldowns_true. unfold self'.
    rewrite after_post_global, after_post_label, lookup_insert_ne by congruence.
    reflexivity.
Qed.

Lemma dispatch_blocks_all_labels_witness :
  1010 - 1000 < inject_Z (GLOBAL_COOLDOWN_SECONDS default_config)
  /\ CompanionServer._check_cooldowns default_config
       (CompanionServer._after_post (calm_server 1000) 1000 1000 Saved
          "exploring" exploring_tip 0 "unknown")
       1010 "low_health"
     = false.
Proof.
  assert (H : 1010 - 1000 < inject_Z (GLOBAL_COOLDOWN_SECONDS default_config))
    by reflexivity.
  split; [exact H|].
  exact (proj1 (dispatch_blocks_all_labels default_config (calm_server 1000)
                  1000 1000 1010 Saved "exploring" exploring_tip 0 "unknown"
                  "low_health") H).
Defined.

(** X11: two cycles never both dispatch inside one global cooldown: when a
    cycle has dispatched, a cycle on the server it leaves, whatever
    snapshot was received in between, does not dispatch while its check
    time is less than the global cooldown after the commit time. A cycle
    that posted its tip and then raised in the commit counts as one that
    dispatched, on both sides. *)
Theorem no_second_dispatch_in_global_cooldown (cfg : Config) (self : Server)
    (env env' : CycleEnv) (tip : string) (st : Snapshot) (now : Q) :
  posted (snd (CompanionServer._process_state cfg self env)) tip ->
  t_check env' - t_post env < inject_Z (GLOBAL_COOLDOWN_SECONDS cfg) ->
  forall tip' : string,
    ~ posted
        (snd (CompanionServer._process_state cfg
                (CompanionServer.receive_state
                   (fst (CompanionServer._process_state cfg self env)) st now)
                env'))
        tip'.
Proof.
  intros H1 Hclock tip' H2.
  destruct (process_state_dispatched cfg self env tip H1)
    as (st1 & tip0 & _ & _ & _ & _ & _ & _ & _ & Hfst & _).
  destruct (process_state_dispatched cfg _ env' tip' H2)
    as (st2 & tip2 & _ & _ & _ & _ & Hchk & _).
  apply check_cooldowns_true in Hchk as [Hg _].
  rewrite (proj1 (receive_state_ledgers _ st now)) in Hg.
  cbv zeta in Hfst. rewrite Hfst in Hg. lra.
Qed.

Lemma no_second_dispatch_in_global_cooldown_witness :
  posted (snd (CompanionServer._process_state default_config (calm_server 1000)
                 (unrecorded_cycle 1000)))
    exploring_tip
  /\ t_check (cycle_at 1010 true Saved) - t_post (unrecorded_cycle 1000)
     < inject_Z (GLOBAL_COOLDOWN_SECONDS default_config)
  /\ ~ posted
        (snd (CompanionServer._process_state default_config
                (CompanionServer.receive_state
                   (fst (CompanionServer._process_state default_config
                           (calm_server 1000) (unrecorded_cycle 1000)))
                   hurt 1010)
                (cycle_at 1010 true Saved)))
        "Your health is low-eat food or find shelter.".
Proof.
  assert (H : posted (snd (CompanionServer._process_state default_config
                             (calm_server 1000) (unrecorded_cycle 1000)))
                exploring_tip)
    by (right; vm_compute; reflexivity).
  assert (Hc : t_check (cycle_at 1010 true Saved) - t_post (unrecorded_cycle 1000)
               < inject_Z (GLOBAL_COOLDOWN_SECONDS default_config)) by reflexivity.
  split; [exact H|]. split; [exact Hc|].
  exact (no_second_dispatch_in_global_cooldown default_config (calm_server 1000)
           (unrecorded_cycle 1000) (cycle_at 1010 true Saved) exploring_tip
           hurt 1010 H Hc _).
Defined.

(** X12: the text that a cycle dispatched at time T is the text of no
    candidate, under any label, while less than the tip cooldown has passed
    since T, whatever snapshot was received in between and whatever the
    other two ledgers hold; this holds as well of a cycle that posted its
    tip and then raised in the commit. *)
Theorem dispatched_text_suppressed (cfg : Config) (self : Server)
    (env : CycleEnv) (tip : string) (st : Snapshot) (t_poll now : Q)
    (label : string) :
  posted (snd (CompanionServer._process_state cfg self env)) tip ->
  now - t_post env < inject_Z (TIP_COOLDOWN_SECONDS cfg) ->
  Forall (fun c => text c <> tip)
         (CompanionServer.candidates cfg
            (CompanionServer.receive_state
               (fst (CompanionServer._process_state cfg self env)) st t_poll)
            now label).
Proof.
  intros H Hnow. apply List.Forall_forall. intros c Hin Heq.
  destruct (process_state_dispatched cfg self env tip H)
    as (st1 & tip0 & _ & _ & _ & _ & _ & _ & _ & _ & _ & Hfst).
  unfold CompanionServer.candidates in Hin.
  apply filter_In in Hin as [_ Hc]. apply andb_true_iff in Hc as [_ Hc].
  rewrite (proj1 (proj2 (proj2 (receive_state_ledgers _ st t_poll)))) in Hc.
  cbv zeta in Hfst. rewrite Hfst, Heq, lookup_insert_eq in Hc. cbn in Hc.
  apply Qle_bool_iff in Hc. lra.
Qed.

Lemma dispatched_text_suppressed_witness :
  posted (snd (CompanionServer._process_state default_config (calm_server 1000)
                 (cycle_at 1000 true Saved)))
    exploring_tip
  /\ 1100 - t_post (cycle_at 1000 true Saved)
     < inject_Z (TIP_COOLDOWN_SECONDS default_config)
  /\ Forall (fun c => text c <> exploring_tip)
       (CompanionServer.candidates default_config
          (CompanionServer.receive_state
             (fst (CompanionServer._process_state default_config
                     (calm_server 1000) (cycle_at 1000 true Saved)))
             calm 1100)
          1100 "exploring").
Proof.
  assert (H : posted (snd (CompanionServer._process_state default_config
                             (calm_server 1000) (cycle_at 1000 true Saved)))
                exploring_tip)
    by (left; vm_compute; reflexivity).
  assert (Hc : 1100 - t_post (cycle_at 1000 true Saved)
               < inject_Z (TIP_COOLDOWN_SECONDS default_config)) by reflexivity.
  split; [exact H|]. split; [exact Hc|].
  exact (dispatched_text_suppressed default_config (calm_server 1000)
           (cycle_at 1000 true Saved) exploring_tip calm 1100 1100 "exploring" H Hc).
Defined.

(** X24: when the sink has accepted the tip and [_append_csv] raises in
    the commit, the cycle ends with the ledgers, [last_tip] and the posted
    counter assigned as in a full commit, and with the decision log and
    the state file as they were; the admission check then refuses every
    label until the global cooldown has elapsed, although no decision was
    recorded. *)
Theorem commit_exception_keeps_ledgers (cfg : Config) (self : Server)
    (env : CycleEnv) (tip : string) :
  snd (CompanionServer._process_state cfg self env) = CommitRaised tip ->
  exists label : string,
    let self' := fst (CompanionServer._process_state cfg self env) in
    post_ok env = true
    /\ append_ok env = false
    /\ last_tip self' = Some tip
    /\ last_tip_timestamp self' = t_post env
    /\ label_last_tip self' = <[label := t_post env]> (label_last_tip self)
    /\ tip_last_shown self' = <[tip := t_post env]> (tip_last_shown self)
    /\ label_tips_posted self'
       = <[label := (default 0 (label_tips_posted self !! label) + 1)%Z]>
           (label_tips_posted self)
    /\ label_acceptance self' = label_acceptance self
    /\ decisions_csv self' = decisions_csv self
    /\ feedback_csv self' = feedback_csv self
    /\ state_file self' = state_file self
    /\ (forall (now : Q) (other : string),
          now - t_post env < inject_Z (GLOBAL_COOLDOWN_SECONDS cfg) ->
          CompanionServer._check_cooldowns cfg self' now other = false).
Proof.
  intros H.
  destruct (process_state_cases cfg self env)
    as [[_ Hn]|[(label & tip' & used_rag & ref & _ & _ & Heq)
               |(label & tip' & Hpost & Happ & Heq)]].
  - exfalso. apply (Hn tip). right. exact H.
  - rewrite Heq in H. discriminate.
  - rewrite Heq in H. cbn [snd] in H. injection H as <-.
    exists label. rewrite Heq. cbn [fst].
    split; [exact Hpost|]. split; [exact Happ|].
    repeat (split; [reflexivity|]).
    intros now other Hnow. apply not_true_iff_false.
    rewrite check_cooldowns_true. cbn [last_tip_timestamp
      CompanionServer.after_post_raised]. intros [Hg _]. lra.
Qed.

Lemma commit_exception_keeps_ledgers_witness :
  snd (CompanionServer._process_state default_config (calm_server 1000)
         (unrecorded_cycle 1000))
  = CommitRaised exploring_tip
  /\ last_tip_timestamp
       (fst (CompanionServer._process_state default_config (calm_server 1000)
               (unrecorded_cycle 1000)))
     = 1000
  /\ decisions_csv
       (fst (CompanionServer._process_state default_config (calm_server 1000)
               (unrecorded_cycle 1000)))
     = []
  /\ state_file
       (fst (CompanionServer._process_state default_config (calm_server 1000)
               (unrecorded_cycle 1000)))
     = NoFile.
Proof.
  assert (H : snd (CompanionServer._process_state default_config (calm_server 1000)
                     (unrecorded_cycle 1000)) = CommitRaised exploring_tip)
    by (vm_compute; reflexivity).
  split; [exact H|].
  destruct (commit_exception_keeps_ledgers default_config (calm_server 1000)
              (unrecorded_cycle 1000) exploring_tip H)
    as (label & _ & _ & _ & Hg & _ & _ & _ & _ & Hd & _ & Hs & _).
  split; [exact Hg|]. split; [rewrite Hd | rewrite Hs]; reflexivity.
Defined.

(** ** The routes *)

(** Selection and admission read the bank and the three ledgers, and
    nothing else of the server. *)
Lemma select_and_check_ext (cfg : Config) (s s' : Server) :
  tips_dataset s' = tips_dataset s ->
  last_tip_timestamp s' = last_tip_timestamp s ->
  label_last_tip s' = label_last_tip s ->
  tip_last_shown s' = tip_last_shown s ->
  (forall now label conf events,
     CompanionServer._select_tip cfg s' now label conf events
     = CompanionServer._select_tip cfg s now label conf events)
  /\ (forall now label,
        CompanionServer._check_cooldowns cfg s' now label
        = CompanionServer._check_cooldowns cfg s now label).
Proof.
  intros Hb Hg Hl Ht. split; intros.
  - unfold CompanionServer._select_tip, CompanionServer.candidates,
      CompanionServer.time_factor. rewrite Hb, Hl, Ht. reflexivity.
  - unfold CompanionServer._check_cooldowns. rewrite Hg, Hl. reflexivity.
Qed.

(** X13: feedback is refused (400) exactly when it lacks a timestamp or
    a non-empty label; feedback that has both is accepted (200) when its
    row can be appended to feedback.csv, and when [_append_csv] raises the
    exception leaves the route (500). Every answer other than 200 leaves
    the server as it was; accepted feedback adds one row and, when
    positive, one to the acceptance counter of its label; no answer
    changes what [_select_tip] returns or what [_check_cooldowns]
    answers. *)
Theorem feedback_effects (cfg : Config) (self : Server) (ts label : option string)
    (accepted : bool) (now t_save : Q) (appended : bool) (o : SaveOutcome) :
  let r := CompanionServer.feedback self ts label accepted now t_save appended o in
  let complete := exists t l, ts = Some t /\ label = Some l /\ l <> "" in
  (snd r = 400%Z <-> ~ complete)
  /\ (snd r = 200%Z <-> complete /\ appended = true)
  /\ (snd r = 500%Z <-> complete /\ appended = false)
  /\ (snd r <> 200%Z -> fst r = self)
  /\ (forall l, label = Some l -> snd r = 200%Z ->
        length (feedback_csv (fst r)) = S (length (feedback_csv self))
        /\ default 0%Z (label_acceptance (fst r) !! l)
           = (default 0 (label_acceptance self !! l)
              + if accepted then 1 else 0)%Z)
  /\ (forall now' l conf events,
        CompanionServer._select_tip cfg (fst r) now' l conf events
        = CompanionServer._select_tip cfg self now' l conf events)
  /\ (forall now' l,
        CompanionServer._check_cooldowns cfg (fst r) now' l
        = CompanionServer._check_cooldowns cfg self now' l).
Proof.
  intros r complete. unfold r, complete, CompanionServer.feedback.
  destruct ts as [t|], label as [l|];
    try solve [cbn [fst snd]; repeat split; try tauto; try discriminate;
               try (intros (? & ? & ? & ? & ?); discriminate);
               try (intros _ (? & ? & ? & ? & ?); discriminate);
               try (intros [(? & ? & ? & ? & ?) _]; discriminate)].
  destruct (String.eqb_spec l "") as [->|Hne]; cbn [fst snd].
  - repeat split; try tauto; try discriminate.
    + intros _ (? & l' & _ & [= <-] & H). congruence.
    + intros [(? & l' & _ & [= <-] & H) _]. congruence.
    + intros [(? & l' & _ & [= <-] & H) _]. congruence.
  - assert (Hc : exists t0 l0, Some t = Some t0 /\ Some l = Some l0 /\ l0 <> "")
      by (exists t, l; repeat split; assumption).
    destruct appended; cbn [negb fst snd].
    2:{ split; [split; [discriminate | tauto]|].
        split; [split; [discriminate | intros [_ H]; discriminate]|].
        split; [split; [intros _; split; [exact Hc | reflexivity] | reflexivity]|].
        split; [reflexivity|]. split; [discriminate|].
        split; reflexivity. }
    pose proof (save_state_fields
                  {| model_utils := model_utils self;
                     tips_dataset := tips_dataset self;
                     rag := rag self;
                     last_state := last_state self;
                     last_tip := last_tip self;
                     last_tip_timestamp := last_tip_timestamp self;
                     label_last_tip := label_last_tip self;
                     tip_last_shown := tip_last_shown self;
                     label_tips_posted := label_tips_posted self;
                     label_acceptance :=
                       if accepted
                       then <[l := (default 0 (label_acceptance self !! l) + 1)%Z]>
                              (label_acceptance self)
                       else label_acceptance self;
                     last_poll_time := last_poll_time self;
                     recent_events := recent_events self;
                     decisions_csv := decisions_csv self;
                     feedback_csv :=
                       feedback_csv self ++
                       [{| f_timestamp := t; f_label := l; f_accepted := accepted;
                           f_feedback_time := now |}];
                     state_file := state_file self |} t_save o)
      as (_ & Hg & Hl & Ht & _ & Ha & _ & Hf).
    cbn [last_tip_timestamp label_last_tip tip_last_shown label_acceptance
         feedback_csv] in *.
    split; [split; [discriminate | tauto]|].
    split; [split; [intros _; split; [exact Hc | reflexivity] | reflexivity]|].
    split; [split; [discriminate | intros [_ H]; discriminate]|].
    split; [congruence|].
    split.
    + intros l' [= <-] _. rewrite Hf, Ha, length_app. cbn [length].
      split; [lia|]. destruct accepted.
      * rewrite lookup_insert_eq. reflexivity.
      * lia.
    + apply select_and_check_ext; try assumption. destruct o; reflexivity.
Qed.

Lemma feedback_effects_witness :
  Some "exploring" = Some "exploring"
  /\ snd (CompanionServer.feedback (posted_server 1000) (Some "1000")
            (Some "exploring") true 1010 1010 true Saved) = 200%Z
  /\ default 0%Z
       (label_acceptance
          (fst (CompanionServer.feedback (posted_server 1000) (Some "1000")
                  (Some "exploring") true 1010 1010 true Saved)) !! "exploring")
     = (default 0 (label_acceptance (posted_server 1000) !! "exploring") + 1)%Z
  /\ snd (CompanionServer.feedback (posted_server 1000) (Some "1000")
            (Some "exploring") true 1010 1010 false Saved) <> 200%Z
  /\ fst (CompanionServer.feedback (posted_server 1000) (Some "1000")
            (Some "exploring") true 1010 1010 false Saved)
     = posted_server 1000.
Proof.
  assert (Hl : Some "exploring" = Some "exploring") by reflexivity.
  assert (H : snd (CompanionServer.feedback (posted_server 1000) (Some "1000")
                     (Some "exploring") true 1010 1010 true Saved) = 200%Z)
    by reflexivity.
  assert (H' : snd (CompanionServer.feedback (posted_server 1000) (Some "1000")
                      (Some "exploring") true 1010 1010 false Saved) <> 200%Z)
    by discriminate.
  split; [exact Hl|]. split; [exact H|].
  destruct (feedback_effects default_config (posted_server 1000) (Some "1000")
              (Some "exploring") true 1010 1010 true Saved)
    as (_ & _ & _ & _ & Hrow & _).
  split; [exact (proj2 (Hrow "exploring" Hl H))|].
  split; [exact H'|].
  destruct (feedback_effects default_config (posted_server 1000) (Some "1000")
              (Some "exploring") true 1010 1010 false Saved)
    as (_ & _ & _ & Hsame & _).
  exact (Hsame H').
Defined.

(** X14: a forced tip is admitted when the stripped message is not empty
    and either [force] is set or the spoiler level is within the maximum
    and the admission check passes for the stripped label. It is answered
    200 exactly when it is admitted, the sink accepts it and its row can
    be appended to decisions.csv: the ledgers are then committed under
    that label and that message, with [force] too. When it is admitted
    and accepted by the sink and [_append_csv] raises, the answer is 500
    and the ledgers are committed all the same, with no row and no state
    document written. A tip that is not admitted or not accepted by the
    sink leaves the server as it was. *)
Theorem force_tip_effects (cfg : Config) (self : Server)
    (message label : option string) (spoiler : option Z) (force : option bool)
    (t_chk t_post t_save : Q) (ok appended : bool) (o : SaveOutcome) :
  let r := CompanionServer.force_tip cfg self message label spoiler force
             t_chk t_post t_save ok appended o in
  let msg := PyStr.strip (default "" message) in
  let lbl := PyStr.strip (default "manual" label) in
  let admitted :=
    msg <> ""
    /\ (force = Some true
        \/ ((default 0 spoiler <= MAX_SPOILER_LEVEL cfg)%Z
            /\ CompanionServer._check_cooldowns cfg self t_chk lbl = true)) in
  (snd r = 200%Z <-> admitted /\ ok = true /\ appended = true)
  /\ (snd r = 200%Z ->
      fst r = CompanionServer._after_post self t_post t_save o lbl msg 0 "forced"
      /\ last_tip_timestamp (fst r) = t_post
      /\ label_last_tip (fst r) !! lbl = Some t_post
      /\ tip_last_shown (fst r) !! msg = Some t_post)
  /\ (admitted -> ok = true -> appended = false ->
      snd r = 500%Z
      /\ last_tip (fst r) = Some msg
      /\ last_tip_timestamp (fst r) = t_post
      /\ label_last_tip (fst r) = <[lbl := t_post]> (label_last_tip self)
      /\ tip_last_shown (fst r) = <[msg := t_post]> (tip_last_shown self)
      /\ decisions_csv (fst r) = decisions_csv self
      /\ state_file (fst r) = state_file self)
  /\ (~ admitted \/ ok = false -> fst r = self /\ snd r <> 200%Z).
Proof.
  intros r msg lbl admitted. unfold admitted, r, CompanionServer.force_tip.
  fold msg lbl.
  destruct (String.eqb_spec msg "") as [Hm|Hm]; cbn [fst snd].
  { split; [split; [discriminate | tauto]|]. split; [discriminate|].
    split; [tauto|]. intros _. split; [reflexivity | discriminate]. }
  assert (Hforce : default false force = true <-> force = Some true).
  { destruct force as [[|]|]; cbn; split; congruence. }
  assert (Hposted :
    (force = Some true
     \/ ((default 0 spoiler <= MAX_SPOILER_LEVEL cfg)%Z
         /\ CompanionServer._check_cooldowns cfg self t_chk lbl = true)) ->
    let r' :=
      if ok
      then
        if appended
        then (CompanionServer._after_post self t_post t_save o lbl msg 0 "forced",
              200%Z)
        else (CompanionServer.after_post_raised self t_post lbl msg, 500%Z)
      else (self, 500%Z) in
    (snd r' = 200%Z
     <-> (msg <> ""
          /\ (force = Some true
              \/ ((default 0 spoiler <= MAX_SPOILER_LEVEL cfg)%Z
                  /\ CompanionServer._check_cooldowns cfg self t_chk lbl = true)))
         /\ ok = true /\ appended = true)
    /\ (snd r' = 200%Z ->
        fst r' = CompanionServer._after_post self t_post t_save o lbl msg 0 "forced"
        /\ last_tip_timestamp (fst r') = t_post
        /\ label_last_tip (fst r') !! lbl = Some t_post
        /\ tip_last_shown (fst r') !! msg = Some t_post)
    /\ (msg <> ""
        /\ (force = Some true
            \/ ((default 0 spoiler <= MAX_SPOILER_LEVEL cfg)%Z
                /\ CompanionServer._check_cooldowns cfg self t_chk lbl = true)) ->
        ok = true -> appended = false ->
        snd r' = 500%Z
        /\ last_tip (fst r') = Some msg
        /\ last_tip_timestamp (fst r') = t_post
        /\ label_last_tip (fst r') = <[lbl := t_post]> (label_last_tip self)
        /\ tip_last_shown (fst r') = <[msg := t_post]> (tip_last_shown self)
        /\ decisions_csv (fst r') = decisions_csv self
        /\ state_file (fst r') = state_file self)
    /\ (~ (msg <> ""
           /\ (force = Some true
               \/ ((default 0 spoiler <= MAX_SPOILER_LEVEL cfg)%Z
                   /\ CompanionServer._check_cooldowns cfg self t_chk lbl = true)))
        \/ ok = false -> fst r' = self /\ snd r' <> 200%Z)).
  { intros Hadm r'. unfold r'. destruct ok, appended; cbn [fst snd].
    - split; [split; [intros _; repeat split; assumption | reflexivity]|].
      split; [intros _|split; [discriminate|intros [H|H]; [tauto|discriminate]]].
      rewrite after_post_global, after_post_label, after_post_tip,
        !lookup_insert_eq. repeat split.
    - split; [split; [discriminate | intros (_ & _ & H); discriminate]|].
      split; [discriminate|].
      split; [intros _ _ _; repeat split|intros [H|H]; [tauto|discriminate]].
    - split; [split; [discriminate | intros (_ & H & _); discriminate]|].
      split; [discriminate|]. split; [discriminate|].
      intros _. split; [reflexivity | discriminate].
    - split; [split; [discriminate | intros (_ & H & _); discriminate]|].
      split; [discriminate|]. split; [discriminate|].
      intros _. split; [reflexivity | discriminate]. }
  destruct (default false force) eqn:Hf; cbn [negb andb].
  - rewrite andb_false_r. apply Hposted. left. apply Hforce. reflexivity.
  - rewrite andb_true_r.
    assert (Hnf : force <> Some true) by (intros H; apply Hforce in H; discriminate).
    destruct (Z.ltb_spec (MAX_SPOILER_LEVEL cfg) (default 0%Z spoiler)) as [Hs|Hs];
      cbn [fst snd].
    { split; [split; [discriminate
                     | intros ((_ & [H|[H _]]) & _); [congruence|lia]]|].
      split; [discriminate|].
      split; [intros (_ & [H|[H _]]); [congruence|lia]|].
      intros _. split; [reflexivity | discriminate]. }
    destruct (CompanionServer._check_cooldowns cfg self t_chk lbl) eqn:Hc;
      cbn [negb fst snd].
    + apply Hposted. right. split; [exact Hs | reflexivity].
    + split; [split; [discriminate
                     | intros ((_ & [H|[_ H]]) & _); [congruence|discriminate]]|].
      split; [discriminate|].
      split; [intros (_ & [H|[_ H]]); [congruence|discriminate]|].
      intros _. split; [reflexivity | discriminate].
Qed.

Lemma force_tip_effects_witness :
  snd (CompanionServer.force_tip default_config (posted_server 1000)
         (Some "  Dig down!  ") None (Some 3%Z) (Some true) 1001 1001 1001
         true true Saved)
  = 200%Z
  /\ last_tip_timestamp
       (fst (CompanionServer.force_tip default_config (posted_server 1000)
               (Some "  Dig down!  ") None (Some 3%Z) (Some true)
               1001 1001 1001 true true Saved))
     = 1001
  /\ tip_last_shown
       (fst (CompanionServer.force_tip default_config (posted_server 1000)
               (Some "  Dig down!  ") None (Some 3%Z) (Some true)
               1001 1001 1001 true true Saved))
       !! PyStr.strip (default "" (Some "  Dig down!  "))
     = Some 1001
  /\ snd (CompanionServer.force_tip default_config (posted_server 1000)
            (Some "  Dig down!  ") None (Some 3%Z) (Some true) 1001 1001 1001
            true false Saved)
     = 500%Z
  /\ last_tip_timestamp
       (fst (CompanionServer.force_tip default_config (posted_server 1000)
               (Some "  Dig down!  ") None (Some 3%Z) (Some true)
               1001 1001 1001 true false Saved))
     = 1001.
Proof.
  assert (H : snd (CompanionServer.force_tip default_config (posted_server 1000)
                     (Some "  Dig down!  ") None (Some 3%Z) (Some true)
                     1001 1001 1001 true true Saved) = 200%Z) by reflexivity.
  split; [exact H|].
  destruct (proj1 (proj2 (force_tip_effects default_config (posted_server 1000)
                            (Some "  Dig down!  ") None (Some 3%Z) (Some true)
                            1001 1001 1001 true true Saved)) H)
    as (_ & Hg & _ & Ht).
  split; [exact Hg|]. split; [exact Ht|].
  assert (Hadm : PyStr.strip (default "" (Some "  Dig down!  ")) <> ""
                 /\ (Some true = Some true
                     \/ ((default 0 (Some 3) <= MAX_SPOILER_LEVEL default_config)%Z
                         /\ CompanionServer._check_cooldowns default_config
                              (posted_server 1000) 1001
                              (PyStr.strip (default "manual" None)) = true)))
    by (split; [vm_compute; discriminate | left; reflexivity]).
  destruct (proj1 (proj2 (proj2 (force_tip_effects default_config
                                   (posted_server 1000)
                                   (Some "  Dig down!  ") None (Some 3%Z)
                                   (Some true) 1001 1001 1001 true false Saved)))
              Hadm eq_refl eq_refl)
    as (H5 & _ & Hg' & _).
  split; [exact H5 | exact Hg'].
Defined.

(** X15: the preview of [GET /tip] answers 400 exactly when a cycle would
    stop for want of a snapshot; otherwise it reports the label and the
    confidence of the prediction and the tip the scorer selects, and its
    [would_post] is true exactly when a cycle with the same two clock
    readings gets as far as formatting and posting the tip. *)
Theorem get_tip_agrees_with_cycle (cfg : Config) (self : Server) (env : CycleEnv)
    (t_resp : Q) :
  (CompanionServer.get_tip cfg self (t_select env) (t_check env) t_resp = None
   <-> snd (CompanionServer._process_state cfg self env) = NoState)
  /\ (forall pv : CompanionServer.TipPreview,
        CompanionServer.get_tip cfg self (t_select env) (t_check env) t_resp
        = Some pv ->
        exists st : Snapshot,
          let p := ModelUtils.predict_label_and_confidence
                     (model_utils self) st (recent_events self) in
          last_state self = Some st
          /\ CompanionServer.pv_label pv = pred_label p
          /\ CompanionServer.pv_confidence pv = pred_conf p
          /\ CompanionServer.pv_tip pv
             = CompanionServer._select_tip cfg self (t_select env) (pred_label p)
                 (pred_conf p) (recent_events self)
          /\ (CompanionServer.pv_would_post pv = true
              <-> snd (CompanionServer._process_state cfg self env) = FormatterRaised
                  \/ snd (CompanionServer._process_state cfg self env) = DispatchFailed
                  \/ exists tip,
                       posted (snd (CompanionServer._process_state cfg self env))
                         tip)).
Proof.
  unfold CompanionServer.get_tip, CompanionServer._process_state.
  destruct (last_state self) as [st|]; [|split; [tauto | discriminate]].
  destruct (ModelUtils.predict_label_and_confidence _ _ _)
    as [[label conf] dist] eqn:Hp.
  split.
  { split; [discriminate|].
    destruct (Qltb conf _); [discriminate|].
    destruct (CompanionServer._select_tip _ _ _ _ _ _) as [tip|]; [|discriminate].
    destruct (String.eqb tip ""); [discriminate|].
    destruct (negb _); [discriminate|].
    destruct (if PyStr.contains "{recipe}" tip then _ else _) as [[tip' u]|];
      [|discriminate].
    destruct (post_ok env); [destruct (append_ok env)|]; discriminate. }
  intros pv [= <-]. exists st. cbv zeta. rewrite Hp.
  unfold pred_label, pred_conf. cbn [fst snd CompanionServer.pv_label
    CompanionServer.pv_confidence CompanionServer.pv_tip
    CompanionServer.pv_would_post].
  repeat (split; [reflexivity|]).
  unfold Qltb.
  destruct (CompanionServer._select_tip _ _ _ _ _ _) as [tip|].
  2:{ destruct (negb _); cbn [snd];
        (split; [discriminate | intros [H|[H|[? [H|H]]]]; discriminate]). }
  destruct (String.eqb tip "").
  { destruct (negb _); cbn [snd];
      (split; [discriminate | intros [H|[H|[? [H|H]]]]; discriminate]). }
  destruct (Qle_bool (CONF_THRESHOLD cfg) conf); cbn [negb snd].
  2:{ split; [discriminate | intros [H|[H|[? [H|H]]]]; discriminate]. }
  destruct (CompanionServer._check_cooldowns _ _ _ _); cbn [negb snd].
  2:{ split; [discriminate | intros [H|[H|[? [H|H]]]]; discriminate]. }
  destruct (if PyStr.contains "{recipe}" tip then _ else _) as [[tip' u]|];
    cbn [snd].
  - destruct (post_ok env); [destruct (append_ok env)|]; cbn [snd];
      split; try reflexivity; intros _.
    + right. right. eexists. left. reflexivity.
    + right. right. eexists. right. reflexivity.
    + right. left. reflexivity.
  - split; [intros _; left; reflexivity | reflexivity].
Qed.

Lemma get_tip_agrees_with_cycle_witness :
  exists pv : CompanionServer.TipPreview,
    CompanionServer.get_tip default_config (calm_server 1000) 1000 1000 1000
    = Some pv
    /\ CompanionServer.pv_would_post pv = true.
Proof.
  eexists. split; [reflexivity|].
  destruct (proj2 (get_tip_agrees_with_cycle default_config (calm_server 1000)
                     (cycle_at 1000 true Saved) 1000) _ eq_refl)
    as (st & _ & _ & _ & _ & Hw).
  apply Hw. right. right. exists exploring_tip. left. vm_compute. reflexivity.
Defined.

(** ** The polling loop *)

Lemma poll_once_failed (cfg : Config) (self : Server) (backoff : Q)
    (turn : CompanionServer.StateResponse * Q * CycleEnv) :
  failed_turn turn ->
  CompanionServer.poll_once cfg self backoff (fst (fst turn)) (snd (fst turn))
    (snd turn)
  = (self, CompanionServer.grow cfg backoff).
Proof.
  destruct turn as [[r now] env]. unfold failed_turn. cbn [fst snd].
  destruct r as [|code body]; [reflexivity|].
  intros [Hcode| ->]; cbn [CompanionServer.poll_once].
  - apply Z.eqb_neq in Hcode. rewrite Hcode. reflexivity.
  - destruct (code =? 200)%Z; reflexivity.
Qed.

Lemma power_ge_1 (b : Q) (n : nat) : 1 <= b -> 1 <= b ^ Z.of_nat n.
Proof. intros Hb. apply Qpower_1_le; [exact Hb | lia]. Qed.

Lemma power_succ (b : Q) (n : nat) :
  1 <= b -> b ^ Z.of_nat (S n) == b * b ^ Z.of_nat n.
Proof.
  intros Hb. rewrite Nat2Z.inj_succ, <- Z.add_1_r, Qpower_plus.
  - rewrite Qpower_1_r. ring.
  - intros H. rewrite H in Hb. lra.
Qed.

Lemma grow_absorbs (x k : Q) :
  0 <= x -> 1 <= k ->
  Qmin (Qmin x CompanionServer.max_backoff * k) CompanionServer.max_backoff
  == Qmin (x * k) CompanionServer.max_backoff.
Proof.
  intros Hx Hk. unfold CompanionServer.max_backoff.
  assert (Hprod : 0 <= x * (k - 1)) by (apply Qmult_le_0_compat; lra).
  destruct (Q.min_spec x 300) as [[Hlt ->]|[Hge ->]]; [reflexivity|].
  rewrite (Q.min_r (300 * k) 300) by lra.
  rewrite (Q.min_r (x * k) 300) by lra. reflexivity.
Qed.

(** X16: turns of the polling loop that fail (the request raises, the
    status is not 200, or the body is not JSON) leave the server as it was,
    and, for a backoff base of at least 1, after n of them in a row, n at
    least 1, the sleep time is min(backoff * base^n, 300): it is never
    above 300 seconds. *)
Theorem poll_backoff_closed_form (cfg : Config) (self : Server) (backoff : Q)
    (turns : list (CompanionServer.StateResponse * Q * CycleEnv)) :
  1 <= POLL_BACKOFF_BASE cfg ->
  0 <= backoff ->
  turns <> [] ->
  Forall failed_turn turns ->
  fst (CompanionServer.poll_loop cfg self backoff turns) = self
  /\ snd (CompanionServer.poll_loop cfg self backoff turns)
     == Qmin (backoff * POLL_BACKOFF_BASE cfg ^ Z.of_nat (length turns)) 300
  /\ snd (CompanionServer.poll_loop cfg self backoff turns) <= 300.
Proof.
  intros Hbase. revert backoff.
  induction turns as [|turn turns IH]; intros backoff Hb Hne Hall; [congruence|].
  inversion Hall as [|? ? Hturn Hrest]; subst.
  destruct turn as [[r now] env]. cbn [CompanionServer.poll_loop].
  pose proof (poll_once_failed cfg self backoff (r, now, env) Hturn) as Hstep.
  cbn [fst snd] in Hstep. rewrite Hstep. cbn [fst snd].
  assert (Hgrow : 0 <= CompanionServer.grow cfg backoff).
  { unfold CompanionServer.grow, CompanionServer.max_backoff.
    apply Q.min_glb; [apply Qmult_le_0_compat; lra | lra]. }
  destruct turns as [|turn' turns'].
  - cbn [CompanionServer.poll_loop fst snd length].
    unfold CompanionServer.grow, CompanionServer.max_backoff.
    split; [reflexivity|]. split; [|apply Q.le_min_r].
    change (Z.of_nat 1) with 1%Z. rewrite Qpower_1_r. reflexivity.
  - destruct (IH (CompanionServer.grow cfg backoff) Hgrow) as (Hs & Hq & Hle);
      [discriminate | exact Hrest |].
    split; [exact Hs|]. split; [|exact Hle].
    rewrite Hq. unfold CompanionServer.grow.
    set (n := length (turn' :: turns')).
    rewrite grow_absorbs;
      [|apply Qmult_le_0_compat; lra | apply power_ge_1; exact Hbase].
    apply Q.min_compat; [|reflexivity].
    change (length ((r, now, env) :: turn' :: turns')) with (S n).
    rewrite (power_succ _ n Hbase). ring.
Qed.

Lemma poll_backoff_closed_form_witness :
  1 <= POLL_BACKOFF_BASE default_config
  /\ 0 <= 15
  /\ Forall failed_turn
       [(CompanionServer.GetRaised, 1000, cycle_at 1000 true Saved);
        (CompanionServer.GetStatus 503 CompanionServer.BodyEmpty, 1022.5,
         cycle_at 1022.5 true Saved)]
  /\ snd (CompanionServer.poll_loop default_config (calm_server 1000) 15
            [(CompanionServer.GetRaised, 1000, cycle_at 1000 true Saved);
             (CompanionServer.GetStatus 503 CompanionServer.BodyEmpty, 1022.5,
              cycle_at 1022.5 true Saved)])
     == 33.75.
Proof.
  assert (Hbase : 1 <= POLL_BACKOFF_BASE default_config) by (vm_compute; discriminate).
  assert (Hb : 0 <= 15) by (vm_compute; discriminate).
  assert (Hall : Forall failed_turn
                   [(CompanionServer.GetRaised, 1000, cycle_at 1000 true Saved);
                    (CompanionServer.GetStatus 503 CompanionServer.BodyEmpty, 1022.5,
                     cycle_at 1022.5 true Saved)]).
  { repeat constructor. discriminate. }
  split; [exact Hbase|]. split; [exact Hb|]. split; [exact Hall|].
  assert (Hne : [(CompanionServer.GetRaised, 1000, cycle_at 1000 true Saved);
                 (CompanionServer.GetStatus 503 CompanionServer.BodyEmpty, 1022.5,
                  cycle_at 1022.5 true Saved)] <> []) by discriminate.
  rewrite (proj1 (proj2 (poll_backoff_closed_form default_config (calm_server 1000)
                           15 _ Hbase Hb Hne Hall))).
  reflexivity.
Defined.

Lemma process_state_last_state (cfg : Config) (self : Server) (env : CycleEnv) :
  last_state (fst (CompanionServer._process_state cfg self env)) = last_state self
  /\ recent_events (fst (CompanionServer._process_state cfg self env))
     = recent_events self.
Proof.
  destruct (process_state_cases cfg self env)
    as [[-> _]|[(label & tip & used_rag & ref & _ & _ & ->)
               |(label & tip & _ & _ & ->)]];
    [split; reflexivity| |split; reflexivity].
  cbn [fst]. destruct (save_outcome env); split; reflexivity.
Qed.

(** X17: when the state source answers 200 with a document whose fields
    have the types of [Snapshot], the snapshot is stored and a cycle runs
    on it. When the cycle returns, the sleep time goes back to the poll
    interval whatever it was, also when the dispatch failed. When the
    cycle raises (the formatter raised, or the
    tip was posted and [_append_csv] raised in the commit) the turn counts
    as failed: the sleep time grows. The new snapshot is kept in every
    case; after an exception of the formatter the server is otherwise as
    the snapshot's arrival left it, and after an exception of the commit
    the ledgers are committed and neither the decision log nor the state
    file is written. *)
Theorem poll_once_with_document (cfg : Config) (self : Server) (backoff : Q)
    (st : Snapshot) (now : Q) (env : CycleEnv) :
  let r := CompanionServer.poll_once cfg self backoff
             (CompanionServer.GetStatus 200 (CompanionServer.BodyDoc st)) now env in
  let c := CompanionServer._process_state cfg
             (CompanionServer.receive_state self st now) env in
  let raised := snd c = FormatterRaised \/ exists tip, snd c = CommitRaised tip in
  fst r = fst c
  /\ last_state (fst r) = Some st
  /\ (~ raised -> snd r = inject_Z (POLL_INTERVAL_SECONDS cfg))
  /\ (raised -> snd r = CompanionServer.grow cfg backoff)
  /\ (snd c = FormatterRaised ->
      fst r = CompanionServer.receive_state self st now)
  /\ (forall tip, snd c = CommitRaised tip ->
      last_tip (fst r) = Some tip
      /\ last_tip_timestamp (fst r) = t_post env
      /\ tip_last_shown (fst r) = <[tip := t_post env]> (tip_last_shown self)
      /\ decisions_csv (fst r) = decisions_csv self
      /\ state_file (fst r) = state_file self).
Proof.
  intros r c raised. unfold raised, r.
  cbn [CompanionServer.poll_once Z.eqb Pos.eqb]. fold c.
  assert (Hfst : fst (match snd c with
                      | FormatterRaised | CommitRaised _ =>
                          (fst c, CompanionServer.grow cfg backoff)
                      | _ => (fst c, inject_Z (POLL_INTERVAL_SECONDS cfg))
                      end) = fst c)
    by (destruct (snd c); reflexivity).
  split; [exact Hfst|]. split.
  { rewrite Hfst. unfold c. rewrite (proj1 (process_state_last_state _ _ _)).
    reflexivity. }
  split.
  { intros Hne. destruct (snd c) as [| | | | | |tip|tip]; try reflexivity.
    - exfalso. apply Hne. left. reflexivity.
    - exfalso. apply Hne. right. exists tip. reflexivity. }
  split.
  { intros [Hraised|[tip Hraised]]; rewrite Hraised; reflexivity. }
  rewrite Hfst.
  destruct (process_state_cases cfg (CompanionServer.receive_state self st now) env)
    as [[H Hn]|[(label & tip & used_rag & ref & _ & _ & H)|(label & tip & _ & _ & H)]];
    try fold c in Hn; fold c in H.
  - split; [intros _; exact H|].
    intros tip Hc. exfalso. apply (Hn tip). right. exact Hc.
  - rewrite H. cbn [fst snd]. split; [discriminate|]. intros ? [=].
  - rewrite H. cbn [fst snd]. split; [discriminate|].
    intros tip' [= <-]. repeat split.
Qed.

Lemma poll_once_with_document_witness :
  (snd (CompanionServer._process_state rag_config
          (CompanionServer.receive_state rag_server calm 1000) (bad_llm_cycle 1000))
   = FormatterRaised
   /\ snd (CompanionServer.poll_once rag_config rag_server 15
             (CompanionServer.GetStatus 200 (CompanionServer.BodyDoc calm))
             1000 (bad_llm_cycle 1000))
      = CompanionServer.grow rag_config 15)
  /\ (snd (CompanionServer._process_state default_config
             (CompanionServer.receive_state (fresh TipsDataset._stub) calm 1000)
             (unrecorded_cycle 1000))
      = CommitRaised exploring_tip
      /\ snd (CompanionServer.poll_once default_config (fresh TipsDataset._stub) 15
                (CompanionServer.GetStatus 200 (CompanionServer.BodyDoc calm))
                1000 (unrecorded_cycle 1000))
         = CompanionServer.grow default_config 15
      /\ last_tip_timestamp
           (fst (CompanionServer.poll_once default_config
                   (fresh TipsDataset._stub) 15
                   (CompanionServer.GetStatus 200 (CompanionServer.BodyDoc calm))
                   1000 (unrecorded_cycle 1000)))
         = t_post (unrecorded_cycle 1000)).
Proof.
  assert (H : snd (CompanionServer._process_state rag_config
                     (CompanionServer.receive_state rag_server calm 1000)
                     (bad_llm_cycle 1000)) = FormatterRaised)
    by (vm_compute; reflexivity).
  assert (H' : snd (CompanionServer._process_state default_config
                      (CompanionServer.receive_state (fresh TipsDataset._stub)
                         calm 1000)
                      (unrecorded_cycle 1000)) = CommitRaised exploring_tip)
    by (vm_compute; reflexivity).
  split.
  - split; [exact H|].
    exact (proj1 (proj2 (proj2 (proj2
             (poll_once_with_document rag_config rag_server 15 calm 1000
                (bad_llm_cycle 1000)))))
             (or_introl H)).
  - split; [exact H'|].
    destruct (poll_once_with_document default_config (fresh TipsDataset._stub) 15
                calm 1000 (unrecorded_cycle 1000))
      as (_ & _ & _ & Hgrow & _ & Hledgers).
    split.
    + apply Hgrow. right. exists exploring_tip. exact H'.
    + exact (proj1 (proj2 (Hledgers exploring_tip H'))).
Defined.

(** ** The formatter, continued *)

Lemma stub_cap (query : string) (docs : list string) (max_length : Z) :
  (3 <= max_length)%Z ->
  (PyStr.len (LlmWrapper.stub query docs max_length) <= max_length)%Z.
Proof. intros H. unfold LlmWrapper.stub. destruct docs; apply trim_cap, H. Qed.

(** X18: with numbers in [GEMINI_TEMPERATURE] and [GEMINI_MAX_TOKENS] and a
    cap of at least 3, the formatter returns, whatever the SDK and the
    service do, a string of at most [max_length] characters. *)
Theorem paraphrase_within_cap (env : LlmWrapper.LlmEnv) (query : string)
    (docs : list string) (max_length : Z) (temperature : Q) (max_tokens : Z) :
  LlmWrapper.GEMINI_TEMPERATURE env = Some temperature ->
  LlmWrapper.GEMINI_MAX_TOKENS env = Some max_tokens ->
  (3 <= max_length)%Z ->
  exists out : string,
    LlmWrapper.paraphrase_with_context env query docs max_length = Ok out
    /\ (PyStr.len out <= max_length)%Z.
Proof.
  intros Ht Hm Hmax.
  unfold LlmWrapper.paraphrase_with_context, LlmWrapper._gemini_config.
  rewrite Ht, Hm.
  pose proof (stub_cap query docs max_length Hmax) as Hstub.
  destruct (negb _); [eexists; split; [reflexivity | exact Hstub]|].
  destruct (String.eqb _ ""); [eexists; split; [reflexivity | exact Hstub]|].
  destruct (negb _); [eexists; split; [reflexivity | exact Hstub]|].
  destruct (LlmWrapper.gemini_call env query docs) as [t|];
    [|eexists; split; [reflexivity | exact Hstub]].
  destruct (String.eqb t ""); eexists; (split; [reflexivity|]);
    [exact Hstub | apply trim_cap, Hmax].
Qed.

Lemma paraphrase_within_cap_witness :
  LlmWrapper.GEMINI_TEMPERATURE no_llm = Some 0.7
  /\ LlmWrapper.GEMINI_MAX_TOKENS no_llm = Some 120%Z
  /\ (3 <= 20)%Z
  /\ exists out : string,
       LlmWrapper.paraphrase_with_context no_llm "Craft a pickaxe"
         ["three planks"; "two sticks"] 20 = Ok out
       /\ (PyStr.len out <= 20)%Z.
Proof.
  assert (Ht : LlmWrapper.GEMINI_TEMPERATURE no_llm = Some 0.7) by reflexivity.
  assert (Hm : LlmWrapper.GEMINI_MAX_TOKENS no_llm = Some 120%Z) by reflexivity.
  assert (Hc : (3 <= 20)%Z) by lia.
  split; [exact Ht|]. split; [exact Hm|]. split; [exact Hc|].
  exact (paraphrase_within_cap no_llm "Craft a pickaxe"
           ["three planks"; "two sticks"] 20 0.7 120 Ht Hm Hc).
Defined.

Lemma stub_first_three (query : string) (docs : list string) (max_length : Z) :
  LlmWrapper.stub query docs max_length
  = LlmWrapper.stub query (firstn 3 docs) max_length.
Proof.
  unfold LlmWrapper.stub. destruct docs as [|d docs]; [reflexivity|].
  rewrite firstn_firstn. reflexivity.
Qed.

(** X19: when [GEMINI_ENABLED] is not "true" in any letter case, or the
    API key is blank, the formatter consults neither the SDK nor the
    service and reads at most the first three snippets: two environments
    with the same four variables, and two snippet lists with the same
    first three entries, give the same result, which is the fallback when
    the two numbers are well formed. *)
Theorem paraphrase_disabled_is_local (env env' : LlmWrapper.LlmEnv)
    (query : string) (docs docs' : list string) (max_length : Z) :
  LlmWrapper.GEMINI_ENABLED env' = LlmWrapper.GEMINI_ENABLED env ->
  LlmWrapper.GEMINI_API_KEY env' = LlmWrapper.GEMINI_API_KEY env ->
  LlmWrapper.GEMINI_TEMPERATURE env' = LlmWrapper.GEMINI_TEMPERATURE env ->
  LlmWrapper.GEMINI_MAX_TOKENS env' = LlmWrapper.GEMINI_MAX_TOKENS env ->
  PyStr.lower (default "false" (LlmWrapper.GEMINI_ENABLED env)) <> "true"
  \/ PyStr.strip (default "" (LlmWrapper.GEMINI_API_KEY env)) = "" ->
  firstn 3 docs = firstn 3 docs' ->
  LlmWrapper.paraphrase_with_context env query docs max_length
  = LlmWrapper.paraphrase_with_context env' query docs' max_length
  /\ (is_Some (LlmWrapper.GEMINI_TEMPERATURE env) ->
      is_Some (LlmWrapper.GEMINI_MAX_TOKENS env) ->
      LlmWrapper.paraphrase_with_context env query docs max_length
      = Ok (LlmWrapper.stub query (firstn 3 docs) max_length)).
Proof.
  intros He Hk Ht Hm Hoff Hdocs.
  assert (Hcfg : LlmWrapper._gemini_config env = Raised
                 \/ LlmWrapper._gemini_config env = Ok false).
  { unfold LlmWrapper._gemini_config.
    destruct (LlmWrapper.GEMINI_TEMPERATURE env); [|left; reflexivity].
    destruct (LlmWrapper.GEMINI_MAX_TOKENS env); [|left; reflexivity].
    right. destruct Hoff as [Hoff|Hoff].
    - apply String.eqb_neq in Hoff. rewrite Hoff. reflexivity.
    - rewrite Hoff. destruct (negb _); reflexivity. }
  assert (Hcfg' : LlmWrapper._gemini_config env' = LlmWrapper._gemini_config env).
  { unfold LlmWrapper._gemini_config. rewrite He, Hk, Ht, Hm. reflexivity. }
  unfold LlmWrapper.paraphrase_with_context. rewrite Hcfg'.
  rewrite (stub_first_three query docs), (stub_first_three query docs'), Hdocs.
  split.
  - destruct Hcfg as [-> | ->]; reflexivity.
  - intros [t Ht'] [m Hm']. unfold LlmWrapper._gemini_config in *.
    rewrite Ht', Hm' in *. destruct Hcfg as [Hc|Hc]; [|rewrite Hc; reflexivity].
    destruct (negb _); [discriminate|]. destruct (String.eqb _ ""); discriminate.
Qed.

Lemma paraphrase_disabled_is_local_witness :
  PyStr.lower (default "false" (LlmWrapper.GEMINI_ENABLED no_llm)) <> "true"
  /\ firstn 3 ["a"; "b"; "c"; "d"] = firstn 3 ["a"; "b"; "c"]
  /\ LlmWrapper.paraphrase_with_context no_llm "q" ["a"; "b"; "c"; "d"] 150
     = LlmWrapper.paraphrase_with_context no_llm "q" ["a"; "b"; "c"] 150.
Proof.
  assert (Hoff : PyStr.lower (default "false" (LlmWrapper.GEMINI_ENABLED no_llm))
                 <> "true") by discriminate.
  assert (Hd : firstn 3 ["a"; "b"; "c"; "d"] = firstn 3 ["a"; "b"; "c"])
    by reflexivity.
  split; [exact Hoff|]. split; [exact Hd|].
  exact (proj1 (paraphrase_disabled_is_local no_llm no_llm "q" _ _ 150
                  eq_refl eq_refl eq_refl eq_refl (or_introl Hoff) Hd)).
Defined.

Lemma replace_absent (old new s : string) :
  PyStr.contains old s = false -> PyStr.replace s old new = s.
Proof.
  unfold PyStr.replace. induction s as [|c s IH]; [reflexivity|].
  cbn [PyStr.contains PyStr.replace_from]. intros H.
  apply orb_false_iff in H as [Hp Hs]. rewrite Hp, (IH Hs). reflexivity.
Qed.

(** X20: a tip that does not carry the [{recipe}] placeholder comes back
    from [paraphrase_tip_with_recipe] as it went in, with or without RAG,
    provided the two numbers of the environment are well formed. *)
Theorem paraphrase_tip_without_placeholder (env : LlmWrapper.LlmEnv)
    (tip_text recipe_query : string) (rag_instance : bool) (max_length : Z) :
  PyStr.contains "{recipe}" tip_text = false ->
  is_Some (LlmWrapper.GEMINI_TEMPERATURE env) ->
  is_Some (LlmWrapper.GEMINI_MAX_TOKENS env) ->
  LlmWrapper.paraphrase_tip_with_recipe env tip_text recipe_query rag_instance
    max_length
  = Ok tip_text.
Proof.
  intros Habs [t Ht] [m Hm]. unfold LlmWrapper.paraphrase_tip_with_recipe.
  destruct rag_instance; cbn [negb]; [|rewrite replace_absent; auto].
  destruct (paraphrase_returns env recipe_query [] max_length t m Ht Hm) as [out ->].
  rewrite replace_absent; auto.
Qed.

Lemma paraphrase_tip_without_placeholder_witness :
  PyStr.contains "{recipe}" exploring_tip = false
  /\ is_Some (LlmWrapper.GEMINI_TEMPERATURE no_llm)
  /\ is_Some (LlmWrapper.GEMINI_MAX_TOKENS no_llm)
  /\ LlmWrapper.paraphrase_tip_with_recipe no_llm exploring_tip "exploring" true 150
     = Ok exploring_tip.
Proof.
  assert (Ha : PyStr.contains "{recipe}" exploring_tip = false) by reflexivity.
  assert (Ht : is_Some (LlmWrapper.GEMINI_TEMPERATURE no_llm)) by (eexists; reflexivity).
  assert (Hm : is_Some (LlmWrapper.GEMINI_MAX_TOKENS no_llm)) by (eexists; reflexivity).
  split; [exact Ha|]. split; [exact Ht|]. split; [exact Hm|].
  exact (paraphrase_tip_without_placeholder no_llm exploring_tip "exploring" true 150
           Ha Ht Hm).
Defined.

Lemma rstrip_idem (s : string) : PyStr.rstrip (PyStr.rstrip s) = PyStr.rstrip s.
Proof.
  induction s as [|c s IH]; [reflexivity|]. cbn [PyStr.rstrip].
  destruct (PyStr.rstrip s) as [|c' r] eqn:Hr.
  - destruct (PyStr.is_space c) eqn:Hc; [reflexivity|].
    cbn [PyStr.rstrip]. rewrite Hc. reflexivity.
  - cbn [PyStr.rstrip] in *. rewrite IH. reflexivity.
Qed.

Lemma lstrip_clean (s : string) : starts_clean (PyStr.lstrip s).
Proof.
  induction s as [|c s IH]; [exact I|]. cbn [PyStr.lstrip].
  destruct (PyStr.is_space c) eqn:Hc; [exact IH | exact Hc].
Qed.

Lemma lstrip_of_clean (s : string) : starts_clean s -> PyStr.lstrip s = s.
Proof. destruct s as [|c s]; [reflexivity|]. cbn. intros ->. reflexivity. Qed.

Lemma rstrip_clean (s : string) : starts_clean s -> starts_clean (PyStr.rstrip s).
Proof.
  destruct s as [|c s]; [intros _; exact I|]. cbn [starts_clean PyStr.rstrip].
  intros Hc. destruct (PyStr.rstrip s); [rewrite Hc|]; exact Hc.
Qed.

Lemma strip_clean (s : string) : starts_clean (PyStr.strip s).
Proof. apply rstrip_clean, lstrip_clean. Qed.

Lemma strip_idem (s : string) : PyStr.strip (PyStr.strip s) = PyStr.strip s.
Proof.
  unfold PyStr.strip at 1. rewrite (lstrip_of_clean _ (strip_clean s)).
  apply rstrip_idem.
Qed.

Lemma substring_clean (n : nat) (s : string) :
  starts_clean s -> starts_clean (String.substring 0 n s).
Proof. destruct s as [|c s], n as [|n]; cbn; auto. Qed.

Lemma rstrip_ellipsis (a : string) : PyStr.rstrip (a ++ "...") = a ++ "...".
Proof.
  induction a as [|c a IH]; [reflexivity|].
  change (String c a ++ "...") with (String c (a ++ "...")).
  cbn [PyStr.rstrip]. rewrite IH. destruct a; reflexivity.
Qed.

Lemma ellipsis_clean (a : string) : starts_clean a -> starts_clean (a ++ "...").
Proof. destruct a; [intros _; reflexivity | exact id]. Qed.

(** X21: for a cap of at least 3, and for a cap that is zero or negative
    (no cap), trimming a second time changes nothing; for a cap of at
    least 3 the result is never longer than the cap. *)
Theorem trim_idempotent (text : string) (max_length : Z) :
  (max_length <= 0 \/ 3 <= max_length)%Z ->
  LlmWrapper._trim (LlmWrapper._trim text max_length) max_length
  = LlmWrapper._trim text max_length
  /\ ((3 <= max_length)%Z ->
      (PyStr.len (LlmWrapper._trim text max_length) <= max_length)%Z).
Proof.
  intros Hm. split; [|apply trim_cap].
  assert (Hfix : PyStr.strip (LlmWrapper._trim text max_length)
                 = LlmWrapper._trim text max_length).
  { unfold LlmWrapper._trim.
    destruct ((0 <? max_length)%Z && (max_length <? PyStr.len (PyStr.strip text))%Z)
      eqn:Hc; [|apply strip_idem].
    unfold PyStr.strip at 1. rewrite lstrip_of_clean.
    - apply rstrip_ellipsis.
    - apply ellipsis_clean, rstrip_clean. unfold PyStr.slice_to.
      destruct (0 <=? max_length - 3)%Z; apply substring_clean, strip_clean. }
  unfold LlmWrapper._trim at 1. rewrite Hfix.
  destruct Hm as [Hm|Hm].
  - replace (0 <? max_length)%Z with false by (symmetry; apply Z.ltb_ge; lia).
    reflexivity.
  - pose proof (trim_cap text max_length Hm) as Hcap.
    replace (max_length <? PyStr.len (LlmWrapper._trim text max_length))%Z
      with false by (symmetry; apply Z.ltb_ge; exact Hcap).
    rewrite andb_false_r. reflexivity.
Qed.

Lemma trim_idempotent_witness :
  (20 <= 0 \/ 3 <= 20)%Z
  /\ LlmWrapper._trim (LlmWrapper._trim "  Craft a pickaxe from planks  " 20) 20
     = LlmWrapper._trim "  Craft a pickaxe from planks  " 20.
Proof.
  assert (H : (20 <= 0 \/ 3 <= 20)%Z) by (right; lia).
  split; [exact H|].
  exact (proj1 (trim_idempotent "  Craft a pickaxe from planks  " 20 H)).
Defined.

(** ** Loading the tip bank *)

Lemma load_from_file_bank (fs : gmap string TipsLoad.FileBody)
    (self : TipsLoad.Dataset) (path : string) :
  TipsLoad._load_from_file fs self path
  = match TipsLoad.bank_of_file fs path with
    | Some t => (TipsLoad.with_tips self t, true)
    | None => (self, false)
    end.
Proof.
  unfold TipsLoad._load_from_file, TipsLoad.bank_of_file.
  destruct (fs !! path) as [[|data]|]; try reflexivity.
  destruct (TipsLoad._parse data); reflexivity.
Qed.

Lemma fetch_from_url_bank (env : TipsLoad.LoadEnv) (self : TipsLoad.Dataset) :
  match TipsLoad.bank_of_http (TipsLoad.http env) with
  | Some t =>
      snd (TipsLoad._fetch_from_url env self) = true
      /\ TipsLoad.tips (fst (fst (TipsLoad._fetch_from_url env self))) = t
  | None => TipsLoad._fetch_from_url env self = (self, TipsLoad.files env, false)
  end.
Proof.
  unfold TipsLoad._fetch_from_url, TipsLoad.bank_of_http.
  destruct (TipsLoad.http env) as [|code [data|]]; try reflexivity.
  destruct (code =? 200)%Z; [|reflexivity].
  destruct (TipsLoad._parse data); [split|]; reflexivity.
Qed.

Lemma is_local_not_remote (u : string) :
  negb (String.eqb u "") && negb (TipsLoad.is_local_path u) = is_remote u.
Proof.
  unfold TipsLoad.is_local_path, is_remote.
  destruct u as [|c u]; [reflexivity|]. cbn [String.eqb negb andb].
  destruct (String.prefix "http://" (String c u) || String.prefix "https://" (String c u));
    reflexivity.
Qed.

Lemma load_guard (fs : gmap string TipsLoad.FileBody) (self : TipsLoad.Dataset)
    (path : string) :
  match fs !! path with
  | Some _ => TipsLoad._load_from_file fs self path
  | None => (self, false)
  end
  = match TipsLoad.bank_of_file fs path with
    | Some t => (TipsLoad.with_tips self t, true)
    | None => (self, false)
    end.
Proof.
  rewrite load_from_file_bank. unfold TipsLoad.bank_of_file.
  destruct (fs !! path); reflexivity.
Qed.

Lemma fetch_from_url_files (env : TipsLoad.LoadEnv) (self : TipsLoad.Dataset)
    (path : string) :
  path <> TipsLoad.cache_path self ->
  snd (fst (TipsLoad._fetch_from_url env self)) !! path = TipsLoad.files env !! path.
Proof.
  intros Hne. unfold TipsLoad._fetch_from_url.
  destruct (TipsLoad.http env) as [|code [data|]]; try reflexivity.
  destruct (code =? 200)%Z; [|reflexivity].
  destruct (TipsLoad._parse data); [|reflexivity].
  cbn [fst snd]. unfold TipsLoad._save_cache.
  destruct (TipsLoad.cache_write env); try reflexivity;
    apply lookup_insert_ne; congruence.
Qed.

Lemma init_files_other (env : TipsLoad.LoadEnv) (u cache fallback : string)
    (refresh : Z) (path : string) :
  path <> cache ->
  snd (TipsLoad.init env u cache fallback refresh) !! path
  = TipsLoad.files env !! path.
Proof.
  intros Hne. unfold TipsLoad.init, TipsLoad._load.
  set (self := {| TipsLoad.url := u; TipsLoad.cache_path := cache |}).
  pose proof (fetch_from_url_files env self path Hne) as Hfetch.
  repeat match goal with
         | |- context [if ?b then _ else _] => destruct b; try reflexivity
         end;
    cbn [fst snd]; try reflexivity; try exact Hfetch;
    repeat match goal with
           | |- context [match ?x with _ => _ end] => destruct x; try reflexivity
           end.
Qed.

Lemma init_files_fetched (env : TipsLoad.LoadEnv) (u cache fallback : string)
    (refresh : Z) (data : TipsLoad.TipsJson) (t : gmap string (list Tip)) :
  is_remote u = true ->
  inject_Z refresh < TipsLoad.t_load env ->
  TipsLoad.http env = TipsLoad.HttpStatus 200 (Some data) ->
  TipsLoad._parse data = Ok t ->
  TipsLoad.cache_write env = Saved ->
  snd (TipsLoad.init env u cache fallback refresh)
  = <[cache := TipsLoad.Content data]> (TipsLoad.files env).
Proof.
  intros Hrem Hclock Hhttp Hparse Hwrite. unfold TipsLoad.init, TipsLoad._load.
  cbn [TipsLoad.url TipsLoad.cache_path TipsLoad.fallback_path
       TipsLoad.refresh_seconds TipsLoad.last_fetch].
  rewrite is_local_not_remote, Hrem.
  replace (TipsLoad.is_local_path u) with false.
  2:{ pose proof (is_local_not_remote u) as H. rewrite Hrem in H.
      destruct (TipsLoad.is_local_path u); [|reflexivity].
      rewrite andb_false_r in H. discriminate. }
  cbn [fst snd andb].
  replace (Qltb (inject_Z refresh) (TipsLoad.t_load env - 0)) with true
    by (symmetry; apply Qltb_lt; lra).
  unfold TipsLoad._fetch_from_url. rewrite Hhttp, Hparse, Hwrite. reflexivity.
Qed.

(** X22: a new [TipsDataset] holds the bank of the first source that can
    be read and parsed, in the order: the URL as a local path, the URL
    fetched (when it is remote and the clock is past the refresh time),
    the cache file, the bundled fallback file; when none can, it holds the
    built-in bank. Loading writes no file but the cache file. *)
Theorem load_takes_first_source (env : TipsLoad.LoadEnv) (u cache fallback : string)
    (refresh : Z) :
  TipsLoad.tips (fst (TipsLoad.init env u cache fallback refresh))
  = default TipsDataset._stub (first_some (tip_sources env u cache fallback refresh))
  /\ forall path : string,
       path <> cache ->
       snd (TipsLoad.init env u cache fallback refresh) !! path
       = TipsLoad.files env !! path.
Proof.
  split; [|apply init_files_other].
  unfold TipsLoad.init, TipsLoad._load, tip_sources.
  cbn [TipsLoad.url TipsLoad.cache_path TipsLoad.fallback_path
       TipsLoad.refresh_seconds TipsLoad.last_fetch].
  rewrite is_local_not_remote, !load_guard, load_from_file_bank.
  set (self := {| TipsLoad.url := u |}).
  set (fs := TipsLoad.files env).
  assert (Htail :
    forall fs' : gmap string TipsLoad.FileBody,
      TipsLoad.tips
        (fst (if snd (match TipsLoad.bank_of_file fs cache with
                      | Some t => (TipsLoad.with_tips self t, true)
                      | None => (self, false)
                      end)
              then (fst (match TipsLoad.bank_of_file fs cache with
                         | Some t => (TipsLoad.with_tips self t, true)
                         | None => (self, false)
                         end), fs')
              else if snd (match TipsLoad.bank_of_file fs fallback with
                           | Some t => (TipsLoad.with_tips self t, true)
                           | None => (self, false)
                           end)
                   then (fst (match TipsLoad.bank_of_file fs fallback with
                              | Some t => (TipsLoad.with_tips self t, true)
                              | None => (self, false)
                              end), fs')
                   else (TipsLoad.with_tips self TipsDataset._stub, fs')))
      = default TipsDataset._stub
          (first_some [TipsLoad.bank_of_file fs cache;
                       TipsLoad.bank_of_file fs fallback])).
  { intros fs'. destruct (TipsLoad.bank_of_file fs cache); [reflexivity|].
    destruct (TipsLoad.bank_of_file fs fallback); reflexivity. }
  destruct (TipsLoad.is_local_path u) eqn:Hlocal.
  - destruct (TipsLoad.bank_of_file fs u) as [t|]; cbn [fst snd first_some];
      [reflexivity|].
    replace (is_remote u) with false
      by (rewrite <- is_local_not_remote, Hlocal, andb_false_r; reflexivity).
    cbn [andb fst snd first_some]. apply Htail.
  - cbn [fst snd first_some].
    pose proof (fetch_from_url_bank env self) as Hfetch.
    destruct (is_remote u && Qltb (inject_Z refresh) (TipsLoad.t_load env - 0));
      [|cbn [fst snd first_some]; apply Htail].
    destruct (TipsLoad.bank_of_http (TipsLoad.http env)) as [t|].
    + destruct Hfetch as [-> <-]. reflexivity.
    + rewrite Hfetch. cbn [fst snd first_some]. apply Htail.
Qed.

Lemma load_takes_first_source_witness :
  "companion/tips_default.json" <> "data/tips_cache.json"
  /\ snd (TipsLoad.init online_env "https://tips.example/bank.json"
            "data/tips_cache.json" "companion/tips_default.json" 3600)
       !! "companion/tips_default.json"
     = TipsLoad.files online_env !! "companion/tips_default.json".
Proof.
  assert (H : "companion/tips_default.json" <> "data/tips_cache.json") by discriminate.
  split; [exact H|].
  exact (proj2 (load_takes_first_source online_env "https://tips.example/bank.json"
                  "data/tips_cache.json" "companion/tips_default.json" 3600) _ H).
Defined.

Lemma load_examples :
  TipsDataset.get_tips_for_label
    (TipsLoad.tips
       (fst (TipsLoad.init online_env "https://tips.example/bank.json"
               "data/tips_cache.json" "companion/tips_default.json" 3600)))
    "exploring"
  = [{| text := "Climb for a view."; spoiler_level := 0; priority := 4 |}]
  /\ TipsDataset.get_tips_for_label
       (TipsLoad.tips
          (fst (TipsLoad.init online_env "https://tips.example/bank.json"
                  "data/tips_cache.json" "companion/tips_default.json" 3600)))
       "version"
     = []
  /\ TipsLoad.tips
       (fst (TipsLoad.init (offline_env ∅) "https://tips.example/bank.json"
               "data/tips_cache.json" "companion/tips_default.json" 3600))
     = TipsDataset._stub.
Proof.
  repeat split; vm_compute; reflexivity.
Qed.

(** X23: the cache round trip: when a remote URL was fetched, parsed and
    written to the cache file, a dataset constructed later on the files
    left behind, with the URL out of reach, holds the bank that was
    fetched. *)
Theorem cache_round_trip (env env' : TipsLoad.LoadEnv) (u cache fallback : string)
    (refresh : Z) (data : TipsLoad.TipsJson) (t : gmap string (list Tip)) :
  is_remote u = true ->
  inject_Z refresh < TipsLoad.t_load env ->
  TipsLoad.http env = TipsLoad.HttpStatus 200 (Some data) ->
  TipsLoad._parse data = Ok t ->
  TipsLoad.cache_write env = Saved ->
  TipsLoad.files env' = snd (TipsLoad.init env u cache fallback refresh) ->
  TipsLoad.bank_of_http (TipsLoad.http env') = None ->
  TipsLoad.tips (fst (TipsLoad.init env u cache fallback refresh)) = t
  /\ TipsLoad.tips (fst (TipsLoad.init env' u cache fallback refresh)) = t.
Proof.
  intros Hrem Hclock Hhttp Hparse Hwrite Hfiles Hoff.
  assert (Hlocal : TipsLoad.is_local_path u = false).
  { pose proof (is_local_not_remote u) as H. rewrite Hrem in H.
    destruct (TipsLoad.is_local_path u); [|reflexivity].
    rewrite andb_false_r in H. discriminate. }
  assert (Hcache : TipsLoad.files env' !! cache = Some (TipsLoad.Content data)).
  { rewrite Hfiles,
      (init_files_fetched env u cache fallback refresh data t
         Hrem Hclock Hhttp Hparse Hwrite).
    apply lookup_insert_eq. }
  unfold TipsLoad.init, TipsLoad._load.
  cbn [TipsLoad.url TipsLoad.cache_path TipsLoad.fallback_path
       TipsLoad.refresh_seconds TipsLoad.last_fetch].
  rewrite is_local_not_remote, Hlocal, Hrem. cbn [fst snd andb]. split.
  - replace (Qltb (inject_Z refresh) (TipsLoad.t_load env - 0)) with true
      by (symmetry; apply Qltb_lt; lra).
    unfold TipsLoad._fetch_from_url. rewrite Hhttp, Hparse. reflexivity.
  - set (self := {| TipsLoad.url := u |}).
    pose proof (fetch_from_url_bank env' self) as Hfetch. rewrite Hoff in Hfetch.
    assert (Hskip :
      (if Qltb (inject_Z refresh) (TipsLoad.t_load env' - 0)
       then TipsLoad._fetch_from_url env' self
       else (self, TipsLoad.files env', false))
      = (self, TipsLoad.files env', false))
      by (destruct (Qltb _ _); [exact Hfetch | reflexivity]).
    rewrite Hskip, Hcache. cbn [fst snd].
    unfold TipsLoad._load_from_file. rewrite Hcache, Hparse. reflexivity.
Qed.

Lemma cache_round_trip_witness :
  is_remote "https://tips.example/bank.json" = true
  /\ inject_Z 3600 < TipsLoad.t_load online_env
  /\ TipsLoad.tips
       (fst (TipsLoad.init
               (offline_env
                  (snd (TipsLoad.init online_env "https://tips.example/bank.json"
                          "data/tips_cache.json" "companion/tips_default.json" 3600)))
               "https://tips.example/bank.json" "data/tips_cache.json"
               "companion/tips_default.json" 3600))
     = TipsLoad.tips
         (fst (TipsLoad.init online_env "https://tips.example/bank.json"
                 "data/tips_cache.json" "companion/tips_default.json" 3600)).
Proof.
  assert (Hrem : is_remote "https://tips.example/bank.json" = true) by reflexivity.
  assert (Hclock : inject_Z 3600 < TipsLoad.t_load online_env) by reflexivity.
  split; [exact Hrem|]. split; [exact Hclock|].
  destruct (cache_round_trip online_env
              (offline_env
                 (snd (TipsLoad.init online_env "https://tips.example/bank.json"
                         "data/tips_cache.json" "companion/tips_default.json" 3600)))
              "https://tips.example/bank.json" "data/tips_cache.json"
              "companion/tips_default.json" 3600 sample_doc _
              Hrem Hclock eq_refl eq_refl eq_refl eq_refl eq_refl) as [H1 H2].
  rewrite H1, H2. reflexivity.
Defined.
